(** * swing-your-swing: the upload pipeline of app/api, embedded in Rocq

    The development follows the TypeScript sources of the API server:
    - [app/api/src/db/index.ts]        the SQLite schema built by [initSchema]
    - [app/api/src/index.ts]           the Express route handlers
    - [services/gemini.service.ts]     [waitForFileActive], [analyzeSwingVideo]
    - [services/video.compression.ts]  [compressVideo], [cleanupOriginal]
    - [services/pose.service.ts]       [analyzePose]

    JavaScript values are modelled by [jsval], thrown exceptions by [exn],
    and the server's effects (database, upload directory, uuid generator)
    by a state-and-exception monad over [world] in which state written
    before a throw survives the throw, as it does with bun:sqlite (no
    transactions are opened by the handlers).

    A JavaScript string is a sequence of UTF-16 code units; the model's
    strings are the sequences whose code units are all below 256 (Latin-1),
    one [ascii] character per code unit. Strings holding a code unit of
    256 or more are outside the model. *)

From Stdlib Require Import String Ascii List ZArith QArith Qround Lia Lqa Bool.
Import ListNotations.

Open Scope string_scope.
Set Warnings "-register-all".

(** ** JavaScript values *)

Inductive jsval : Type :=
| JUndefined
| JNull
| JBool (b : bool)
| JNum (q : Q)
| JStr (s : string)
| JArr (xs : list jsval)
| JObj (fields : list (string * jsval)).

(** Exceptions as thrown by the runtime ([TypeError]), by the code itself
    ([new Error(..)]) and by bun:sqlite ([SQLiteError]). *)
Inductive exn : Type :=
| TypeError (msg : string)
| Error (msg : string)
| SQLiteError (msg : string).

Definition exn_message (e : exn) : string :=
  match e with TypeError m | Error m | SQLiteError m => m end.

(** Property lookup in an object: with duplicate keys [JSON.parse] keeps
    the last one, so the last binding wins. *)
Fixpoint assoc_last (k : string) (fs : list (string * jsval)) : option jsval :=
  match fs with
  | [] => None
  | (k', v) :: rest =>
      match assoc_last k rest with
      | Some w => Some w
      | None => if String.eqb k k' then Some v else None
      end
  end.

(** [v.k]: reading a property of [undefined] or [null] throws a TypeError;
    arrays and strings have a [length]; every other missing property reads
    as [undefined]. *)
Definition get_prop (v : jsval) (k : string) : exn + jsval :=
  match v with
  | JUndefined => inl (TypeError ("Cannot read properties of undefined (reading '" ++ k ++ "')"))
  | JNull => inl (TypeError ("Cannot read properties of null (reading '" ++ k ++ "')"))
  | JObj fs => inr (match assoc_last k fs with Some w => w | None => JUndefined end)
  | JArr xs =>
      inr (if String.eqb k "length" then JNum (inject_Z (Z.of_nat (List.length xs))) else JUndefined)
  | JStr s =>
      inr (if String.eqb k "length" then JNum (inject_Z (Z.of_nat (String.length s))) else JUndefined)
  | _ => inr JUndefined
  end.

(** JavaScript truthiness (numbers here are never NaN). *)
Definition truthy (v : jsval) : bool :=
  match v with
  | JUndefined | JNull => false
  | JBool b => b
  | JNum q => negb (Qeq_bool q 0)
  | JStr s => negb (String.eqb s "")
  | JArr _ | JObj _ => true
  end.

(** [v === undefined || v === null] *)
Definition nullish (v : jsval) : bool := match v with JUndefined | JNull => true | _ => false end.

(** ** SQLite values, tables and statements *)

(** A cell: [SJson v] is the TEXT produced by [JSON.stringify(v)]
    ([JSON.stringify] is injective on JSON values, so the value stands for
    its text). *)
Inductive sqlval : Type :=
| SNull
| SNum (q : Q)
| SText (s : string)
| SJson (v : jsval).

(** [=] in a WHERE clause and in UNIQUE checks: NULL equals nothing. *)
Definition sql_eqb (a b : sqlval) : bool :=
  match a, b with
  | SNum x, SNum y => Qeq_bool x y
  | SText x, SText y => String.eqb x y
  | _, _ => false
  end.

Record column : Type := mkColumn {
  col_name : string;
  col_notnull : bool;
  col_unique : bool;
  col_default : sqlval;
  col_check : sqlval -> bool;
  (** the text of the CHECK expression, which SQLite quotes when it fails *)
  col_check_text : string
}.

Record table : Type := mkTable {
  tbl_name : string;
  tbl_cols : list column;
  (** FOREIGN KEY (col) REFERENCES reftable(refcol) *)
  tbl_fks : list (string * string * string)
}.

Definition row := list (string * sqlval).

Record db : Type := mkDb {
  db_tables : list (table * list row);
  (** [PRAGMA foreign_keys]; SQLite starts with it OFF *)
  db_foreign_keys : bool
}.

(** Statements prepared by the handlers, each against one table. *)
Inductive stmt : Type :=
(** [INSERT INTO t (cols) VALUES (?, ..)] *)
| SInsert (t : string) (cols : list string)
(** [SELECT cols FROM t WHERE wcol = ?]; [cols = ["*"]] for [SELECT *] *)
| SSelect (t : string) (cols : list string) (wcol : string)
(** [DELETE FROM t WHERE wcol = ?] *)
| SDelete (t : string) (wcol : string)
(** [UPDATE t SET scol = c WHERE wcol = ?] when [sval = Some c],
    [UPDATE t SET scol = ? WHERE wcol = ?] when [sval = None] *)
| SUpdate (t : string) (scol : string) (sval : option sqlval) (wcol : string).

(** *** Preparing a statement: bun:sqlite's [db.prepare] fails on an
    unknown table or column. *)

Fixpoint find_table (t : string) (ts : list (table * list row))
  : option (table * list row) :=
  match ts with
  | [] => None
  | (tb, rs) :: rest => if String.eqb (tbl_name tb) t then Some (tb, rs) else find_table t rest
  end.

Definition has_column (tb : table) (c : string) : bool :=
  existsb (fun col => String.eqb (col_name col) c) (tbl_cols tb).

Definition stmt_table (s : stmt) : string :=
  match s with
  | SInsert t _ | SSelect t _ _ | SDelete t _ | SUpdate t _ _ _ => t
  end.

Definition stmt_columns (s : stmt) : list string :=
  match s with
  | SInsert _ cols => cols
  | SSelect _ cols w => filter (fun c => negb (String.eqb c "*")) cols ++ [w]
  | SDelete _ w => [w]
  | SUpdate _ c _ w => [c; w]
  end.

Fixpoint first_missing (tb : table) (cs : list string) : option string :=
  match cs with
  | [] => None
  | c :: rest => if has_column tb c then first_missing tb rest else Some c
  end.

Definition prepare (d : db) (s : stmt) : exn + table :=
  match find_table (stmt_table s) (db_tables d) with
  | None => inl (SQLiteError ("no such table: " ++ stmt_table s))
  | Some (tb, _) =>
      match first_missing tb (stmt_columns s) with
      | Some c => inl (SQLiteError ("no such column: " ++ c))
      | None => inr tb
      end
  end.

(** *** Running a statement *)

Fixpoint lookup_cell (c : string) (r : row) : sqlval :=
  match r with
  | [] => SNull
  | (c', v) :: rest => if String.eqb c c' then v else lookup_cell c rest
  end.

Fixpoint assoc_cols (cols : list string) (vals : list sqlval) : list (string * sqlval) :=
  match cols, vals with
  | c :: cs, v :: vs => (c, v) :: assoc_cols cs vs
  | _, _ => []
  end.

(** The row an INSERT builds: listed columns get their value, the others
    their DEFAULT. *)
Definition build_row (tb : table) (given : list (string * sqlval)) : row :=
  map (fun col =>
         (col_name col,
          match find (fun cv => String.eqb (fst cv) (col_name col)) given with
          | Some (_, v) => v
          | None => col_default col
          end))
      (tbl_cols tb).

Definition is_null (v : sqlval) : bool := match v with SNull => true | _ => false end.

Definition constraint_error (d : db) (tb : table) (rs : list row) (r : row) : option exn :=
  let qual c := tbl_name tb ++ "." ++ c in
  match find (fun col => col_notnull col && is_null (lookup_cell (col_name col) r)) (tbl_cols tb) with
  | Some col => Some (SQLiteError ("NOT NULL constraint failed: " ++ qual (col_name col)))
  | None =>
  match find (fun col => negb (col_check col (lookup_cell (col_name col) r))) (tbl_cols tb) with
  | Some col => Some (SQLiteError ("CHECK constraint failed: " ++ col_check_text col))
  | None =>
  match find (fun col => col_unique col &&
                existsb (fun r' => sql_eqb (lookup_cell (col_name col) r') (lookup_cell (col_name col) r)) rs)
             (tbl_cols tb) with
  | Some col => Some (SQLiteError ("UNIQUE constraint failed: " ++ qual (col_name col)))
  | None =>
    if db_foreign_keys d then
      if forallb (fun '(c, rt, rc) =>
                    let v := lookup_cell c r in
                    is_null v ||
                    match find_table rt (db_tables d) with
                    | Some (_, rrs) => existsb (fun r' => sql_eqb (lookup_cell rc r') v) rrs
                    | None => false
                    end) (tbl_fks tb)
      then None
      else Some (SQLiteError "FOREIGN KEY constraint failed")
    else None
  end end end.

Fixpoint set_rows (t : string) (rs : list row) (ts : list (table * list row)) : list (table * list row) :=
  match ts with
  | [] => []
  | (tb, old) :: rest =>
      if String.eqb (tbl_name tb) t then (tb, rs) :: rest else (tb, old) :: set_rows t rs rest
  end.

Definition with_rows (d : db) (t : string) (rs : list row) : db :=
  mkDb (set_rows t rs (db_tables d)) (db_foreign_keys d).

Definition rows_of (d : db) (t : string) : list row :=
  match find_table t (db_tables d) with Some (_, rs) => rs | None => [] end.

Definition update_cell (c : string) (v : sqlval) (r : row) : row :=
  map (fun cv => if String.eqb (fst cv) c then (c, v) else cv) r.

(** [stmt.run(params)] / [stmt.get(params)] / [stmt.all(params)] on a
    prepared statement: the rows read and the new database. *)
Definition run_stmt (d : db) (s : stmt) (params : list sqlval) : exn + (list row * db) :=
  match prepare d s with
  | inl e => inl e
  | inr tb =>
    let rs := rows_of d (tbl_name tb) in
    match s with
    | SInsert t cols =>
        if Nat.eqb (List.length cols) (List.length params) then
          let r := build_row tb (assoc_cols cols params) in
          match constraint_error d tb rs r with
          | Some e => inl e
          | None => inr ([], with_rows d t (rs ++ [r]))
          end
        else inl (SQLiteError "wrong number of bindings")
    | SSelect _ _ w =>
        match params with
        | [p] => inr (filter (fun r => sql_eqb (lookup_cell w r) p) rs, d)
        | _ => inl (SQLiteError "wrong number of bindings")
        end
    | SDelete t w =>
        match params with
        | [p] => inr ([], with_rows d t (filter (fun r => negb (sql_eqb (lookup_cell w r) p)) rs))
        | _ => inl (SQLiteError "wrong number of bindings")
        end
    | SUpdate t c sv w =>
        let split := match sv, params with
                     | Some v, [p] => Some (v, p)
                     | None, [v; p] => Some (v, p)
                     | _, _ => None
                     end in
        match split with
        | Some (v, p) =>
            inr ([], with_rows d t (map (fun r => if sql_eqb (lookup_cell w r) p then update_cell c v r else r) rs))
        | None => inl (SQLiteError "wrong number of bindings")
        end
    end
  end.

(** ** The schema of [initSchema] (app/api/src/db/index.ts) *)

Definition col (c : string) : column := mkColumn c false false SNull (fun _ => true) EmptyString.
Definition col_notnull_ (c : string) : column := mkColumn c true false SNull (fun _ => true) EmptyString.
(** [TEXT PRIMARY KEY]: unique, and (an SQLite quirk) not implicitly NOT NULL *)
Definition col_pk (c : string) : column := mkColumn c false true SNull (fun _ => true) EmptyString.
Definition col_notnull_unique (c : string) : column := mkColumn c true true SNull (fun _ => true) EmptyString.
Definition col_default_ (c : string) (v : sqlval) : column := mkColumn c false false v (fun _ => true) EmptyString.
(** [createdAt DATETIME DEFAULT CURRENT_TIMESTAMP]; the clock is not tracked *)
Definition col_createdAt : column := col_default_ "createdAt" (SText "CURRENT_TIMESTAMP").

Definition goalType_check (v : sqlval) : bool :=
  match v with
  | SNull => true
  | SText s => String.eqb s "Ideal" || String.eqb s "Playable"
  | _ => false
  end.

Definition players_table : table :=
  mkTable "players" [col_pk "id"; col_notnull_ "name"; col "handicap"; col_createdAt] [].

Definition swings_table : table :=
  mkTable "swings"
    [col_pk "id"; col_notnull_ "playerId"; col_notnull_ "club"; col_notnull_ "videoUrl";
     col_default_ "analyzed" (SNum 0); col_createdAt]
    [("playerId", "players", "id")].

Definition launch_monitor_data_table : table :=
  mkTable "launch_monitor_data"
    [col_pk "id"; col_notnull_unique "swingId"; col_notnull_ "imageUrl";
     col "ballSpeed"; col "clubSpeed"; col "smashFactor"; col "carry"; col "spinRate";
     col "extractedRawText"; col_createdAt]
    [("swingId", "swings", "id")].

Definition swing_metrics_table : table :=
  mkTable "swing_metrics"
    [col_pk "id"; col_notnull_unique "swingId";
     col "addressTimeMs"; col "topTimeMs"; col "impactTimeMs"; col "finishTimeMs";
     col "addressAngles"; col "topAngles"; col "impactAngles"; col "finishAngles";
     col "estimatedClubSpeed"; col "estimatedClubPath"; col "estimatedDistance"; col_createdAt]
    [("swingId", "swings", "id")].

Definition lessons_table : table :=
  mkTable "lessons"
    [col_pk "id"; col_notnull_ "swingId"; mkColumn "goalType" false false SNull goalType_check "goalType IN ('Ideal', 'Playable')";
     col "drills"; col "aiReview"; col_createdAt]
    [("swingId", "swings", "id")].

Definition toro_baselines_table : table :=
  mkTable "toro_baselines"
    [col_pk "id"; col_notnull_ "club"; col "addressAngles"; col "topAngles";
     col "impactAngles"; col "finishAngles"] [].

Definition schema_tables : list table :=
  [players_table; swings_table; launch_monitor_data_table; swing_metrics_table;
   lessons_table; toro_baselines_table].

(** [CREATE TABLE IF NOT EXISTS ..] for each table, in order. *)
Definition create_if_not_exists (d : db) (tb : table) : db :=
  match find_table (tbl_name tb) (db_tables d) with
  | Some _ => d
  | None => mkDb (db_tables d ++ [(tb, [])]) (db_foreign_keys d)
  end.

Definition initSchema (d : db) : db := fold_left create_if_not_exists schema_tables d.

(** [new Database(dbPath)] on a fresh file, then [PRAGMA journal_mode = WAL]
    (which leaves [foreign_keys] at its default, OFF). *)
Definition fresh_db : db := mkDb [] false.

(** ** The server's world and its monad *)

Record world : Type := mkWorld {
  w_db : db;
  (** the upload directory: path and size in bytes of each file *)
  w_files : list (string * Z);
  (** [uuidv4()] returns [w_uuids w_next_uuid], then advances *)
  w_next_uuid : nat;
  w_uuids : nat -> string
}.

Definition M (A : Type) : Type := world -> (exn + A) * world.

Definition ret {A} (a : A) : M A := fun w => (inr a, w).
Definition mbind {A B} (m : M A) (k : A -> M B) : M B :=
  fun w => match m w with
           | (inl e, w') => (inl e, w')
           | (inr a, w') => k a w'
           end.
Definition throw {A} (e : exn) : M A := fun w => (inl e, w).
(** [try { m } catch (e) { h(e) }]: the handler runs in the state reached
    at the throw. *)
Definition try_catch {A} (m : M A) (h : exn -> M A) : M A :=
  fun w => match m w with
           | (inl e, w') => h e w'
           | ok => ok
           end.
Definition lift {A} (r : exn + A) : M A :=
  match r with inl e => throw e | inr a => ret a end.

Notation "x <- m ;; k" := (mbind m (fun x => k))
  (at level 61, m at next level, right associativity).
Notation "m ;;; k" := (mbind m (fun _ => k)) (at level 61, right associativity).

Definition get_world : M world := fun w => (inr w, w).
Definition put_world (w : world) : M unit := fun _ => (inr tt, w).

Definition uuidv4 : M string :=
  fun w => (inr (w_uuids w (w_next_uuid w)),
            mkWorld (w_db w) (w_files w) (S (w_next_uuid w)) (w_uuids w)).

(** [db.prepare(sql)] *)
Definition db_prepare (s : stmt) : M unit :=
  fun w => match prepare (w_db w) s with
           | inl e => (inl e, w)
           | inr _ => (inr tt, w)
           end.

(** [stmt.run(..)], [stmt.get(..)], [stmt.all(..)] *)
Definition db_run (s : stmt) (params : list sqlval) : M (list row) :=
  fun w => match run_stmt (w_db w) s params with
           | inl e => (inl e, w)
           | inr (rs, d') => (inr rs, mkWorld d' (w_files w) (w_next_uuid w) (w_uuids w))
           end.

(** [setupDB()]: the schema, then the guest player when [players] is empty. *)
Definition setupDB (d : db) : db :=
  let d1 := initSchema d in
  match rows_of d1 "players" with
  | [] => match run_stmt d1 (SInsert "players" ["id"; "name"; "handicap"])
                           [SText "usr_12345"; SText "Guest Golfer"; SNum 15] with
          | inr (_, d2) => d2
          | inl _ => d1
          end
  | _ => d1
  end.

(** *** Arguments of [stmt.run]: JavaScript values bound by bun:sqlite *)

(** An argument expression: a JavaScript value, or the string
    [JSON.stringify(v)] for [v] not [undefined]. *)
Inductive arg : Type :=
| AVal (v : jsval)
| AJsonText (v : jsval).

Definition JSON_stringify (v : jsval) : arg :=
  match v with JUndefined => AVal JUndefined | _ => AJsonText v end.

(** bun:sqlite binds [undefined] and [null] as NULL, booleans as 0/1 and
    refuses objects and arrays. *)
Definition bind_arg (a : arg) : exn + sqlval :=
  match a with
  | AJsonText v => inr (SJson v)
  | AVal (JUndefined | JNull) => inr SNull
  | AVal (JBool b) => inr (SNum (if b then 1 else 0))
  | AVal (JNum q) => inr (SNum q)
  | AVal (JStr s) => inr (SText s)
  | AVal (JArr _ | JObj _) =>
      inl (TypeError "Binding expected string, TypedArray, boolean, number, bigint or null")
  end.

Fixpoint bind_args (xs : list arg) : exn + list sqlval :=
  match xs with
  | [] => inr []
  | a :: rest =>
      match bind_arg a with
      | inl e => inl e
      | inr v => match bind_args rest with inl e => inl e | inr vs => inr (v :: vs) end
      end
  end.

Definition db_run_args (s : stmt) (xs : list arg) : M (list row) :=
  vs <- lift (bind_args xs) ;; db_run s vs.

Definition prop (v : jsval) (k : string) : M jsval := lift (get_prop v k).

(** Values bun:sqlite binds without error (not arrays or objects), and the
    cell they become. *)
Definition scalar (v : jsval) : bool := match v with JArr _ | JObj _ => false | _ => true end.

Definition bind_scalar (v : jsval) : sqlval :=
  match bind_arg (AVal v) with inr s => s | inl _ => SNull end.

(** [o.k] on a parsed object. *)
Definition field (fs : list (string * jsval)) (k : string) : jsval :=
  match assoc_last k fs with Some v => v | None => JUndefined end.

(** ** Node's [path] module (POSIX) and [fs/promises] *)

(** Split at the last occurrence of [c]. *)
Fixpoint split_last (c : ascii) (s : string) : option (string * string) :=
  match s with
  | EmptyString => None
  | String a rest =>
      match split_last c rest with
      | Some (l, r) => Some (String a l, r)
      | None => if Ascii.eqb a c then Some (EmptyString, rest) else None
      end
  end.

Definition path_basename (p : string) : string :=
  match split_last "/" p with Some (_, r) => r | None => p end.

Definition path_dirname (p : string) : string :=
  match split_last "/" p with
  | Some (EmptyString, _) => "/"
  | Some (l, _) => l
  | None => "."
  end.

(** The extension starts at the last dot of the base name, unless that dot
    is its first character. *)
Definition path_extname (p : string) : string :=
  match split_last "." (path_basename p) with
  | Some (EmptyString, _) => ""
  | Some (_, r) => "." ++ r
  | None => ""
  end.

Definition path_join (d f : string) : string := d ++ "/" ++ f.

Fixpoint file_lookup (p : string) (fs : list (string * Z)) : option Z :=
  match fs with
  | [] => None
  | (p', n) :: rest => if String.eqb p p' then Some n else file_lookup p rest
  end.

Definition fs_remove (p : string) (fs : list (string * Z)) : list (string * Z) :=
  filter (fun e => negb (String.eqb (fst e) p)) fs.

Definition enoent (p : string) : exn :=
  Error ("ENOENT: no such file or directory, '" ++ p ++ "'").

(** [(await fs.stat(p)).size] *)
Definition fs_stat (p : string) : M Z :=
  w <- get_world ;;
  match file_lookup p (w_files w) with
  | Some n => ret n
  | None => throw (enoent p)
  end.

(** [await fs.unlink(p)] *)
Definition fs_unlink (p : string) : M unit :=
  w <- get_world ;;
  match file_lookup p (w_files w) with
  | Some _ => put_world (mkWorld (w_db w) (fs_remove p (w_files w)) (w_next_uuid w) (w_uuids w))
  | None => throw (enoent p)
  end.

(** ffmpeg writing [p] with [n] bytes *)
Definition fs_write (p : string) (n : Z) : M unit :=
  w <- get_world ;;
  put_world (mkWorld (w_db w) ((p, n) :: fs_remove p (w_files w)) (w_next_uuid w) (w_uuids w)).

(** The upload directory ([path.join(__dirname, "../../uploads")]). *)
Definition UPLOADS_DIR : string := "/app/uploads".

(** ** The transcoder: services/video.compression.ts *)

Definition TARGET_SIZE_MB : Z := 25.

Inductive encode_plan : Type :=
(** [encodeWithCrf(inputPath, outputPath, crf)] *)
| EncodeCrf (crf : Z)
(** [encodeWithBitrate(inputPath, outputPath, videoBitrateKbps)] *)
| EncodeBitrate (kbps : Z).

(** The outcomes of the external tools for one call: [ffprobe]'s
    [metadata.format.duration] (absent as [None]) and the ffmpeg run for a
    plan (the size in bytes of the file it writes). A partial output left
    by a failed ffmpeg run is not tracked. *)
Record media_env : Type := mkMediaEnv {
  probe_duration : exn + option Q;
  ffmpeg_run : encode_plan -> exn + Z
}.

(** [getVideoDuration]: [metadata.format.duration || 10] *)
Definition getVideoDuration (me : media_env) : M Q :=
  d <- lift (probe_duration me) ;;
  ret (match d with
       | Some q => if Qeq_bool q 0 then inject_Z 10 else q
       | None => inject_Z 10
       end).

(** [Math.max(500, Math.floor((targetBitsPerSec - audioBitrate) / 1024))]
    with [targetBitsPerSec = (TARGET_SIZE_MB * 8 * 1024 * 1024) / durationSec]
    and [audioBitrate = 128 * 1024]; the arithmetic is done exactly, in Q. *)
Definition videoBitrateKbps (durationSec : Q) : Z :=
  let targetBitsPerSec := inject_Z (TARGET_SIZE_MB * 8 * 1024 * 1024) / durationSec in
  let audioBitrate := inject_Z (128 * 1024) in
  Z.max 500 (Qfloor ((targetBitsPerSec - audioBitrate) / inject_Z 1024)).

(** The branch of [compressVideo] on [inputSizeMB <= TARGET_SIZE_MB]. *)
Definition compress_plan (durationSec : Q) (inputSizeBytes : Z) : encode_plan :=
  let inputSizeMB := inject_Z inputSizeBytes / inject_Z (1024 * 1024) in
  if Qle_bool inputSizeMB (inject_Z TARGET_SIZE_MB) then EncodeCrf 23
  else EncodeBitrate (videoBitrateKbps durationSec).

(** [cleanupOriginal]: a failed unlink is logged and swallowed. *)
Definition cleanupOriginal (inputPath : string) : M unit :=
  try_catch (fs_unlink inputPath) (fun _ => ret tt).

(** [encodeWithCrf] / [encodeWithBitrate]: on ffmpeg's ['end'] the output
    exists; the bitrate variant stats it; both delete the original and
    resolve with [outputPath]; on ['error'] they reject. *)
Definition encode (me : media_env) (plan : encode_plan) (inputPath outputPath : string) : M string :=
  n <- lift (ffmpeg_run me plan) ;;
  fs_write outputPath n ;;;
  (match plan with EncodeBitrate _ => fs_stat outputPath ;;; ret tt | EncodeCrf _ => ret tt end) ;;;
  cleanupOriginal inputPath ;;;
  ret outputPath.

Definition compressed_name (uuid ext : string) : string := "compressed-" ++ uuid ++ ext.

Definition compressVideo (me : media_env) (inputPath : string) : M string :=
  let fileName := path_basename inputPath in
  let dirName := path_dirname inputPath in
  let ext := path_extname fileName in
  u <- uuidv4 ;;
  let outputPath := path_join dirName (compressed_name u ext) in
  durationSec <- getVideoDuration me ;;
  inputSizeBytes <- fs_stat inputPath ;;
  encode me (compress_plan durationSec inputSizeBytes) inputPath outputPath.

(** ** The remote inference client: services/gemini.service.ts *)

Inductive file_state : Type := ACTIVE | FAILED | PROCESSING | STATE_UNSPECIFIED.

(** How the awaited [ai.files.get] call settles: it resolves with a file
    whose [state] is given, it rejects with an error (which propagates out
    of the loop), or it never settles (the call is awaited with no timeout
    of its own). *)
Inductive get_reply : Type :=
| GetResolves (s : file_state)
| GetRejects (e : exn)
| GetHangs.

(** One iteration's observations: how long [ai.files.get] took to settle,
    how it settled, and how late the [setTimeout] timer fired after its
    requested delay. Times are milliseconds of [Date.now()]. *)
Record poll : Type := mkPoll {
  get_latency : N;
  get_result : get_reply;
  timer_lateness : N
}.

(** How the promise of [waitForFileActive] ends: it settles (resolves with
    [inr tt] or rejects with an error) at the given time, or it stays
    pending forever on a get that never settles. *)
Inductive wait_end : Type :=
| Settles (r : exn + unit) (at_ms : N)
| Blocks.

Definition MAX_WAIT_MS : N := 120000.
Definition POLL_INTERVAL_MS : N := 3000.

(** [waitForFileActive(fileName)]: the [while] loop, run with [fuel]
    iterations at most ([None] when the fuel runs out); [polls k] is what
    the [k]-th iteration observes and [now] is [Date.now()] at the loop
    test. The result comes with the times at which each [ai.files.get]
    was issued. *)
Fixpoint wait_loop (fuel : nat) (fileName : string) (polls : nat -> poll)
         (start : N) (k : nat) (now : N) : option (wait_end * list N) :=
  if N.ltb (now - start) MAX_WAIT_MS then
    match fuel with
    | O => None
    | S fuel' =>
        let p := polls k in
        let settled := (now + get_latency p)%N in
        match get_result p with
        | GetHangs => Some (Blocks, [now])
        | GetRejects e => Some (Settles (inl e) settled, [now])
        | GetResolves ACTIVE => Some (Settles (inr tt) settled, [now])
        | GetResolves FAILED =>
            Some (Settles (inl (Error ("File " ++ fileName ++ " processing failed."))) settled, [now])
        | GetResolves _ =>
            match wait_loop fuel' fileName polls start (S k)
                    (settled + POLL_INTERVAL_MS + timer_lateness p)%N with
            | Some (r, ts) => Some (r, now :: ts)
            | None => None
            end
        end
    end
  else Some (Settles (inl (Error ("File " ++ fileName ++ " did not become ACTIVE within 120s."))) now, []).

(** The loop with enough fuel for every run (see [wait_loop_fuel_enough]). *)
Definition WAIT_FUEL : nat := S (N.to_nat (MAX_WAIT_MS / POLL_INTERVAL_MS)).

Definition waitForFileActive (fileName : string) (polls : nat -> poll) (start : N)
  : option (wait_end * list N) :=
  wait_loop WAIT_FUEL fileName polls start 0 start.

(** The settled result of the wait's promise, as [await] sees it in
    [analyzeSwingVideo]; [None] when the promise never settles. *)
Definition wait_settled (o : option (wait_end * list N)) : option (exn + unit) :=
  match o with
  | Some (Settles r _, _) => Some r
  | _ => None
  end.

(** [analyzeSwingVideo(videoPath, club, mimeType)]: with the dummy key it
    returns [null]; otherwise the upload, [waitForFileActive], the
    [generateContent] call and [JSON.parse] of the de-fenced text run in
    turn, and the [catch] block logs and rethrows whatever failed. The
    outcome of each remote step is an input. *)
Record gemini_env : Type := mkGeminiEnv {
  g_dummy_key : bool;
  (** [ai.files.upload] of the file at the given path *)
  g_upload : string -> exn + unit;
  g_wait : exn + unit;
  g_generate : exn + unit;
  g_parsed : exn + jsval
}.

Definition analyzeSwingVideo (ge : gemini_env) (videoPath : string) : M jsval :=
  if g_dummy_key ge then ret JNull
  else try_catch (lift (g_upload ge videoPath) ;;; lift (g_wait ge) ;;; lift (g_generate ge) ;;;
                  lift (g_parsed ge))
                 (fun e => throw e).

(** ** Route handlers: app/api/src/index.ts *)

Record response : Type := mkResponse {
  res_status : Z;
  res_body : list (string * jsval)
}.

Definition error_response (e : exn) : response :=
  mkResponse 500 [("error", JStr (exn_message e))].

(** The file multer stored: [file.path], [file.filename], [file.mimetype]. *)
Record uploaded_file : Type := mkUploadedFile {
  file_path : string;
  file_filename : string;
  file_mimetype : string
}.

Record upload_request : Type := mkUploadRequest {
  up_file : option uploaded_file;
  (** [req.body.club] and [req.body.playerId], absent as [None] *)
  up_club : option string;
  up_playerId : option string
}.

Definition insertSwing : stmt :=
  SInsert "swings" ["id"; "playerId"; "club"; "videoUrl"; "analyzed"].

Definition insertMetrics : stmt :=
  SInsert "swing_metrics"
    ["id"; "swingId"; "addressTimeMs"; "topTimeMs"; "impactTimeMs"; "finishTimeMs";
     "addressAngles"; "topAngles"; "impactAngles"; "finishAngles";
     "estimatedClubSpeed"; "estimatedClubPath"; "estimatedDistance"].

Definition insertLesson : stmt :=
  SInsert "lessons" ["id"; "swingId"; "goalType"; "drills"; "aiReview"].

Definition setAnalyzed : stmt := SUpdate "swings" "analyzed" (Some (SNum 1)) "id".

(** [v.k1.k2] *)
Definition prop2 (v : jsval) (k1 k2 : string) : M jsval :=
  x <- prop v k1 ;; prop x k2.

(** [x > 0] for the [length] of a parsed JSON value: numbers and booleans
    compare numerically, and [null] (0) and [undefined] (NaN) are not
    greater than 0. A [length] that is a string, array or object only
    occurs when [roadmaps] is an object carrying such a key; JavaScript
    then converts it to a number first, which is not modelled: it is
    taken as not greater than 0, so lessons for such inputs are outside
    the model (the results below about what the route stores before the
    lessons hold whatever this test answers). *)
Definition gt_zero (v : jsval) : bool :=
  match v with
  | JNum q => negb (Qle_bool q 0)
  | JBool b => b
  | _ => false
  end.

(** [for (const x of v)]: arrays iterate their elements, strings their
    characters; other values are not iterable. *)
Definition iterate (v : jsval) : exn + list jsval :=
  match v with
  | JArr xs => inr xs
  | JStr s => inr (map (fun a => JStr (String a EmptyString)) (list_ascii_of_string s))
  | _ => inl (TypeError "roadmaps is not iterable")
  end.

Fixpoint insert_lessons (swingId : string) (rms : list jsval) : M unit :=
  match rms with
  | [] => ret tt
  | rm :: rest =>
      lid <- uuidv4 ;;
      g <- prop rm "goalType" ;;
      dr <- prop rm "drills" ;;
      rv <- prop rm "aiReview" ;;
      db_run_args insertLesson
        [AVal (JStr lid); AVal (JStr swingId); AVal g; JSON_stringify dr; AVal rv] ;;;
      insert_lessons swingId rest
  end.

(** The lessons part of the [if (aiData) { .. }] block. [roadmaps] is
    what [generateLessonRoadmap] resolves to (it never rejects: its own
    [catch] returns [null]). *)
Definition store_lessons (swingId : string) (roadmaps : jsval) : M unit :=
  if truthy roadmaps then
    len <- prop roadmaps "length" ;;
    if gt_zero len then
      db_prepare insertLesson ;;;
      rms <- lift (iterate roadmaps) ;;
      insert_lessons swingId rms
    else ret tt
  else ret tt.

(** What follows the swing_metrics insert: the lessons, then
    [UPDATE swings SET analyzed = 1]. *)
Definition finish_analysis (swingId : string) (roadmaps : jsval) : M unit :=
  store_lessons swingId roadmaps ;;;
  db_prepare setAnalyzed ;;;
  db_run setAnalyzed [SText swingId] ;;;
  ret tt.

(** The [if (aiData) { .. }] block: swing_metrics, lessons, analyzed = 1. *)
Definition store_analysis (swingId : string) (aiData roadmaps : jsval) : M unit :=
  db_prepare insertMetrics ;;;
  mid <- uuidv4 ;;
  a <- prop2 aiData "timestampsMs" "address" ;;
  t <- prop2 aiData "timestampsMs" "top" ;;
  i <- prop2 aiData "timestampsMs" "impact" ;;
  f <- prop2 aiData "timestampsMs" "finish" ;;
  aa <- prop aiData "addressAngles" ;;
  ta <- prop aiData "topAngles" ;;
  ia <- prop aiData "impactAngles" ;;
  fa <- prop aiData "finishAngles" ;;
  sp <- prop aiData "estimatedClubSpeed" ;;
  pa <- prop aiData "estimatedClubPath" ;;
  di <- prop aiData "estimatedDistance" ;;
  db_run_args insertMetrics
    [AVal (JStr mid); AVal (JStr swingId); AVal a; AVal t; AVal i; AVal f;
     JSON_stringify aa; JSON_stringify ta; JSON_stringify ia; JSON_stringify fa;
     AVal sp; AVal pa; AVal di] ;;;
  finish_analysis swingId roadmaps.

(** The transcoding stage of the upload route: [compressVideo] inside a
    [try] whose [catch] keeps multer's file. Returns [absolutePath] and
    [videoUrl]. *)
Definition transcode_stage (me : media_env) (file : uploaded_file) : M (string * string) :=
  try_catch
    (p <- compressVideo me (file_path file) ;;
     ret (p, "/uploads/" ++ path_basename p))
    (fun _ => ret (file_path file, "/uploads/" ++ file_filename file)).

(** Transcoding, then the swing row ([analyzed = 0]); returns
    [absolutePath] and [swingId]. *)
Definition accept_upload (me : media_env) (file : uploaded_file) (club playerId : string)
  : M (string * string) :=
  paths <- transcode_stage me file ;;
  let absolutePath := fst paths in
  let videoUrl := snd paths in
  swingId <- uuidv4 ;;
  db_prepare insertSwing ;;;
  db_run_args insertSwing
    [AVal (JStr swingId); AVal (JStr playerId); AVal (JStr club);
     AVal (JStr videoUrl); AVal (JNum 0)] ;;;
  ret (absolutePath, swingId).

(** [const aiData = await analyzeSwingVideo(absolutePath, ..)] and the
    [if (aiData)] block, then the success response. *)
Definition analyze_stage (ge : gemini_env) (roadmaps : jsval) (absolutePath swingId : string)
  : M response :=
  aiData <- analyzeSwingVideo ge absolutePath ;;
  (if truthy aiData then store_analysis swingId aiData roadmaps else ret tt) ;;;
  ret (mkResponse 200 [("message", JStr "Upload queued and analyzed"); ("swingId", JStr swingId)]).

Definition missing_fields : response :=
  mkResponse 400 [("error", JStr "Missing video file or club type")].

(** [app.post("/api/swings/upload", ..)] *)
Definition upload_handler (me : media_env) (ge : gemini_env) (roadmaps : jsval)
           (req : upload_request) : M response :=
  try_catch
    (match up_file req, up_club req with
     | Some file, Some club =>
       if String.eqb club "" then ret missing_fields
       else
         let playerId := match up_playerId req with Some p => p | None => "usr_12345" end in
         acc <- accept_upload me file club playerId ;;
         analyze_stage ge roadmaps (fst acc) (snd acc)
     | _, _ => ret missing_fields
     end)
    (fun e => ret (error_response e)).

(** [extractLaunchMonitorData(absolutePath)] resolves to the parsed JSON
    ([null] with the dummy key) or rejects; its outcome is an input. *)
Definition insertLM : stmt :=
  SInsert "launch_monitor_data"
    ["id"; "swingId"; "imageUrl"; "ballSpeed"; "clubSpeed"; "smashFactor"; "carry";
     "spinRate"; "extractedRawText"].

(** [app.post("/api/swings/:id/launch-monitor", ..)] *)
Definition launch_monitor_handler (extracted : exn + jsval) (swingId : string)
           (image : option uploaded_file) : M response :=
  try_catch
    (match image with
     | None => ret (mkResponse 400 [("error", JStr "Missing image")])
     | Some file =>
         let imageUrl := "/uploads/" ++ file_filename file in
         data <- lift extracted ;;
         if truthy data then
           db_prepare insertLM ;;;
           lmId <- uuidv4 ;;
           bs <- prop data "ballSpeed" ;;
           cs <- prop data "clubSpeed" ;;
           sf <- prop data "smashFactor" ;;
           ca <- prop data "carry" ;;
           sr <- prop data "spinRate" ;;
           rt <- prop data "extractedRawText" ;;
           db_run_args insertLM
             [AVal (JStr lmId); AVal (JStr swingId); AVal (JStr imageUrl);
              AVal bs; AVal cs; AVal sf; AVal ca; AVal sr; AVal rt] ;;;
           ret (mkResponse 200 [("message", JStr "Launch monitor data attached.")])
         else ret (mkResponse 200 [("message", JStr "File uploaded, AI unavailable.")])
     end)
    (fun e => ret (error_response e)).

(** [app.delete("/api/swings/:id", ..)]. The video file is unlinked
    asynchronously after the response; its failure is only logged. *)
Definition delete_handler (swingId : string) : M response :=
  try_catch
    (let sel := SSelect "swings" ["videoUrl"] "id" in
     db_prepare sel ;;;
     found <- db_run sel [SText swingId] ;;
     match found with
     | [] => ret (mkResponse 404 [("error", JStr "Not found")])
     | r :: _ =>
         let del t c := (let s := SDelete t c in db_prepare s ;;; db_run s [SText swingId]) in
         del "comments" "swingId" ;;;
         del "launch_monitor_data" "swingId" ;;;
         del "lessons" "swingId" ;;;
         del "swing_metrics" "swingId" ;;;
         del "swings" "id" ;;;
         (match lookup_cell "videoUrl" r with
          | SText u =>
              if String.eqb u "" then ret tt
              else cleanupOriginal (path_join UPLOADS_DIR (path_basename u))
          | _ => ret tt
          end) ;;;
         ret (mkResponse 200 [("message", JStr "Swing deleted successfully")])
     end)
    (fun e => ret (error_response e)).

(** [app.post("/api/swings/:id/favorite", ..)] *)
Definition favorite_handler (swingId : string) : M response :=
  try_catch
    (let sel := SSelect "swings" ["isFavorite"] "id" in
     db_prepare sel ;;;
     found <- db_run sel [SText swingId] ;;
     match found with
     | [] => ret (mkResponse 404 [("error", JStr "Not found")])
     | r :: _ =>
         let newStatus : Q := match lookup_cell "isFavorite" r with
                              | SNum q => if Qeq_bool q 0 then 1 else 0
                              | SNull => 1
                              | SText t => if String.eqb t "" then 1 else 0
                              | SJson _ => 0
                              end in
         let upd := SUpdate "swings" "isFavorite" None "id" in
         db_prepare upd ;;;
         db_run upd [SNum newStatus; SText swingId] ;;;
         ret (mkResponse 200 [("message", JStr "Favorite status updated");
                              ("isFavorite", JBool (negb (Qeq_bool newStatus 0)))])
     end)
    (fun e => ret (error_response e)).

(** [app.get("/api/swings/:id", ..)]: a synchronous handler without
    [try]; Express answers a throw with status 500. The JSON columns are
    parsed back and the rows returned; only the status and whether the
    swing was found matter here, so the body lists the swing row's id. *)
Definition get_swing_handler (swingId : string) : M response :=
  try_catch
    (let sel := SSelect "swings" ["*"] "id" in
     db_prepare sel ;;;
     found <- db_run sel [SText swingId] ;;
     match found with
     | [] => ret (mkResponse 404 [("error", JStr "Not found")])
     | _ :: _ =>
         let q t := (let s := SSelect t ["*"] "swingId" in db_prepare s ;;; db_run s [SText swingId]) in
         q "swing_metrics" ;;;
         q "lessons" ;;;
         q "launch_monitor_data" ;;;
         q "comments" ;;;
         ret (mkResponse 200 [("swing", JStr swingId)])
     end)
    (fun e => ret (mkResponse 500 [("error", JStr (exn_message e))])).

(** ** [JSON.parse] and [String.prototype.trim] on code units below 256 *)

Definition is_json_ws (c : ascii) : bool :=
  existsb (Nat.eqb (nat_of_ascii c)) [9; 10; 13; 32]%nat.

(** The code units below 256 that [trim] removes: its WhiteSpace (TAB, VT,
    FF, SPACE, NO-BREAK SPACE U+00A0) and LineTerminator (LF, CR) code
    points in that range. *)
Definition is_js_ws (c : ascii) : bool :=
  existsb (Nat.eqb (nat_of_ascii c)) [9; 10; 11; 12; 13; 32; 160]%nat.

Fixpoint skip_ws (l : list ascii) : list ascii :=
  match l with
  | c :: r => if is_json_ws c then skip_ws r else l
  | [] => []
  end.

Fixpoint drop_leading (p : ascii -> bool) (l : list ascii) : list ascii :=
  match l with
  | c :: r => if p c then drop_leading p r else l
  | [] => []
  end.

Definition js_trim (s : string) : string :=
  string_of_list_ascii
    (rev (drop_leading is_js_ws (rev (drop_leading is_js_ws (list_ascii_of_string s))))).

Definition is_digit (c : ascii) : bool :=
  (48 <=? nat_of_ascii c)%nat && (nat_of_ascii c <=? 57)%nat.

Definition digit_val (c : ascii) : Z := Z.of_nat (nat_of_ascii c - 48).

Definition hex_val (c : ascii) : option Z :=
  let n := nat_of_ascii c in
  if (48 <=? n)%nat && (n <=? 57)%nat then Some (Z.of_nat (n - 48))
  else if (97 <=? n)%nat && (n <=? 102)%nat then Some (Z.of_nat (n - 87))
  else if (65 <=? n)%nat && (n <=? 70)%nat then Some (Z.of_nat (n - 55))
  else None.

(** Digits: their value, their count, the rest. *)
Fixpoint take_digits (l : list ascii) (acc : Z) (n : nat) : Z * nat * list ascii :=
  match l with
  | c :: r => if is_digit c then take_digits r (acc * 10 + digit_val c) (S n) else (acc, n, l)
  | [] => (acc, n, l)
  end.

(** A JSON number, as an exact rational. *)
Definition parse_number (l : list ascii) : option (jsval * list ascii) :=
  let '(neg, l1) := match l with "-"%char :: r => (true, r) | _ => (false, l) end in
  match l1 with
  | c :: _ =>
    if negb (is_digit c) then None else
    let '(ip, ni, l2) := take_digits l1 0 0 in
    if (Nat.ltb 1 ni && Ascii.eqb c "0")%bool then None else
    let frac := match l2 with
                | "."%char :: r =>
                    let '(fp, nf, l3) := take_digits r ip 0 in
                    if Nat.eqb nf 0 then None else Some (fp, nf, l3)
                | _ => Some (ip, O, l2)
                end in
    match frac with
    | None => None
    | Some (m, nf, l3) =>
      let ex := match l3 with
                | e :: r =>
                    if Ascii.eqb e "e" || Ascii.eqb e "E" then
                      let '(sg, r1) := match r with
                                       | "-"%char :: r' => (-1, r')
                                       | "+"%char :: r' => (1, r')
                                       | _ => (1, r)
                                       end in
                      let '(ev, ne, r2) := take_digits r1 0 0 in
                      if Nat.eqb ne 0 then None else Some (sg * ev, r2)
                    else Some (0, l3)
                | [] => Some (0, l3)
                end%Z in
      match ex with
      | None => None
      | Some (e, l4) =>
          let m' := if neg then (- m)%Z else m in
          let sc := (e - Z.of_nat nf)%Z in
          let q := if Z.leb 0 sc then inject_Z (m' * 10 ^ sc) else Qmake m' (Z.to_pos (10 ^ (- sc))) in
          Some (JNum q, l4)
      end
    end
  | [] => None
  end.

(** The double-quote character (code 34). *)
Notation DQ := (Ascii.Ascii false true false false false true false false).

(** The body of a string literal after its opening quote. A [\u] escape
    of a code unit of 256 or more gives a string outside the model and is
    refused. *)
Fixpoint parse_string (l : list ascii) : option (string * list ascii) :=
  match l with
  | [] => None
  | c :: r =>
    if Ascii.eqb c DQ then Some (EmptyString, r)
    else if Ascii.eqb c "\" then
      match r with
      | e :: r' =>
        let simple := match e with
                      | DQ => Some DQ | "\"%char => Some "\"%char | "/"%char => Some "/"%char
                      | "b"%char => Some (ascii_of_nat 8) | "f"%char => Some (ascii_of_nat 12)
                      | "n"%char => Some (ascii_of_nat 10) | "r"%char => Some (ascii_of_nat 13)
                      | "t"%char => Some (ascii_of_nat 9)
                      | _ => None
                      end in
        match simple with
        | Some ch => option_map (fun '(s, r'') => (String ch s, r'')) (parse_string r')
        | None =>
          match e, r' with
          | "u"%char, h1 :: h2 :: h3 :: h4 :: r'' =>
              match hex_val h1, hex_val h2, hex_val h3, hex_val h4 with
              | Some a, Some b, Some c', Some d =>
                  let cp := (((a * 16 + b) * 16 + c') * 16 + d)%Z in
                  if Z.ltb cp 256 then
                    option_map (fun '(s, r3) => (String (ascii_of_nat (Z.to_nat cp)) s, r3)) (parse_string r'')
                  else None
              | _, _, _, _ => None
              end
          | _, _ => None
          end
        end
      | [] => None
      end
    else if (nat_of_ascii c <? 32)%nat then None
    else option_map (fun '(s, r') => (String c s, r')) (parse_string r)
  end.

Fixpoint parse_value (fuel : nat) (l : list ascii) : option (jsval * list ascii) :=
  match fuel with
  | O => None
  | S f =>
    match skip_ws l with
    | "{"%char :: r =>
        match skip_ws r with "}"%char :: r' => Some (JObj [], r') | _ => parse_members f r [] end
    | "["%char :: r =>
        match skip_ws r with "]"%char :: r' => Some (JArr [], r') | _ => parse_elements f r [] end
    | DQ :: r => option_map (fun '(s, r') => (JStr s, r')) (parse_string r)
    | "t"%char :: "r"%char :: "u"%char :: "e"%char :: r => Some (JBool true, r)
    | "f"%char :: "a"%char :: "l"%char :: "s"%char :: "e"%char :: r => Some (JBool false, r)
    | "n"%char :: "u"%char :: "l"%char :: "l"%char :: r => Some (JNull, r)
    | l' => parse_number l'
    end
  end
with parse_members (fuel : nat) (l : list ascii) (acc : list (string * jsval))
  : option (jsval * list ascii) :=
  match fuel with
  | O => None
  | S f =>
    match skip_ws l with
    | DQ :: r =>
      match parse_string r with
      | Some (k, r1) =>
        match skip_ws r1 with
        | ":"%char :: r2 =>
          match parse_value f r2 with
          | Some (v, r3) =>
            match skip_ws r3 with
            | ","%char :: r4 => parse_members f r4 (acc ++ [(k, v)])
            | "}"%char :: r4 => Some (JObj (acc ++ [(k, v)]), r4)
            | _ => None
            end
          | None => None
          end
        | _ => None
        end
      | None => None
      end
    | _ => None
    end
  end
with parse_elements (fuel : nat) (l : list ascii) (acc : list jsval)
  : option (jsval * list ascii) :=
  match fuel with
  | O => None
  | S f =>
    match parse_value f l with
    | Some (v, r) =>
      match skip_ws r with
      | ","%char :: r' => parse_elements f r' (acc ++ [v])
      | "]"%char :: r' => Some (JArr (acc ++ [v]), r')
      | _ => None
      end
    | None => None
    end
  end.

(** [JSON.parse(text)]; [None] is a thrown SyntaxError. Every call level
    consumes a character, so the length of the text bounds the depth. *)
Definition JSON_parse (s : string) : option jsval :=
  let l := list_ascii_of_string s in
  match parse_value (S (List.length l)) l with
  | Some (v, rest) => match skip_ws rest with [] => Some v | _ => None end
  | None => None
  end.

(** ** The frame-measurement extractor: services/pose.service.ts *)

(** How the spawned process ends, as [analyzePose]'s handlers see it:
    either the ['error'] event (spawn failure; it is emitted before any
    ['close']) or ['close'] with the exit code ([null] when killed by a
    signal) after all of stdout and stderr were collected. *)
Inductive proc_outcome : Type :=
| SpawnError (message : string)
| Closed (code : option Z) (stdout stderr : string).

(** The four [new Error(..)] of [analyzePose], by template:
    - [`Pose analysis failed (exit ${code}): ${stderr.slice(0, 500)}`]
    - [`Pose analysis error: ${result.error}`]
    - [`Failed to parse pose analysis output: ${stdout.slice(0, 200)}`]
    - [`Failed to spawn ${PYTHON_BIN}: ${err.message}. Run: python3.12 -m venv .venv && ..`] *)
Inductive pose_error : Type :=
| PoseExitFailed (code : option Z) (stderr_excerpt : string)
| PoseEmbeddedError (error_field : jsval)
| PoseParseFailed (stdout_excerpt : string)
| PoseSpawnFailed (python_bin spawn_message : string).

Definition SETUP_HINT : string :=
  "Run: python3.12 -m venv .venv && source .venv/bin/activate && pip install mediapipe opencv-python numpy".

(** [str.slice(0, n)] *)
Definition slice0 (n : nat) (s : string) : string := substring 0 n s.

(** Whether the string conversion of a template literal's [${v}] throws,
    for a value [JSON.parse] returns. An object converts through
    [OrdinaryToPrimitive] with the hint "string": an own [toString]
    property is never callable in such a value, so the conversion falls
    through to [Object.prototype.valueOf], which returns the object
    itself, and a TypeError is thrown; otherwise the inherited [toString]
    gives "[object Object]". An array converts through [join], which
    converts each element ([undefined] and [null] give the empty string). *)
Fixpoint tostring_throws (v : jsval) : bool :=
  match v with
  | JObj fs => match assoc_last "toString" fs with Some _ => true | None => false end
  | JArr xs =>
      (fix elems (xs : list jsval) : bool :=
         match xs with [] => false | x :: r => tostring_throws x || elems r end) xs
  | _ => false
  end.

Section Pose.

(** [JSON.parse]; [None] for a SyntaxError. *)
Variable parse : string -> option jsval.

(** The ['close'] handler's [try] block: parse, check [result.error]
    (building the message [`Pose analysis error: ${result.error}`]), read
    and convert [result.timestampsMs.address/top/impact] for the log line.
    A TypeError in it (a property of [undefined] or [null], a string
    conversion that throws) lands in the same [catch] as a parse error. *)
Definition pose_close_ok (stdout : string) : pose_error + jsval :=
  match parse (js_trim stdout) with
  | None => inl (PoseParseFailed (slice0 200 stdout))
  | Some result =>
      match get_prop result "error" with
      | inl _ => inl (PoseParseFailed (slice0 200 stdout))
      | inr ev =>
          if truthy ev then
            if tostring_throws ev then inl (PoseParseFailed (slice0 200 stdout))
            else inl (PoseEmbeddedError ev)
          else
            match get_prop result "timestampsMs" with
            | inl _ => inl (PoseParseFailed (slice0 200 stdout))
            | inr ts =>
                match get_prop ts "address", get_prop ts "top", get_prop ts "impact" with
                | inr a, inr t, inr i =>
                    if tostring_throws a || tostring_throws t || tostring_throws i
                    then inl (PoseParseFailed (slice0 200 stdout))
                    else inr result
                | _, _, _ => inl (PoseParseFailed (slice0 200 stdout))
                end
            end
      end
  end.

(** [analyzePose(videoPath)]: how its promise settles. *)
Definition analyzePose (PYTHON_BIN : string) (o : proc_outcome) : pose_error + jsval :=
  match o with
  | SpawnError m => inl (PoseSpawnFailed PYTHON_BIN m)
  | Closed code stdout stderr =>
      match code with
      | Some 0%Z => pose_close_ok stdout
      | _ => inl (PoseExitFailed code (slice0 500 stderr))
      end
  end.

End Pose.

(** ** The text returned by the remote model, and the comments route *)

(** [s] starts with [p]: the rest of [s]. *)
Fixpoint strip_prefix (p s : string) : option string :=
  match p, s with
  | EmptyString, _ => Some s
  | String a p', String b s' => if Ascii.eqb a b then strip_prefix p' s' else None
  | String _ _, EmptyString => None
  end.

(** [s.replace(/p/g, "")] for a literal pattern [p]: the occurrences of
    [p] are removed from left to right, without overlap. Each step consumes
    at least one character, so [String.length s] steps suffice. *)
Fixpoint remove_all_fuel (fuel : nat) (p s : string) : string :=
  match fuel with
  | O => s
  | S f =>
      match s with
      | EmptyString => EmptyString
      | String c s' =>
          match strip_prefix p s with
          | Some rest => remove_all_fuel f p rest
          | None => String c (remove_all_fuel f p s')
          end
      end
  end.

Definition remove_all (p s : string) : string := remove_all_fuel (String.length s) p s.

(** The string [analyzeSwingVideo], [extractLaunchMonitorData] and
    [generateLessonRoadmap] hand to [JSON.parse]:
    [(result.text ?? "").replace(/```json/g, "").replace(/```/g, "").trim()]. *)
Definition json_text (responseText : option string) : string :=
  js_trim (remove_all "```" (remove_all "```json"
             (match responseText with Some t => t | None => "" end))).

Definition comment_required : response :=
  mkResponse 400 [("error", JStr "Comment text is required")].

Definition insertComment : stmt := SInsert "comments" ["id"; "swingId"; "text"].
Definition selectComment : stmt := SSelect "comments" ["*"] "id".

(** [app.post("/api/swings/:id/comments", ..)] with [text] the value of
    [req.body.text]. The guard runs before the [try]: [text.trim()] on a
    truthy non-string throws a TypeError that Express answers with status
    500. Only the status and the new id matter here, so the 201 body lists
    the comment's id. *)
Definition comment_handler (swingId : string) (text : jsval) : M response :=
  try_catch
    (if negb (truthy text) then ret comment_required
     else match text with
          | JStr s =>
              if String.eqb (js_trim s) "" then ret comment_required
              else try_catch
                     (id <- uuidv4 ;;
                      db_prepare insertComment ;;;
                      db_run_args insertComment [AVal (JStr id); AVal (JStr swingId); AVal text] ;;;
                      db_prepare selectComment ;;;
                      db_run selectComment [SText id] ;;;
                      ret (mkResponse 201 [("id", JStr id)]))
                     (fun e => ret (error_response e))
          | _ => throw (TypeError "text.trim is not a function")
          end)
    (fun e => ret (mkResponse 500 [("error", JStr (exn_message e))])).

(** ** A concrete server state: a fresh database after [setupDB] and one
    10 MB clip stored by multer *)

Definition demo_uuids (n : nat) : string := "uuid-" ++ String (ascii_of_nat (48 + n)) EmptyString.

Definition demo_file : uploaded_file :=
  mkUploadedFile "/app/uploads/1700000000000-42-clip.mp4" "1700000000000-42-clip.mp4" "video/mp4".

Definition demo_world : world :=
  mkWorld (setupDB fresh_db) [(file_path demo_file, 10485760%Z)] 0 demo_uuids.

(** ffprobe reports 5 s; ffmpeg writes 4 MB. *)
Definition demo_media : media_env := mkMediaEnv (inr (Some (inject_Z 5))) (fun _ => inr 4000000%Z).

Definition demo_request : upload_request := mkUploadRequest (Some demo_file) (Some "Driver") None.

Definition angles_json (a b c d : Z) : jsval :=
  JObj [("spineAngle", JNum (inject_Z a)); ("shoulderTurn", JNum (inject_Z b));
        ("hipTurn", JNum (inject_Z c)); ("leadArmAngle", JNum (inject_Z d))].

(** A complete analysis as the model is asked to return it. *)
Definition demo_analysis : jsval :=
  JObj [("timestampsMs", JObj [("address", JNum 0); ("top", JNum (inject_Z 800));
                              ("impact", JNum (inject_Z 1100)); ("finish", JNum (inject_Z 1600))]);
        ("addressAngles", angles_json 35 0 0 175); ("topAngles", angles_json 38 90 45 170);
        ("impactAngles", angles_json 36 20 40 178); ("finishAngles", angles_json 10 110 90 160);
        ("estimatedClubSpeed", JNum (inject_Z 92)); ("estimatedClubPath", JStr "Straight");
        ("estimatedDistance", JNum (inject_Z 230))].

Definition gemini_ok (parsed : jsval) : gemini_env :=
  mkGeminiEnv false (fun _ => inr tt) (inr tt) (inr tt) (inr parsed).

Definition demo_roadmaps : jsval :=
  JArr [JObj [("goalType", JStr "Ideal"); ("drills", JArr [JStr "Drill 1"]); ("aiReview", JStr "r1")];
        JObj [("goalType", JStr "Playable"); ("drills", JArr [JStr "Drill 2"]); ("aiReview", JStr "r2")]].


(** A launch-monitor screenshot and the reading extracted from it. *)
Definition demo_image : uploaded_file :=
  mkUploadedFile "/app/uploads/1700000000001-7-lm.png" "1700000000001-7-lm.png" "image/png".
Definition demo_reading : jsval :=
  JObj [("ballSpeed", JNum (inject_Z 150)); ("clubSpeed", JNum (inject_Z 102)); ("smashFactor", JNum (147 # 100));
        ("carry", JNum (inject_Z 245)); ("spinRate", JNum (inject_Z 2600)); ("extractedRawText", JStr "150 mph")].


(** An analysis that failed remotely: the [generateContent] call rejects. *)
Definition gemini_failing (e : exn) : gemini_env :=
  mkGeminiEnv false (fun _ => inr tt) (inr tt) (inl e) (inr JNull).

(** An analysis with two checkpoint timestamps and no angle sets. *)
Definition demo_partial_analysis : jsval :=
  JObj [("timestampsMs", JObj [("address", JNum 0); ("impact", JNum (inject_Z 1100))]);
        ("estimatedClubSpeed", JNum (inject_Z 92))].

(** The stdout [{"timestampsMs":{"address":{"toString":1}}}]. *)
Definition pose_tostring_stdout : string :=
  let q := String DQ EmptyString in
  "{" ++ q ++ "timestampsMs" ++ q ++ ":{" ++ q ++ "address" ++ q ++ ":{" ++ q ++ "toString" ++ q ++ ":1}}}".

(** A remote file that stays [PROCESSING]; each [ai.files.get] takes 100 ms. *)
Definition polls_processing : nat -> poll := fun _ => mkPoll 100 (GetResolves PROCESSING) 0.

(** A remote file that stays [PROCESSING] behind a get that takes 200 s. *)
Definition polls_slow : nat -> poll := fun _ => mkPoll 200000 (GetResolves PROCESSING) 0.

(** A get that never settles. *)
Definition polls_hanging : nat -> poll := fun _ => mkPoll 0 GetHangs 0.

(** The remote client whose wait ends with the outcome [r] of the loop. *)
Definition gemini_with_wait (r : exn + unit) : gemini_env :=
  mkGeminiEnv false (fun _ => inr tt) r (inr tt) (inr JNull).

(** The state after one upload of the demo clip, analysed. *)
Definition demo_uploaded : world :=
  snd (upload_handler demo_media (gemini_ok demo_analysis) demo_roadmaps demo_request demo_world).

(** With an [isFavorite] column added to [swings] (as the client and the
    shared [Swing] type expect), the handler's logic toggles the flag
    and two toggles restore it. *)
Definition swings_table_with_favorite : table :=
  mkTable "swings" (tbl_cols swings_table ++ [col_default_ "isFavorite" (SNum 0)]) (tbl_fks swings_table).

Definition add_favorite_column (w : world) : world :=
  mkWorld (mkDb (map (fun '(tb, rs) =>
                        if String.eqb (tbl_name tb) "swings"
                        then (swings_table_with_favorite, map (fun r : row => app r [("isFavorite", SNum 0)]) rs)
                        else (tb, rs)) (db_tables (w_db w)))
                (db_foreign_keys (w_db w)))
          (w_files w) (w_next_uuid w) (w_uuids w).

(** ** Derived notions used in the statements *)

(** The times at which the polling loop issues its [ai.files.get] calls. *)
Fixpoint poll_time (polls : nat -> poll) (start : N) (i : nat) : N :=
  match i with
  | O => start
  | S j => (poll_time polls start j + get_latency (polls j) + POLL_INTERVAL_MS + timer_lateness (polls j))%N
  end.
(** The replies after which the loop goes on polling. *)
Definition continues (r : get_reply) : bool :=
  match r with GetResolves (PROCESSING | STATE_UNSPECIFIED) => true | _ => false end.
Definition wait_timeout (fileName : string) : exn :=
  Error ("File " ++ fileName ++ " did not become ACTIVE within 120s.").
Definition wait_failed (fileName : string) : exn :=
  Error ("File " ++ fileName ++ " processing failed.").

(** How a loop that issued [n] gets from the [k]-th on ends: by the reply
    to its last get (settling when that get settles), or by the deadline
    test (settling at the time of the test). *)
Definition wait_outcome (fileName : string) (polls : nat -> poll) (start : N) (k n : nat)
           (e : wait_end) : Prop :=
  let last := (k + n - 1)%nat in
  let settled := (poll_time polls start last + get_latency (polls last))%N in
  ((0 < n)%nat /\ get_result (polls last) = GetResolves ACTIVE /\ e = Settles (inr tt) settled) \/
  ((0 < n)%nat /\ get_result (polls last) = GetResolves FAILED /\
   e = Settles (inl (wait_failed fileName)) settled) \/
  ((0 < n)%nat /\ (exists err, get_result (polls last) = GetRejects err /\ e = Settles (inl err) settled)) \/
  ((0 < n)%nat /\ get_result (polls last) = GetHangs /\ e = Blocks) \/
  ((n = 0%nat \/ continues (get_result (polls last)) = true) /\
   (MAX_WAIT_MS <= poll_time polls start (k + n) - start)%N /\
   e = Settles (inl (wait_timeout fileName)) (poll_time polls start (k + n))).

(** The value [v.k] reads when [v] is neither [undefined] nor [null]
    ([undefined] otherwise, where the read throws instead). *)
Definition prop_value (v : jsval) (k : string) : jsval :=
  match get_prop v k with inr x => x | inl _ => JUndefined end.

(** The output path [compressVideo] builds from the next uuid. *)
Definition compressed_path (w : world) (inputPath : string) : string :=
  path_join (path_dirname inputPath)
            (compressed_name (w_uuids w (w_next_uuid w)) (path_extname (path_basename inputPath))).

(** The cell [JSON.stringify(v)] becomes ([undefined] binds as NULL); whether
    an argument binds, and the cell it becomes. *)
Definition json_cell (v : jsval) : sqlval := match v with JUndefined => SNull | _ => SJson v end.
Definition arg_ok (x : arg) : bool := match bind_arg x with inr _ => true | inl _ => false end.
Definition arg_cell (x : arg) : sqlval := match bind_arg x with inr s => s | inl _ => SNull end.

Definition metrics_timestamp_cols : list string := ["addressTimeMs"; "topTimeMs"; "impactTimeMs"; "finishTimeMs"].
Definition checkpoint_keys : list string := ["address"; "top"; "impact"; "finish"].
Definition angle_keys : list string := ["addressAngles"; "topAngles"; "impactAngles"; "finishAngles"].

(** The row [setupDB] seeds into an empty [players] table. *)
Definition guest_row : row :=
  [("id", SText "usr_12345"); ("name", SText "Guest Golfer"); ("handicap", SNum 15);
   ("createdAt", SText "CURRENT_TIMESTAMP")].

(** The row the upload route inserts into [swings]. *)
Definition swing_row (sid playerId club url : string) : row :=
  build_row swings_table (assoc_cols ["id"; "playerId"; "club"; "videoUrl"; "analyzed"]
                            [SText sid; SText playerId; SText club; SText url; SNum 0]).

(** A roadmap entry the lessons insert accepts: an object whose [goalType]
    and [aiReview] bind, with a [goalType] the CHECK allows. *)
Definition lesson_ok (rm : jsval) : bool :=
  match rm with
  | JObj f => scalar (field f "goalType") && goalType_check (bind_scalar (field f "goalType")) &&
              scalar (field f "aiReview")
  | _ => false
  end.

Definition backtick : ascii := "`".

(** A uuid source that never repeats: ["uuid-"] followed by [n] letters. *)
Fixpoint tally (n : nat) : string :=
  match n with O => EmptyString | S k => String "x" (tally k) end.
Definition tally_uuids (n : nat) : string := "uuid-" ++ tally n.

(** The demo state with that uuid source. *)
Definition demo_world_tally : world :=
  mkWorld (setupDB fresh_db) [(file_path demo_file, 10485760%Z)] 0 tally_uuids.

(** Steps that leave the rows of one table alone. *)
Definition keeps_rows {A} (t : string) (m : M A) : Prop :=
  forall w, rows_of (w_db (snd (m w))) t = rows_of (w_db w) t.

(** * Lemmas about the embedding *)

Lemma find_table_set_rows_same t rs ts :
  find_table t (set_rows t rs ts) =
  match find_table t ts with Some (tb, _) => Some (tb, rs) | None => None end.
Proof.
  induction ts as [|[tb old] rest IH]; simpl; [reflexivity|].
  destruct (String.eqb (tbl_name tb) t) eqn:E; simpl; rewrite ?E; auto.
Qed.

Lemma find_table_set_rows_other t t' rs ts :
  t <> t' -> find_table t' (set_rows t rs ts) = find_table t' ts.
Proof.
  intros Hne. induction ts as [|[tb old] rest IH]; simpl; [reflexivity|].
  destruct (String.eqb (tbl_name tb) t) eqn:E; simpl.
  - apply String.eqb_eq in E. subst t.
    destruct (String.eqb (tbl_name tb) t') eqn:E'; [|reflexivity].
    apply String.eqb_eq in E'. congruence.
  - destruct (String.eqb (tbl_name tb) t'); [reflexivity | exact IH].
Qed.

Lemma rows_of_with_rows_other d t t' rs :
  t <> t' -> rows_of (with_rows d t rs) t' = rows_of d t'.
Proof.
  intros H. unfold rows_of, with_rows; simpl. rewrite find_table_set_rows_other; auto.
Qed.

Lemma rows_of_with_rows_same d t rs tb old :
  find_table t (db_tables d) = Some (tb, old) -> rows_of (with_rows d t rs) t = rs.
Proof.
  intros H. unfold rows_of, with_rows; simpl. rewrite find_table_set_rows_same, H. reflexivity.
Qed.

Lemma prepare_table d s tb :
  prepare d s = inr tb -> exists rs, find_table (stmt_table s) (db_tables d) = Some (tb, rs).
Proof.
  unfold prepare. destruct (find_table (stmt_table s) (db_tables d)) as [[tb' rs]|]; [|discriminate].
  destruct (first_missing tb' (stmt_columns s)); [discriminate|]. intros [= <-]. eauto.
Qed.

Lemma find_table_name t ts tb rs :
  find_table t ts = Some (tb, rs) -> tbl_name tb = t.
Proof.
  induction ts as [|[tb' old] rest IH]; simpl; [discriminate|].
  destruct (String.eqb (tbl_name tb') t) eqn:E; auto.
  intros [= <- <-]. apply String.eqb_eq in E. exact E.
Qed.

(** A statement only changes the rows of its own table. *)
Lemma run_stmt_rows_other d s ps rs d' t :
  run_stmt d s ps = inr (rs, d') -> stmt_table s <> t -> rows_of d' t = rows_of d t.
Proof.
  unfold run_stmt. destruct (prepare d s) as [e|tb] eqn:Hp; [discriminate|].
  intros H Hne. destruct s as [t0 cols|t0 cols w|t0 w|t0 c sv w]; simpl in Hne.
  - destruct (Nat.eqb _ _); [|discriminate].
    destruct (constraint_error _ _ _ _); [discriminate|].
    injection H as <- <-. apply rows_of_with_rows_other; auto.
  - destruct ps as [|p [|]]; try discriminate. injection H as <- <-. reflexivity.
  - destruct ps as [|p [|]]; try discriminate. injection H as <- <-.
    apply rows_of_with_rows_other; auto.
  - destruct (match sv, ps with
              | Some v, [p] => Some (v, p)
              | None, [v; p] => Some (v, p)
              | _, _ => None end) as [[v p]|]; [|discriminate].
    injection H as <- <-. apply rows_of_with_rows_other; auto.
Qed.

Lemma existsb_filter_nonempty {A} (f : A -> bool) l :
  existsb f l = true -> filter f l <> [].
Proof.
  induction l as [|x l IH]; simpl; [discriminate|].
  destruct (f x); simpl; [discriminate|auto].
Qed.

(** [find_table] only looks at the tables' names. *)
Lemma find_table_fst t ts :
  option_map fst (find_table t ts) = find (fun tb => String.eqb (tbl_name tb) t) (map fst ts).
Proof.
  induction ts as [|[tb rs] rest IH]; simpl; [reflexivity|].
  destruct (String.eqb (tbl_name tb) t); simpl; auto.
Qed.

Lemma find_table_schema t ts tb :
  map fst ts = schema_tables ->
  find (fun tb => String.eqb (tbl_name tb) t) schema_tables = Some tb ->
  exists rs, find_table t ts = Some (tb, rs).
Proof.
  intros Hts Hf. pose proof (find_table_fst t ts) as E. rewrite Hts, Hf in E.
  destruct (find_table t ts) as [[tb' rs]|]; simpl in E; [|discriminate].
  injection E as ->. eauto.
Qed.

Lemma find_table_schema_none t ts :
  map fst ts = schema_tables ->
  find (fun tb => String.eqb (tbl_name tb) t) schema_tables = None ->
  find_table t ts = None.
Proof.
  intros Hts Hf. pose proof (find_table_fst t ts) as E. rewrite Hts, Hf in E.
  destruct (find_table t ts); [discriminate|reflexivity].
Qed.

Lemma initSchema_fresh_tables : map fst (db_tables (setupDB fresh_db)) = schema_tables.
Proof. vm_compute. reflexivity. Qed.

Lemma setupDB_foreign_keys d : db_foreign_keys (setupDB d) = db_foreign_keys d.
Proof.
  unfold setupDB.
  assert (Hi : db_foreign_keys (initSchema d) = db_foreign_keys d).
  { unfold initSchema. generalize d. induction schema_tables as [|tb rest IH]; intros d0; simpl; [reflexivity|].
    rewrite IH. unfold create_if_not_exists. destruct (find_table _ _); reflexivity. }
  destruct (rows_of (initSchema d) "players"); [|exact Hi].
  destruct (run_stmt _ _ _) as [e|[rs d2]] eqn:Hr; [exact Hi|].
  unfold run_stmt in Hr. destruct (prepare _ _); [discriminate|].
  destruct (Nat.eqb _ _); [|discriminate]. destruct (constraint_error _ _ _ _); [discriminate|].
  injection Hr as _ <-. exact Hi.
Qed.

Lemma prepare_ok d s tb rs :
  find_table (stmt_table s) (db_tables d) = Some (tb, rs) ->
  first_missing tb (stmt_columns s) = None -> prepare d s = inr tb.
Proof. intros H1 H2. unfold prepare. rewrite H1, H2. reflexivity. Qed.

Lemma prepare_no_table d s :
  find_table (stmt_table s) (db_tables d) = None ->
  prepare d s = inl (SQLiteError ("no such table: " ++ stmt_table s)).
Proof. intros H. unfold prepare. rewrite H. reflexivity. Qed.

Lemma run_select d t cols wc p tb rs :
  find_table t (db_tables d) = Some (tb, rs) ->
  first_missing tb (stmt_columns (SSelect t cols wc)) = None ->
  run_stmt d (SSelect t cols wc) [p] = inr (filter (fun r => sql_eqb (lookup_cell wc r) p) rs, d).
Proof.
  intros H1 H2. unfold run_stmt. rewrite (prepare_ok d (SSelect t cols wc) tb rs H1 H2).
  rewrite (find_table_name _ _ _ _ H1). unfold rows_of. rewrite H1. reflexivity.
Qed.

(** ** Property reads and excerpts *)

Lemma slice0_length n s : (String.length (slice0 n s) <= n)%nat.
Proof.
  unfold slice0. revert n. induction s as [|a s IH]; intros n; simpl.
  - destruct n; simpl; lia.
  - destruct n; simpl; [lia|]. specialize (IH n). lia.
Qed.

Lemma get_prop_nullish v k : nullish v = true -> exists e, get_prop v k = inl e.
Proof. destruct v; simpl; try discriminate; eauto. Qed.
Lemma get_prop_not_nullish v k : nullish v = false -> exists x, get_prop v k = inr x.
Proof. destruct v; simpl; try discriminate; eauto. Qed.

(** ** Monadic steps and inserts *)

Lemma mbind_ret {A B} (a : A) (k : A -> M B) : mbind (ret a) k = k a.
Proof. reflexivity. Qed.
Lemma prop_obj fs k : prop (JObj fs) k = ret (field fs k).
Proof. reflexivity. Qed.
Lemma bind_args_scalars vs :
  forallb scalar vs = true -> bind_args (map AVal vs) = inr (map bind_scalar vs).
Proof.
  induction vs as [|v vs IH]; simpl; [reflexivity|].
  intros H. apply andb_prop in H as [Hv Hvs]. rewrite IH by exact Hvs.
  destruct v; try discriminate; reflexivity.
Qed.
Lemma db_run_args_scalars s xs vs :
  map AVal vs = xs -> forallb scalar vs = true -> db_run_args s xs = db_run s (map bind_scalar vs).
Proof. intros <- H. unfold db_run_args. rewrite bind_args_scalars by exact H. reflexivity. Qed.

Lemma run_insert_fails d t cols ps tb rs e :
  find_table t (db_tables d) = Some (tb, rs) ->
  first_missing tb cols = None ->
  List.length cols = List.length ps ->
  constraint_error d tb rs (build_row tb (assoc_cols cols ps)) = Some e ->
  run_stmt d (SInsert t cols) ps = inl e.
Proof.
  intros H1 H2 H3 H4. unfold run_stmt. rewrite (prepare_ok d (SInsert t cols) tb rs H1 H2).
  rewrite (find_table_name _ _ _ _ H1). unfold rows_of. rewrite H1, H3, Nat.eqb_refl, H4.
  reflexivity.
Qed.

Lemma run_insert d t cols ps tb rs :
  find_table t (db_tables d) = Some (tb, rs) ->
  first_missing tb cols = None ->
  List.length cols = List.length ps ->
  constraint_error d tb rs (build_row tb (assoc_cols cols ps)) = None ->
  run_stmt d (SInsert t cols) ps = inr ([], with_rows d t (rs ++ [build_row tb (assoc_cols cols ps)])).
Proof.
  intros H1 H2 H3 H4. unfold run_stmt. rewrite (prepare_ok d (SInsert t cols) tb rs H1 H2).
  rewrite (find_table_name _ _ _ _ H1). unfold rows_of. rewrite H1, H3, Nat.eqb_refl, H4.
  reflexivity.
Qed.

(** One step through a handler's statements: reduce, then settle the
    next [prepare] or [SELECT] from the [find_table] facts in context. *)
Ltac db_step :=
  cbv beta iota zeta; cbn [w_db w_files w_next_uuid w_uuids];
  match goal with
  | |- context [prepare ?d ?s] =>
      first [ rewrite (prepare_no_table d s) by assumption
            | match goal with H : find_table _ _ = Some _ |- _ =>
                rewrite (prepare_ok d s _ _ H) by reflexivity end ]
  | |- context [run_stmt ?d (SSelect ?t ?c ?wc) [?p]] =>
      match goal with H : find_table _ _ = Some _ |- _ =>
        rewrite (run_select d t c wc p _ _ H) by reflexivity end
  end.

(** ** The polling loop *)

Lemma poll_time_step polls start i :
  (poll_time polls start i + POLL_INTERVAL_MS <= poll_time polls start (S i))%N.
Proof. simpl. lia. Qed.

Lemma poll_time_lower polls start i :
  (start + 3000 * N.of_nat i <= poll_time polls start i)%N.
Proof.
  induction i as [|i IH]; simpl; [lia|]. unfold POLL_INTERVAL_MS. lia.
Qed.

Lemma wait_loop_spec fuel fileName polls start k :
  (MAX_WAIT_MS <= poll_time polls start k - start + 3000 * N.of_nat fuel)%N ->
  exists n e,
    wait_loop fuel fileName polls start k (poll_time polls start k) =
      Some (e, map (poll_time polls start) (seq k n)) /\
    (forall i, (i < n)%nat -> (poll_time polls start (k + i) - start < MAX_WAIT_MS)%N) /\
    (forall i, (S i < n)%nat -> continues (get_result (polls (k + i)%nat)) = true) /\
    wait_outcome fileName polls start k n e.
Proof.
  revert k. induction fuel as [|f IH]; intros k Hf.
  - destruct (N.ltb (poll_time polls start k - start) MAX_WAIT_MS) eqn:Hlt.
    + apply N.ltb_lt in Hlt. unfold MAX_WAIT_MS in *. lia.
    + apply N.ltb_ge in Hlt.
      exists 0%nat, (Settles (inl (wait_timeout fileName)) (poll_time polls start k)).
      split; [simpl; rewrite (proj2 (N.ltb_ge _ _) Hlt); reflexivity|].
      split; [intros; lia|]. split; [intros; lia|].
      unfold wait_outcome. right; right; right; right.
      split; [left; reflexivity|]. rewrite Nat.add_0_r. split; [exact Hlt|reflexivity].
  - simpl wait_loop.
    destruct (N.ltb (poll_time polls start k - start) MAX_WAIT_MS) eqn:Hlt.
    2: { apply N.ltb_ge in Hlt.
         exists 0%nat, (Settles (inl (wait_timeout fileName)) (poll_time polls start k)).
         split; [reflexivity|]. split; [intros; lia|]. split; [intros; lia|].
         unfold wait_outcome. right; right; right; right.
         split; [left; reflexivity|]. rewrite Nat.add_0_r. split; [exact Hlt|reflexivity]. }
    apply N.ltb_lt in Hlt.
    assert (Hone : forall i, (i < 1)%nat -> (poll_time polls start (k + i) - start < MAX_WAIT_MS)%N)
      by (intros i Hi; replace i with 0%nat by lia; rewrite Nat.add_0_r; exact Hlt).
    assert (Hlast : (k + 1 - 1)%nat = k) by lia.
    destruct (get_result (polls k)) as [st|err|] eqn:Hr; [destruct st| |].
    1: { exists 1%nat, (Settles (inr tt) (poll_time polls start k + get_latency (polls k))).
      split; [reflexivity|]. split; [exact Hone|]. split; [intros; lia|].
      unfold wait_outcome. rewrite Hlast. left. split; [lia|split; [exact Hr|reflexivity]]. }
    1: { exists 1%nat, (Settles (inl (wait_failed fileName)) (poll_time polls start k + get_latency (polls k))).
      split; [reflexivity|]. split; [exact Hone|]. split; [intros; lia|].
      unfold wait_outcome. rewrite Hlast. right; left. split; [lia|split; [exact Hr|reflexivity]]. }
    3: { exists 1%nat, (Settles (inl err) (poll_time polls start k + get_latency (polls k))).
      split; [reflexivity|]. split; [exact Hone|]. split; [intros; lia|].
      unfold wait_outcome. rewrite Hlast. right; right; left. split; [lia|]. exists err. split; [exact Hr|reflexivity]. }
    3: { exists 1%nat, Blocks.
      split; [reflexivity|]. split; [exact Hone|]. split; [intros; lia|].
      unfold wait_outcome. rewrite Hlast. right; right; right; left. split; [lia|split; [exact Hr|reflexivity]]. }
    all: destruct (IH (S k)) as [n [e [Heq [Hb [Hnt Hout]]]]];
      [pose proof (poll_time_step polls start k); pose proof (poll_time_lower polls start k);
       unfold POLL_INTERVAL_MS, MAX_WAIT_MS in *; lia|];
      exists (S n), e;
      (split; [change (poll_time polls start k + get_latency (polls k) + POLL_INTERVAL_MS
                        + timer_lateness (polls k))%N with (poll_time polls start (S k));
               rewrite Heq; reflexivity|]);
      (split; [intros i Hi; destruct i as [|i]; [rewrite Nat.add_0_r; exact Hlt|];
               replace (k + S i)%nat with (S k + i)%nat by lia; apply Hb; lia|]);
      (split; [intros i Hi; destruct i as [|i]; [rewrite Nat.add_0_r, Hr; reflexivity|];
               replace (k + S i)%nat with (S k + i)%nat by lia; apply Hnt; lia|]);
      unfold wait_outcome in *; cbv zeta in *;
      replace (k + S n - 1)%nat with (S k + n - 1)%nat by lia;
      replace (k + S n)%nat with (S k + n)%nat by lia;
      (destruct Hout as [[H1 [H2 H3]]|[[H1 [H2 H3]]|[[H1 H2]|[[H1 [H2 H3]]|[[H1|H1] [H2 H3]]]]]];
       [left; split; [lia|tauto]
       |right; left; split; [lia|tauto]
       |right; right; left; split; [lia|exact H2]
       |right; right; right; left; split; [lia|tauto]
       |subst n; right; right; right; right;
        split; [right; replace (S k + 0 - 1)%nat with k by lia; rewrite Hr; reflexivity|tauto]
       |right; right; right; right; tauto]).
Qed.

Lemma waitForFileActive_spec fileName polls start :
  exists n e,
    waitForFileActive fileName polls start = Some (e, map (poll_time polls start) (seq 0 n)) /\
    (n <= 40)%nat /\
    (forall i, (i < n)%nat -> (poll_time polls start i - start < MAX_WAIT_MS)%N) /\
    (forall i, (S i < n)%nat -> continues (get_result (polls i)) = true) /\
    wait_outcome fileName polls start 0 n e.
Proof.
  destruct (wait_loop_spec WAIT_FUEL fileName polls start 0) as [n [e [Heq [Hb [Hnt Hout]]]]].
  { simpl. unfold MAX_WAIT_MS. lia. }
  exists n, e. split; [exact Heq|]. split.
  - destruct n as [|m]; [lia|]. specialize (Hb m ltac:(lia)). simpl in Hb.
    pose proof (poll_time_lower polls start m). unfold MAX_WAIT_MS in Hb. lia.
  - split; [exact Hb|]. split; [exact Hnt|exact Hout].
Qed.



(** ** The upload directory and the transcoder *)

Lemma file_lookup_remove_same p fs : file_lookup p (fs_remove p fs) = None.
Proof.
  induction fs as [|[q n] fs IH]; simpl; [reflexivity|].
  destruct (String.eqb q p) eqn:E; simpl.
  - exact IH.
  - destruct (String.eqb p q) eqn:E'; [|exact IH].
    apply String.eqb_eq in E'. subst. rewrite String.eqb_refl in E. discriminate.
Qed.

Lemma file_lookup_remove_other p q fs :
  p <> q -> file_lookup p (fs_remove q fs) = file_lookup p fs.
Proof.
  intros H. induction fs as [|[r n] fs IH]; simpl; [reflexivity|].
  destruct (String.eqb r q) eqn:E; simpl.
  - apply String.eqb_eq in E. subst r. destruct (String.eqb p q) eqn:E'; [|exact IH].
    apply String.eqb_eq in E'. contradiction.
  - rewrite IH. reflexivity.
Qed.

Lemma compressVideo_cases me fp w :
  (exists e, compressVideo me fp w = (inl e, mkWorld (w_db w) (w_files w) (S (w_next_uuid w)) (w_uuids w))) \/
  (exists n, file_lookup fp (w_files w) <> None /\
     compressVideo me fp w =
       (inr (compressed_path w fp),
        mkWorld (w_db w) (fs_remove fp ((compressed_path w fp, n) :: fs_remove (compressed_path w fp) (w_files w)))
                (S (w_next_uuid w)) (w_uuids w))).
Proof.
  destruct w as [d fs k uu]. unfold compressed_path; cbn [w_db w_files w_next_uuid w_uuids].
  set (out := path_join (path_dirname fp) (compressed_name (uu k) (path_extname (path_basename fp)))).
  cbv beta iota zeta delta [compressVideo mbind uuidv4 getVideoDuration lift throw ret fs_stat get_world].
  cbn [w_db w_files w_next_uuid w_uuids]. fold out.
  destruct (probe_duration me) as [e|dur]; [left; eexists; reflexivity|].
  cbv beta iota zeta. cbn [w_db w_files w_next_uuid w_uuids].
  destruct (file_lookup fp fs) as [sz|] eqn:Hfp; [|left; eexists; reflexivity].
  cbv beta iota zeta.
  set (dsec := match dur with Some q => if Qeq_bool q 0 then inject_Z 10 else q | None => inject_Z 10 end).
  cbv beta iota zeta delta [encode mbind lift throw ret].
  destruct (ffmpeg_run me (compress_plan dsec sz)) as [e|n]; [left; eexists; reflexivity|].
  right. exists n. split; [congruence|].
  cbv beta iota zeta delta [fs_write mbind get_world put_world cleanupOriginal try_catch fs_unlink fs_stat ret throw].
  cbn [w_db w_files w_next_uuid w_uuids file_lookup].
  destruct (compress_plan dsec sz); cbv beta iota zeta; cbn [w_db w_files w_next_uuid w_uuids file_lookup];
    rewrite ?String.eqb_refl; cbv beta iota zeta; cbn [w_db w_files w_next_uuid w_uuids file_lookup];
    (destruct (String.eqb fp out) eqn:E; [reflexivity|]);
    apply String.eqb_neq in E; rewrite (file_lookup_remove_other fp out fs E), Hfp; reflexivity.
Qed.

(** ** Arguments, steps and tables left alone *)

Lemma mbind_run {A B} (m : M A) (k : A -> M B) w a w' :
  m w = (inr a, w') -> mbind m k w = k a w'.
Proof. intros H. unfold mbind. rewrite H. reflexivity. Qed.
Lemma mbind_fail {A B} (m : M A) (k : A -> M B) w e w' :
  m w = (inl e, w') -> mbind m k w = (inl e, w').
Proof. intros H. unfold mbind. rewrite H. reflexivity. Qed.

Lemma bind_args_ok xs : forallb arg_ok xs = true -> bind_args xs = inr (map arg_cell xs).
Proof.
  induction xs as [|x xs IH]; simpl; [reflexivity|].
  intros H. apply andb_prop in H as [Hx Hxs]. rewrite IH by exact Hxs.
  unfold arg_ok, arg_cell in *. destruct (bind_arg x); [discriminate|reflexivity].
Qed.
Lemma db_run_args_ok s xs :
  forallb arg_ok xs = true -> db_run_args s xs = db_run s (map arg_cell xs).
Proof. intros H. unfold db_run_args. rewrite bind_args_ok by exact H. reflexivity. Qed.
Lemma arg_ok_AVal v : arg_ok (AVal v) = scalar v.
Proof. destruct v; reflexivity. Qed.
Lemma arg_ok_json v : arg_ok (JSON_stringify v) = true.
Proof. destruct v; reflexivity. Qed.
Lemma arg_cell_json v : arg_cell (JSON_stringify v) = json_cell v.
Proof. destruct v; reflexivity. Qed.

(** Steps that leave the rows of one table alone. *)
Lemma keeps_ret {A} t (a : A) : keeps_rows t (ret a).
Proof. intros w. reflexivity. Qed.
Lemma keeps_throw {A} t e : keeps_rows t (@throw A e).
Proof. intros w. reflexivity. Qed.
Lemma keeps_lift {A} t (r : exn + A) : keeps_rows t (lift r).
Proof. destruct r; intros w; reflexivity. Qed.
Lemma keeps_prop t v k : keeps_rows t (prop v k).
Proof. apply keeps_lift. Qed.
Lemma keeps_uuidv4 t : keeps_rows t uuidv4.
Proof. intros w. reflexivity. Qed.
Lemma keeps_db_prepare t s : keeps_rows t (db_prepare s).
Proof. intros w. unfold db_prepare. destruct (prepare _ _); reflexivity. Qed.
Lemma keeps_db_run t s ps : stmt_table s <> t -> keeps_rows t (db_run s ps).
Proof.
  intros Hne w. unfold db_run. destruct (run_stmt (w_db w) s ps) as [e|[rs d']] eqn:H; [reflexivity|].
  exact (run_stmt_rows_other _ _ _ _ _ _ H Hne).
Qed.
Lemma keeps_mbind {A B} t (m : M A) (k : A -> M B) :
  keeps_rows t m -> (forall a, keeps_rows t (k a)) -> keeps_rows t (mbind m k).
Proof.
  intros Hm Hk w. unfold mbind. specialize (Hm w).
  destruct (m w) as [[e|a] w']; simpl in *; [exact Hm|]. rewrite Hk. exact Hm.
Qed.
Lemma keeps_db_run_args t s xs : stmt_table s <> t -> keeps_rows t (db_run_args s xs).
Proof.
  intros Hne. unfold db_run_args. apply keeps_mbind; [apply keeps_lift|]. intros. apply keeps_db_run, Hne.
Qed.

Create HintDb keeps.
#[local] Hint Resolve keeps_ret keeps_throw keeps_lift keeps_prop keeps_uuidv4 keeps_db_prepare
  keeps_mbind : keeps.
#[local] Hint Extern 1 (keeps_rows _ (db_run _ _)) =>
  apply keeps_db_run; cbn [stmt_table insertLesson setAnalyzed]; discriminate : keeps.
#[local] Hint Extern 1 (keeps_rows _ (db_run_args _ _)) =>
  apply keeps_db_run_args; cbn [stmt_table insertLesson setAnalyzed]; discriminate : keeps.

Lemma keeps_insert_lessons swingId rms : keeps_rows "swing_metrics" (insert_lessons swingId rms).
Proof. induction rms as [|rm rms IH]; simpl; eauto 10 with keeps. Qed.

Lemma keeps_finish_analysis swingId roadmaps : keeps_rows "swing_metrics" (finish_analysis swingId roadmaps).
Proof.
  unfold finish_analysis, store_lessons.
  apply keeps_mbind; [|intros; eauto 10 with keeps].
  destruct (truthy roadmaps); [|auto with keeps].
  apply keeps_mbind; [auto with keeps|]. intros len. destruct (gt_zero len); [|auto with keeps].
  apply keeps_mbind; [auto with keeps|]. intros. apply keeps_mbind; [auto with keeps|].
  intros. apply keeps_insert_lessons.
Qed.

Lemma prop_not_nullish v k : nullish v = false -> prop v k = ret (prop_value v k).
Proof. intros H. unfold prop, prop_value, lift. destruct v; try discriminate; reflexivity. Qed.

Lemma prop2_obj fs ts k1 k2 :
  field fs k1 = JObj ts -> prop2 (JObj fs) k1 k2 = ret (field ts k2).
Proof. intros H. unfold prop2. rewrite prop_obj, mbind_ret, H. reflexivity. Qed.

(** ** The upload route *)

Lemma transcode_stage_frame me file w :
  exists abs url w1, transcode_stage me file w = (inr (abs, url), w1) /\
    w_db w1 = w_db w /\ w_uuids w1 = w_uuids w.
Proof.
  unfold transcode_stage, try_catch.
  destruct (compressVideo_cases me (file_path file) w) as [[e He]|[n [_ He]]].
  - rewrite (mbind_fail _ _ _ _ _ He). do 3 eexists. split; [reflexivity|]. split; reflexivity.
  - rewrite (mbind_run _ _ _ _ _ He). do 3 eexists. split; [reflexivity|]. split; reflexivity.
Qed.

Lemma accept_upload_inserts me file club playerId w rs :
  db_foreign_keys (w_db w) = false ->
  find_table "swings" (db_tables (w_db w)) = Some (swings_table, rs) ->
  (forall n, existsb (fun r => sql_eqb (lookup_cell "id" r) (SText (w_uuids w n))) rs = false) ->
  exists abs sid w1 r,
    accept_upload me file club playerId w = (inr (abs, sid), w1) /\
    rows_of (w_db w1) "swings" = app rs [r] /\
    lookup_cell "id" r = SText sid /\ lookup_cell "analyzed" r = SNum 0.
Proof.
  intros Hfk Hs Hid.
  destruct (transcode_stage_frame me file w) as [abs [url [w1 [Ht [Hd Hu]]]]].
  unfold accept_upload. rewrite (mbind_run _ _ _ _ _ Ht). cbv beta.
  destruct w1 as [d1 f1 n1 u1]; cbn [w_db w_uuids] in Hd, Hu. subst d1 u1.
  cbv beta iota zeta delta [mbind ret db_prepare uuidv4]. cbn [w_db w_files w_next_uuid w_uuids].
  rewrite (prepare_ok _ insertSwing _ _ Hs) by reflexivity. cbv beta iota zeta.
  rewrite db_run_args_ok by reflexivity. unfold db_run. cbv beta iota zeta.
  cbn [w_db w_files w_next_uuid w_uuids]. unfold insertSwing.
  rewrite (run_insert _ _ _ _ _ _ Hs); [|reflexivity|reflexivity|].
  2: { unfold constraint_error. rewrite Hfk. simpl.
       change (arg_cell (AVal (JStr (w_uuids w n1)))) with (SText (w_uuids w n1)).
       rewrite Hid. reflexivity. }
  cbv beta iota zeta. do 4 eexists. split; [reflexivity|].
  cbn [w_db]. split; [apply (rows_of_with_rows_same _ _ _ _ _ Hs)|].
  split; reflexivity.
Qed.

Lemma upload_analysis_fails me ge roadmaps req file club w rs e :
  up_file req = Some file -> up_club req = Some club -> club <> "" ->
  db_foreign_keys (w_db w) = false ->
  find_table "swings" (db_tables (w_db w)) = Some (swings_table, rs) ->
  (forall n, existsb (fun r => sql_eqb (lookup_cell "id" r) (SText (w_uuids w n))) rs = false) ->
  (forall p w', analyzeSwingVideo ge p w' = (inl e, w')) ->
  exists w1 r sid,
    upload_handler me ge roadmaps req w = (inr (error_response e), w1) /\
    rows_of (w_db w1) "swings" = app rs [r] /\
    lookup_cell "id" r = SText sid /\ lookup_cell "analyzed" r = SNum 0.
Proof.
  intros Hf Hc Hne Hfk Hs Hid Ha.
  unfold upload_handler, try_catch. rewrite Hf, Hc.
  rewrite (proj2 (String.eqb_neq club "") Hne).
  destruct (accept_upload_inserts me file club
              (match up_playerId req with Some p => p | None => "usr_12345" end) w rs Hfk Hs Hid)
    as [abs [sid [w1 [r [Hacc [Hrows [Hi Han]]]]]]].
  rewrite (mbind_run _ _ _ _ _ Hacc). cbn [fst snd].
  unfold analyze_stage. rewrite (mbind_fail _ _ _ _ _ (Ha abs w1)).
  exists w1, r, sid. split; [reflexivity|]. auto.
Qed.

Lemma analyzeSwingVideo_wait_fails ge p w e :
  g_dummy_key ge = false -> g_upload ge p = inr tt -> g_wait ge = inl e ->
  analyzeSwingVideo ge p w = (inl e, w).
Proof.
  intros Hk Hu Hw. unfold analyzeSwingVideo. rewrite Hk. unfold try_catch, mbind, lift.
  rewrite Hu, Hw. reflexivity.
Qed.

(** ** Lemmas for the further properties *)

Lemma find_table_app_last t ts tb :
  find_table t (ts ++ [(tb, [])]) =
  match find_table t ts with
  | Some x => Some x
  | None => if String.eqb (tbl_name tb) t then Some (tb, []) else None
  end.
Proof.
  induction ts as [|[tb' rs] rest IH]; simpl; [reflexivity|].
  destruct (String.eqb (tbl_name tb') t); [reflexivity|exact IH].
Qed.

Lemma create_keeps_found d tb t x :
  find_table t (db_tables d) = Some x ->
  find_table t (db_tables (create_if_not_exists d tb)) = Some x.
Proof.
  intros H. unfold create_if_not_exists.
  destruct (find_table (tbl_name tb) (db_tables d)); [exact H|]. simpl.
  rewrite find_table_app_last, H. reflexivity.
Qed.

Lemma fold_create_keeps_found tbs d t x :
  find_table t (db_tables d) = Some x ->
  find_table t (db_tables (fold_left create_if_not_exists tbs d)) = Some x.
Proof.
  revert d. induction tbs as [|tb rest IH]; intros d H; simpl; [exact H|].
  apply IH, create_keeps_found, H.
Qed.

Lemma create_rows d tb t : rows_of (create_if_not_exists d tb) t = rows_of d t.
Proof.
  unfold create_if_not_exists.
  destruct (find_table (tbl_name tb) (db_tables d)) eqn:E; [reflexivity|].
  unfold rows_of. simpl. rewrite find_table_app_last.
  destruct (find_table t (db_tables d)) as [[tb' rs]|]; [reflexivity|].
  destruct (String.eqb (tbl_name tb) t); reflexivity.
Qed.

Lemma initSchema_rows d t : rows_of (initSchema d) t = rows_of d t.
Proof.
  unfold initSchema. generalize d. induction schema_tables as [|tb rest IH]; intros d0; simpl;
    [reflexivity|]. rewrite IH. apply create_rows.
Qed.

Lemma create_found d tb :
  exists x, find_table (tbl_name tb) (db_tables (create_if_not_exists d tb)) = Some x.
Proof.
  unfold create_if_not_exists.
  destruct (find_table (tbl_name tb) (db_tables d)) eqn:E; [eauto|]. simpl.
  rewrite find_table_app_last, E, String.eqb_refl. eauto.
Qed.

Lemma fold_create_found tbs d tb :
  In tb tbs ->
  exists x, find_table (tbl_name tb) (db_tables (fold_left create_if_not_exists tbs d)) = Some x.
Proof.
  revert d. induction tbs as [|tb' rest IH]; intros d Hin; simpl in *; [contradiction|].
  destruct Hin as [->|Hin]; [|apply IH, Hin].
  destruct (create_found d tb) as [x Hx]. exists x. apply fold_create_keeps_found, Hx.
Qed.

Lemma initSchema_found d tb :
  In tb schema_tables -> exists x, find_table (tbl_name tb) (db_tables (initSchema d)) = Some x.
Proof. apply fold_create_found. Qed.

Lemma fold_create_noop tbs d :
  (forall tb, In tb tbs -> find_table (tbl_name tb) (db_tables d) <> None) ->
  fold_left create_if_not_exists tbs d = d.
Proof.
  revert d. induction tbs as [|tb rest IH]; intros d H; simpl; [reflexivity|].
  unfold create_if_not_exists at 2.
  destruct (find_table (tbl_name tb) (db_tables d)) eqn:E.
  - apply IH. intros tb' Hin. apply H. right. exact Hin.
  - exfalso. apply (H tb); [left; reflexivity|exact E].
Qed.

Lemma initSchema_noop d :
  (forall tb, In tb schema_tables -> find_table (tbl_name tb) (db_tables d) <> None) ->
  initSchema d = d.
Proof. apply fold_create_noop. Qed.

Lemma initSchema_complete d tb :
  In tb schema_tables -> find_table (tbl_name tb) (db_tables (initSchema d)) <> None.
Proof. intros Hin. destruct (initSchema_found d tb Hin) as [x Hx]. rewrite Hx. discriminate. Qed.

Lemma initSchema_idem d : initSchema (initSchema d) = initSchema d.
Proof. apply initSchema_noop. apply initSchema_complete. Qed.

Lemma set_rows_found t t' rs ts :
  find_table t ts <> None -> find_table t (set_rows t' rs ts) <> None.
Proof.
  intros H. destruct (String.eqb t' t) eqn:E.
  - apply String.eqb_eq in E. subst t'. rewrite find_table_set_rows_same.
    destruct (find_table t ts) as [[? ?]|]; [discriminate|exact H].
  - rewrite find_table_set_rows_other; [exact H|]. intros ->. rewrite String.eqb_refl in E. discriminate.
Qed.

Lemma run_insert_shape d t cols ps rs d' :
  run_stmt d (SInsert t cols) ps = inr (rs, d') ->
  exists r, d' = with_rows d t (rows_of d t ++ [r]) /\ find_table t (db_tables d) <> None.
Proof.
  unfold run_stmt. destruct (prepare d (SInsert t cols)) as [e|tb] eqn:Hp; [discriminate|].
  destruct (prepare_table _ _ _ Hp) as [rs0 Hf]. simpl in Hf.
  rewrite (find_table_name _ _ _ _ Hf).
  destruct (Nat.eqb _ _); [|discriminate]. destruct (constraint_error _ _ _ _); [discriminate|].
  intros [= _ <-]. eexists. split; [reflexivity|]. rewrite Hf. discriminate.
Qed.

Lemma keeps_try_catch {A} t (m : M A) (h : exn -> M A) :
  keeps_rows t m -> (forall e, keeps_rows t (h e)) -> keeps_rows t (try_catch m h).
Proof.
  intros Hm Hh w. unfold try_catch. specialize (Hm w).
  destruct (m w) as [[e|a] w']; simpl in *; [rewrite Hh|]; exact Hm.
Qed.

Ltac keeps_auto :=
  match goal with
  | |- keeps_rows _ (db_run_args _ _) => apply keeps_db_run_args; cbn; congruence
  | |- keeps_rows _ (db_run _ _) => apply keeps_db_run; cbn; congruence
  | |- keeps_rows _ (mbind _ _) => apply keeps_mbind; [keeps_auto | intros; keeps_auto]
  | |- keeps_rows _ (try_catch _ _) => apply keeps_try_catch; [keeps_auto | intros; keeps_auto]
  | |- keeps_rows _ (prop2 _ _ _) => unfold prop2; keeps_auto
  | _ => auto with keeps
  end.

Lemma keeps_transcode_stage t me file : keeps_rows t (transcode_stage me file).
Proof.
  intros w. destruct (transcode_stage_frame me file w) as [abs [url [w1 [H [Hd _]]]]].
  rewrite H. simpl. rewrite Hd. reflexivity.
Qed.

Lemma keeps_analyzeSwingVideo t ge p : keeps_rows t (analyzeSwingVideo ge p).
Proof. unfold analyzeSwingVideo. destruct (g_dummy_key ge); auto 10 using keeps_try_catch with keeps. Qed.

Lemma keeps_accept_upload t me file club playerId :
  t <> "swings" -> keeps_rows t (accept_upload me file club playerId).
Proof.
  intros Hne. unfold accept_upload.
  apply keeps_mbind; [apply keeps_transcode_stage|]. intros paths. keeps_auto.
Qed.

Lemma keeps_insert_lessons_t t swingId rms :
  t <> "lessons" -> keeps_rows t (insert_lessons swingId rms).
Proof.
  intros Hne. induction rms as [|rm rms IH]; simpl; [auto with keeps|].
  keeps_auto.
Qed.

Lemma existsb_false_filter {A} (f : A -> bool) l : existsb f l = false -> filter f l = [].
Proof.
  induction l as [|x l IH]; simpl; [reflexivity|].
  intros H. apply orb_false_iff in H as [H1 H2]. rewrite H1. apply IH, H2.
Qed.

Lemma accept_upload_db me file club playerId w rs :
  db_foreign_keys (w_db w) = false ->
  find_table "swings" (db_tables (w_db w)) = Some (swings_table, rs) ->
  (forall n, existsb (fun r => sql_eqb (lookup_cell "id" r) (SText (w_uuids w n))) rs = false) ->
  exists abs k url w1,
    accept_upload me file club playerId w = (inr (abs, w_uuids w k), w1) /\
    w_db w1 = with_rows (w_db w) "swings" (app rs [swing_row (w_uuids w k) playerId club url]) /\
    w_uuids w1 = w_uuids w.
Proof.
  intros Hfk Hs Hid.
  destruct (transcode_stage_frame me file w) as [abs [url [w1 [Ht [Hd Hu]]]]].
  unfold accept_upload. rewrite (mbind_run _ _ _ _ _ Ht). cbv beta.
  destruct w1 as [d1 f1 n1 u1]; cbn [w_db w_uuids] in Hd, Hu. subst d1 u1.
  cbv beta iota zeta delta [mbind ret db_prepare uuidv4]. cbn [w_db w_files w_next_uuid w_uuids].
  rewrite (prepare_ok _ insertSwing _ _ Hs) by reflexivity. cbv beta iota zeta.
  rewrite db_run_args_ok by reflexivity. unfold db_run. cbv beta iota zeta.
  cbn [w_db w_files w_next_uuid w_uuids]. unfold insertSwing.
  rewrite (run_insert _ _ _ _ _ _ Hs); [|reflexivity|reflexivity|].
  2: { unfold constraint_error. rewrite Hfk. simpl.
       change (arg_cell (AVal (JStr (w_uuids w n1)))) with (SText (w_uuids w n1)).
       rewrite Hid. reflexivity. }
  cbv beta iota zeta. exists abs, n1, url. eexists. split; [reflexivity|]. split; reflexivity.
Qed.

Lemma store_analysis_inserts w swingId fs ts roadmaps ms :
  db_foreign_keys (w_db w) = false ->
  find_table "swing_metrics" (db_tables (w_db w)) = Some (swing_metrics_table, ms) ->
  existsb (fun r => sql_eqb (lookup_cell "id" r) (SText (w_uuids w (w_next_uuid w)))) ms = false ->
  existsb (fun r => sql_eqb (lookup_cell "swingId" r) (SText swingId)) ms = false ->
  field fs "timestampsMs" = JObj ts ->
  forallb (fun k => scalar (field ts k)) checkpoint_keys = true ->
  forallb (fun k => scalar (field fs k)) ["estimatedClubSpeed"; "estimatedClubPath"; "estimatedDistance"] = true ->
  exists m, lookup_cell "swingId" m = SText swingId /\
    store_analysis swingId (JObj fs) roadmaps w =
    finish_analysis swingId roadmaps
      (mkWorld (with_rows (w_db w) "swing_metrics" (app ms [m])) (w_files w) (S (w_next_uuid w)) (w_uuids w)).
Proof.
  destruct w as [d fl n uu]; cbn [w_db w_uuids w_next_uuid w_files].
  intros Hfk Ht Hid Hsw Hts Hck Hest.
  unfold store_analysis. rewrite !(prop2_obj fs ts _ _ Hts), !prop_obj.
  cbv beta iota zeta delta [mbind ret db_prepare uuidv4].
  cbn [w_db w_files w_next_uuid w_uuids].
  rewrite (prepare_ok d insertMetrics _ _ Ht) by reflexivity. cbv beta iota zeta.
  rewrite db_run_args_ok.
  2: { cbn [forallb]. rewrite !arg_ok_AVal, !arg_ok_json. simpl in Hck, Hest |- *.
       repeat match goal with H : _ && _ = true |- _ => apply andb_prop in H as [? ?] end.
       repeat match goal with H : scalar _ = true |- _ => rewrite H; clear H end. reflexivity. }
  cbn [w_db w_files w_next_uuid w_uuids]. unfold db_run. cbv beta iota zeta.
  cbn [w_db w_files w_next_uuid w_uuids]. unfold insertMetrics.
  rewrite (run_insert _ _ _ _ _ _ Ht); [|reflexivity|reflexivity|].
  2: { unfold constraint_error. rewrite Hfk. simpl.
       change (arg_cell (AVal (JStr (uu n)))) with (SText (uu n)).
       change (arg_cell (AVal (JStr swingId))) with (SText swingId).
       rewrite Hid, Hsw. reflexivity. }
  cbv beta iota zeta. eexists. split; [|reflexivity]. reflexivity.
Qed.

Lemma map_update_fresh c v w p rs :
  existsb (fun r => sql_eqb (lookup_cell w r) p) rs = false ->
  map (fun r => if sql_eqb (lookup_cell w r) p then update_cell c v r else r) rs = rs.
Proof.
  induction rs as [|r rs IH]; simpl; [reflexivity|].
  intros H. apply orb_false_iff in H as [H1 H2]. rewrite H1, IH by exact H2. reflexivity.
Qed.

Lemma finish_analysis_no_lessons swingId roadmaps w rs :
  truthy roadmaps = false ->
  find_table "swings" (db_tables (w_db w)) = Some (swings_table, rs) ->
  finish_analysis swingId roadmaps w =
    (inr tt, mkWorld (with_rows (w_db w) "swings"
                        (map (fun r => if sql_eqb (lookup_cell "id" r) (SText swingId)
                                       then update_cell "analyzed" (SNum 1) r else r) rs))
                     (w_files w) (w_next_uuid w) (w_uuids w)).
Proof.
  intros Hr Hs. destruct w as [d fl n uu]; cbn [w_db] in Hs.
  unfold finish_analysis, store_lessons. rewrite Hr.
  cbv beta iota zeta delta [mbind ret db_prepare db_run]. cbn [w_db w_files w_next_uuid w_uuids].
  rewrite (prepare_ok d setAnalyzed _ _ Hs) by reflexivity. cbv beta iota zeta.
  cbn [w_db w_files w_next_uuid w_uuids]. unfold run_stmt. rewrite (prepare_ok d setAnalyzed _ _ Hs) by reflexivity.
  unfold rows_of. simpl tbl_name. rewrite Hs. reflexivity.
Qed.

Lemma string_length_append (a b : string) : String.length (a ++ b) = (String.length a + String.length b)%nat.
Proof. induction a as [|c a IH]; simpl; [reflexivity|]. rewrite IH. reflexivity. Qed.

Lemma strip_prefix_cons a p c s :
  strip_prefix (String a p) (String c s) = if Ascii.eqb a c then strip_prefix p s else None.
Proof. reflexivity. Qed.

Lemma remove_all_fuel_cons f p c s :
  remove_all_fuel (S f) p (String c s) =
  match strip_prefix p (String c s) with
  | Some rest => remove_all_fuel f p rest
  | None => String c (remove_all_fuel f p s)
  end.
Proof. reflexivity. Qed.

Lemma remove_all_fuel_no_backtick p' s f :
  ~ In backtick (list_ascii_of_string s) -> (String.length s <= f)%nat ->
  remove_all_fuel f (String backtick p') s = s.
Proof.
  revert f. induction s as [|c s IH]; intros f Hn Hl.
  - destruct f; reflexivity.
  - destruct f as [|f]; simpl in Hl; [lia|].
    rewrite remove_all_fuel_cons. simpl in Hn.
    assert (E : Ascii.eqb backtick c = false).
    { apply Ascii.eqb_neq. intros <-. apply Hn. left. reflexivity. }
    rewrite strip_prefix_cons, E. rewrite IH; [reflexivity| |lia]. intros Hi. apply Hn. right. exact Hi.
Qed.

Lemma remove_json_tag_tail s f :
  ~ In backtick (list_ascii_of_string s) -> (String.length s + 3 <= f)%nat ->
  remove_all_fuel f "```json" (s ++ "```") = s ++ "```".
Proof.
  revert f. induction s as [|c s IH]; intros f Hn Hl.
  - simpl in Hl. destruct f as [|[|[|[|f]]]]; try lia; reflexivity.
  - destruct f as [|f]; simpl in Hl; [lia|].
    cbn [String.append]. rewrite remove_all_fuel_cons. simpl in Hn.
    assert (E : Ascii.eqb backtick c = false).
    { apply Ascii.eqb_neq. intros <-. apply Hn. left. reflexivity. }
    change (String "`" ?x) with (String backtick x). rewrite strip_prefix_cons, E. rewrite IH; [reflexivity| |lia].
    intros Hi. apply Hn. right. exact Hi.
Qed.

Lemma remove_fence_tail s f :
  ~ In backtick (list_ascii_of_string s) -> (String.length s + 3 <= f)%nat ->
  remove_all_fuel f "```" (s ++ "```") = s.
Proof.
  revert f. induction s as [|c s IH]; intros f Hn Hl.
  - simpl in Hl. destruct f as [|[|f]]; try lia; reflexivity.
  - destruct f as [|f]; simpl in Hl; [lia|].
    cbn [String.append]. rewrite remove_all_fuel_cons. simpl in Hn.
    assert (E : Ascii.eqb backtick c = false).
    { apply Ascii.eqb_neq. intros <-. apply Hn. left. reflexivity. }
    change (String "`" ?x) with (String backtick x). rewrite strip_prefix_cons, E. rewrite IH; [reflexivity| |lia].
    intros Hi. apply Hn. right. exact Hi.
Qed.

Lemma strip_prefix_app p t : strip_prefix p (p ++ t) = Some t.
Proof. induction p as [|a p IH]; [destruct t; reflexivity|]. cbn [String.append]. rewrite strip_prefix_cons, Ascii.eqb_refl. exact IH. Qed.

Lemma remove_all_fuel_prefix f p t :
  p <> "" -> remove_all_fuel (S f) p (p ++ t) = remove_all_fuel f p t.
Proof.
  intros H. destruct p as [|a p']; [contradiction|].
  cbn [String.append]. rewrite remove_all_fuel_cons.
  change (String a (p' ++ t)) with (String a p' ++ t). rewrite strip_prefix_app. reflexivity.
Qed.

Lemma split_last_app c a b :
  split_last c (a ++ b) =
  match split_last c b with
  | Some (l, r) => Some (a ++ l, r)
  | None => match split_last c a with Some (l, r) => Some (l, r ++ b) | None => None end
  end.
Proof.
  induction a as [|x a IH]; simpl.
  - destruct (split_last c b) as [[l r]|]; reflexivity.
  - rewrite IH. destruct (split_last c b) as [[l r]|]; [reflexivity|].
    destruct (split_last c a) as [[l r]|]; [reflexivity|].
    destruct (Ascii.eqb x c); reflexivity.
Qed.

Lemma split_last_none c s : ~ In c (list_ascii_of_string s) -> split_last c s = None.
Proof.
  induction s as [|x s IH]; simpl; [reflexivity|]. intros H.
  rewrite IH by tauto. destruct (Ascii.eqb_spec x c); [subst; tauto|reflexivity].
Qed.

Lemma split_last_some_none c s l r : split_last c s = Some (l, r) -> split_last c r = None.
Proof.
  revert l. induction s as [|x s IH]; simpl; intros l H; [discriminate|].
  destruct (split_last c s) as [[l' r']|] eqn:E.
  - injection H as _ <-. exact (IH _ eq_refl).
  - destruct (Ascii.eqb x c); [|discriminate]. injection H as _ <-. exact E.
Qed.

Lemma basename_no_slash p : split_last "/" (path_basename p) = None.
Proof.
  unfold path_basename. destruct (split_last "/" p) as [[l r]|] eqn:E; [exact (split_last_some_none _ _ _ _ E)|exact E].
Qed.

Lemma basename_of_no_slash f : split_last "/" f = None -> path_basename f = f.
Proof. unfold path_basename. intros ->. reflexivity. Qed.

Lemma basename_join d f : split_last "/" f = None -> path_basename (path_join d f) = f.
Proof.
  intros H. unfold path_basename, path_join. rewrite split_last_app. simpl. rewrite H. reflexivity.
Qed.

Lemma string_append_empty_r s : s ++ "" = s.
Proof. induction s as [|c s IH]; simpl; [reflexivity|]. rewrite IH. reflexivity. Qed.

Lemma split_last_join d f : split_last "/" f = None ->
  split_last "/" (path_join d f) = Some (d, f).
Proof.
  intros H. unfold path_join. rewrite split_last_app. simpl. rewrite H. simpl.
  rewrite string_append_empty_r. reflexivity.
Qed.

Lemma dirname_nonempty p : path_dirname p <> "".
Proof.
  unfold path_dirname. destruct (split_last "/" p) as [[[|c l] r]|]; discriminate.
Qed.

Lemma dirname_join p f : split_last "/" f = None ->
  path_dirname (path_join (path_dirname p) f) = path_dirname p.
Proof.
  intros H. pose proof (dirname_nonempty p) as Hn.
  unfold path_dirname at 1. rewrite (split_last_join _ _ H).
  destruct (path_dirname p); [contradiction|reflexivity].
Qed.

Lemma extname_basename p : path_extname (path_basename p) = path_extname p.
Proof. unfold path_extname. rewrite (basename_of_no_slash _ (basename_no_slash p)). reflexivity. Qed.

Lemma split_last_spec c s l r : split_last c s = Some (l, r) -> s = l ++ String c r.
Proof.
  revert l. induction s as [|x s IH]; simpl; intros l H; [discriminate|].
  destruct (split_last c s) as [[l' r']|] eqn:E.
  - injection H as <- <-. rewrite (IH _ eq_refl). reflexivity.
  - destruct (Ascii.eqb_spec x c); [|discriminate]. injection H as <- <-. subst. reflexivity.
Qed.

Lemma split_last_suffix_none c d s l r :
  split_last c s = Some (l, r) -> split_last d s = None -> split_last d (String c r) = None.
Proof.
  intros H1 H2. rewrite (split_last_spec _ _ _ _ H1), split_last_app in H2.
  destruct (split_last d (String c r)) as [[]|]; [discriminate|reflexivity].
Qed.

Lemma extname_cases p :
  path_extname p = "" \/
  exists r, path_extname p = String "." r /\ split_last "." r = None /\ split_last "/" r = None.
Proof.
  unfold path_extname.
  destruct (split_last "." (path_basename p)) as [[[|c l] r]|] eqn:E; [left; reflexivity| |left; reflexivity].
  right. exists r. split; [reflexivity|]. split; [exact (split_last_some_none _ _ _ _ E)|].
  pose proof (split_last_suffix_none _ "/" _ _ _ E (basename_no_slash p)) as H.
  simpl in H. destruct (split_last "/" r) as [[]|]; [discriminate|reflexivity].
Qed.

Lemma insert_lessons_check_fails swingId fs rest w ls :
  find_table "lessons" (db_tables (w_db w)) = Some (lessons_table, ls) ->
  scalar (field fs "goalType") = true ->
  goalType_check (bind_scalar (field fs "goalType")) = false ->
  scalar (field fs "aiReview") = true ->
  exists w', insert_lessons swingId (JObj fs :: rest) w =
               (inl (SQLiteError "CHECK constraint failed: goalType IN ('Ideal', 'Playable')"), w') /\ w_db w' = w_db w.
Proof.
  intros Hl Hg Hc Hr. destruct w as [d fl n uu]; cbn [w_db] in *.
  cbn [insert_lessons]. rewrite !prop_obj.
  cbv beta iota zeta delta [mbind ret uuidv4]. cbn [w_db w_files w_next_uuid w_uuids].
  rewrite db_run_args_ok.
  2: { cbn [forallb]. rewrite !arg_ok_AVal, arg_ok_json, Hg, Hr. reflexivity. }
  unfold db_run. cbn [w_db w_files w_next_uuid w_uuids]. unfold run_stmt.
  rewrite (prepare_ok d insertLesson _ _ Hl) by reflexivity.
  unfold rows_of. simpl tbl_name. rewrite Hl.
  simpl. unfold constraint_error. simpl.
  change (arg_cell (AVal (field fs "goalType"))) with (bind_scalar (field fs "goalType")).
  rewrite Hc. simpl. eexists. split; reflexivity.
Qed.

Lemma finish_analysis_check_fails swingId fs rest w ls :
  find_table "lessons" (db_tables (w_db w)) = Some (lessons_table, ls) ->
  scalar (field fs "goalType") = true ->
  goalType_check (bind_scalar (field fs "goalType")) = false ->
  scalar (field fs "aiReview") = true ->
  exists w', finish_analysis swingId (JArr (JObj fs :: rest)) w =
               (inl (SQLiteError "CHECK constraint failed: goalType IN ('Ideal', 'Playable')"), w') /\ w_db w' = w_db w.
Proof.
  intros Hl Hg Hc Hr.
  destruct (insert_lessons_check_fails swingId fs rest w ls Hl Hg Hc Hr) as [w' [Hi Hd]].
  exists w'. split; [|exact Hd].
  unfold finish_analysis, store_lessons. cbn [truthy].
  unfold prop, lift, get_prop. rewrite !mbind_ret.
  replace (gt_zero _) with true by reflexivity.
  unfold mbind at 1. unfold mbind at 1. unfold db_prepare at 1.
  rewrite (prepare_ok _ insertLesson _ _ Hl) by reflexivity. cbv iota beta.
  unfold mbind at 1. unfold lift, iterate. unfold mbind at 1. unfold ret at 1. cbv beta iota. rewrite Hi. reflexivity.
Qed.

Lemma set_rows_twice t a b ts : set_rows t b (set_rows t a ts) = set_rows t b ts.
Proof.
  induction ts as [|[tb old] rest IH]; simpl; [reflexivity|].
  destruct (String.eqb (tbl_name tb) t) eqn:E; simpl; rewrite E; [reflexivity|]. rewrite IH. reflexivity.
Qed.

Lemma with_rows_same d t tb rs :
  find_table t (db_tables d) = Some (tb, rs) -> with_rows d t rs = d.
Proof.
  destruct d as [ts fk]. unfold with_rows; cbn [db_tables db_foreign_keys]. intros H. f_equal.
  induction ts as [|[tb' old] rest IH]; simpl in *; [discriminate|].
  destruct (String.eqb (tbl_name tb') t); [injection H as -> ->; reflexivity|]. rewrite IH by exact H. reflexivity.
Qed.

Lemma insert_lessons_rows swingId rms w ls :
  db_foreign_keys (w_db w) = false ->
  find_table "lessons" (db_tables (w_db w)) = Some (lessons_table, ls) ->
  forallb lesson_ok rms = true ->
  (forall i, (i < length rms)%nat ->
     existsb (fun r => sql_eqb (lookup_cell "id" r) (SText (w_uuids w (w_next_uuid w + i)))) ls = false) ->
  NoDup (map (fun i => w_uuids w (w_next_uuid w + i)) (seq 0 (length rms))) ->
  exists new,
    insert_lessons swingId rms w =
      (inr tt, mkWorld (with_rows (w_db w) "lessons" (app ls new)) (w_files w)
                       (w_next_uuid w + length rms) (w_uuids w)) /\
    length new = length rms /\ Forall (fun r => lookup_cell "swingId" r = SText swingId) new.
Proof.
  revert w ls. induction rms as [|rm rest IH]; intros w ls Hfk Hl Hok Hfresh Hnd.
  - exists []. split; [|split; constructor].
    destruct w as [d fl n uu]. cbn [w_db] in Hl |- *. simpl.
    rewrite app_nil_r, Nat.add_0_r, (with_rows_same _ _ _ _ Hl). reflexivity.
  - cbn [forallb] in Hok. apply andb_prop in Hok as [Hrm Hok].
    destruct rm as [| | | | | |f]; try discriminate.
    cbn [lesson_ok] in Hrm. apply andb_prop in Hrm as [Hrm Hr]. apply andb_prop in Hrm as [Hg Hc].
    destruct w as [d fl n uu]; cbn [w_db w_next_uuid w_uuids w_files] in *.
    cbn [insert_lessons]. rewrite !prop_obj.
    cbv beta iota zeta delta [mbind ret uuidv4]. cbn [w_db w_files w_next_uuid w_uuids].
    rewrite db_run_args_ok.
    2: { cbn [forallb]. rewrite !arg_ok_AVal, arg_ok_json, Hg, Hr. reflexivity. }
    unfold db_run. cbn [w_db w_files w_next_uuid w_uuids]. unfold insertLesson.
    rewrite (run_insert _ _ _ _ _ _ Hl); [|reflexivity|reflexivity|].
    2: { unfold constraint_error. rewrite Hfk. simpl.
         change (arg_cell (AVal (field f "goalType"))) with (bind_scalar (field f "goalType")).
         rewrite Hc. simpl. specialize (Hfresh 0%nat ltac:(simpl; lia)). rewrite Nat.add_0_r in Hfresh.
         change (arg_cell (AVal (JStr (uu n)))) with (SText (uu n)). rewrite Hfresh. reflexivity. }
    cbv beta iota zeta.
    set (r0 := build_row lessons_table _).
    assert (Hid0 : lookup_cell "id" r0 = SText (uu n)) by reflexivity.
    assert (Hsw0 : lookup_cell "swingId" r0 = SText swingId) by reflexivity.
    cbn [length seq map] in Hnd. rewrite Nat.add_0_r in Hnd.
    apply NoDup_cons_iff in Hnd as [Hnin Hnd].
    rewrite <- seq_shift, map_map in Hnin, Hnd.
    assert (Hsh : map (fun i => uu (n + S i)%nat) (seq 0 (length rest)) = map (fun i => uu (S n + i)%nat) (seq 0 (length rest))).
    { apply map_ext. intros i. rewrite Nat.add_succ_r. reflexivity. }
    rewrite Hsh in Hnin, Hnd.
    destruct (IH (mkWorld (with_rows d "lessons" (app ls [r0])) fl (S n) uu) (app ls [r0]))
      as [new' [Hrun [Hlen Hall]]].
    + exact Hfk.
    + cbn [w_db]. unfold with_rows. simpl db_tables. rewrite find_table_set_rows_same, Hl. reflexivity.
    + exact Hok.
    + intros i Hi. cbn [w_uuids w_next_uuid]. rewrite existsb_app.
      replace (S n + i)%nat with (n + S i)%nat by lia.
      rewrite (Hfresh (S i)) by (simpl; lia). cbn [existsb orb]. rewrite Hid0. cbn [sql_eqb].
      destruct (String.eqb_spec (uu n) (uu (n + S i)%nat)) as [E|E]; [|reflexivity].
      exfalso. apply Hnin. apply in_map_iff. exists i. split.
      * rewrite E. f_equal. lia.
      * apply in_seq. lia.
    + exact Hnd.
    + exists (r0 :: new'). split; [|split; [simpl; rewrite Hlen; reflexivity|constructor; assumption]].
      rewrite Hrun. cbn [w_db w_files w_next_uuid w_uuids].
      unfold with_rows. cbn [db_tables db_foreign_keys]. rewrite set_rows_twice, <- app_assoc.
      replace (S n + length rest)%nat with (n + length (JObj f :: rest))%nat by (simpl; lia).
      reflexivity.
Qed.

Lemma finish_analysis_after_lessons swingId roadmaps w w' :
  store_lessons swingId roadmaps w = (inr tt, w') ->
  finish_analysis swingId roadmaps w = finish_analysis swingId JNull w'.
Proof. intros H. unfold finish_analysis at 1. rewrite (mbind_run _ _ _ _ _ H). reflexivity. Qed.

Lemma store_lessons_rows swingId rms w ls :
  rms <> [] ->
  db_foreign_keys (w_db w) = false ->
  find_table "lessons" (db_tables (w_db w)) = Some (lessons_table, ls) ->
  forallb lesson_ok rms = true ->
  (forall i, (i < length rms)%nat ->
     existsb (fun r => sql_eqb (lookup_cell "id" r) (SText (w_uuids w (w_next_uuid w + i)))) ls = false) ->
  NoDup (map (fun i => w_uuids w (w_next_uuid w + i)) (seq 0 (length rms))) ->
  exists new,
    store_lessons swingId (JArr rms) w =
      (inr tt, mkWorld (with_rows (w_db w) "lessons" (app ls new)) (w_files w)
                       (w_next_uuid w + length rms) (w_uuids w)) /\
    length new = length rms /\ Forall (fun r => lookup_cell "swingId" r = SText swingId) new.
Proof.
  intros Hne Hfk Hl Hok Hfresh Hnd.
  destruct (insert_lessons_rows swingId rms w ls Hfk Hl Hok Hfresh Hnd) as [new [Hrun Hrest]].
  exists new. split; [|exact Hrest].
  unfold store_lessons. cbn [truthy]. unfold prop, lift, get_prop. rewrite !mbind_ret.
  destruct rms as [|x xs]; [contradiction|].
  replace (gt_zero _) with true by reflexivity.
  unfold mbind at 1. unfold db_prepare at 1.
  rewrite (prepare_ok _ insertLesson _ _ Hl) by reflexivity. cbv iota beta.
  unfold iterate. rewrite mbind_ret. exact Hrun.
Qed.

Lemma uuid_range_nodup (uu : nat -> string) s len :
  (forall i j, uu i = uu j -> i = j) -> NoDup (map (fun i => uu (s + i)%nat) (seq 0 len)).
Proof.
  intros Hinj. apply NoDup_map_NoDup_ForallPairs; [|apply seq_NoDup].
  intros i j _ _ E. apply Hinj in E. lia.
Qed.

Lemma tally_uuids_inj (i j : nat) : tally_uuids i = tally_uuids j -> i = j.
Proof.
  unfold tally_uuids. intros H. apply (f_equal String.length) in H.
  rewrite !string_length_append in H.
  assert (L : forall n, String.length (tally n) = n)
    by (induction n as [|n IH]; simpl; [reflexivity|rewrite IH; reflexivity]).
  rewrite !L in H. simpl in H. lia.
Qed.


(** * The claims *)

(** ** Bitrate targeting (C5, C6) *)

(** C5 (counterexample): for a 60-second, 200 MB input the transcoder
    targets 3285 kbps, not about 2594 kbps; the two differ by more than
    600 kbps. *)
Lemma bitrate_60s_200MB_not_2594 :
  compress_plan (inject_Z 60) (200 * 1024 * 1024) = EncodeBitrate 3285 /\
  (Z.abs (3285 - 2594) > 600)%Z.
Proof. split; [vm_compute; reflexivity | lia]. Qed.

(** C5 (amended): for a 60-second, 200 MB input with the 25 MB budget the
    computed target video bitrate is
    floor((25*8*1024*1024/60 - 128*1024)/1024) = floor(3285.33) = 3285 kbps,
    and the bitrate branch is the one taken. *)
Theorem bitrate_60s_200MB :
  compress_plan (inject_Z 60) (200 * 1024 * 1024) = EncodeBitrate 3285 /\
  videoBitrateKbps (inject_Z 60) = 3285%Z.
Proof. split; vm_compute; reflexivity. Qed.

Lemma size_over_budget (sz : Z) :
  (25 * 1024 * 1024 < sz)%Z ->
  Qle_bool (inject_Z sz / inject_Z (1024 * 1024)) (inject_Z TARGET_SIZE_MB) = false.
Proof.
  intros H. destruct (Qle_bool _ _) eqn:E; [|reflexivity].
  apply Qle_bool_iff in E. unfold Qle, Qdiv, Qmult, Qinv, inject_Z, TARGET_SIZE_MB in E.
  simpl in E. lia.
Qed.

(** C6: for every input above the 25 MB budget and every duration of at
    least 0.1 s, [compressVideo] takes the bitrate branch and its target
    video bitrate is strictly positive and at least the 500 kbps floor. *)
Theorem bitrate_at_least_floor (durationSec : Q) (sz : Z) :
  (1 # 10) <= durationSec ->
  (25 * 1024 * 1024 < sz)%Z ->
  exists k, compress_plan durationSec sz = EncodeBitrate k /\ (0 < k)%Z /\ (500 <= k)%Z.
Proof.
  intros _ Hsz. unfold compress_plan. rewrite size_over_budget by exact Hsz.
  exists (videoBitrateKbps durationSec). split; [reflexivity|].
  unfold videoBitrateKbps. pose proof (Z.le_max_l 500 (Qfloor
    ((inject_Z (TARGET_SIZE_MB * 8 * 1024 * 1024) / durationSec - inject_Z (128 * 1024)) / inject_Z 1024))).
  lia.
Qed.

Lemma bitrate_at_least_floor_witness :
  exists k, compress_plan (inject_Z 60) (200 * 1024 * 1024) = EncodeBitrate k /\ (0 < k)%Z /\ (500 <= k)%Z.
Proof.
  apply (bitrate_at_least_floor (inject_Z 60) (200 * 1024 * 1024)).
  - vm_compute. discriminate.
  - vm_compute. reflexivity.
Defined.

(** ** Favorite toggle (C8) and delete (C9) against the schema *)

(** C8 (code_bug): on any database whose [swings] table is the one
    [initSchema] creates, which has no [isFavorite] column, the favorite
    route fails at [db.prepare] with "no such column: isFavorite": it
    answers 500 and changes nothing, so no toggle ever succeeds. *)
Theorem favorite_fails_without_isFavorite_column (w : world) (swingId : string) (rs : list row) :
  find_table "swings" (db_tables (w_db w)) = Some (swings_table, rs) ->
  favorite_handler swingId w =
    (inr (error_response (SQLiteError "no such column: isFavorite")), w).
Proof.
  intros H. unfold favorite_handler, try_catch, mbind, db_prepare, prepare. simpl.
  rewrite H. reflexivity.
Qed.

Lemma favorite_fails_without_isFavorite_column_witness :
  favorite_handler "uuid-1" demo_uploaded =
    (inr (error_response (SQLiteError "no such column: isFavorite")), demo_uploaded).
Proof.
  apply (favorite_fails_without_isFavorite_column demo_uploaded "uuid-1"
           (rows_of (w_db demo_uploaded) "swings")).
  vm_compute. reflexivity.
Defined.

Example favorite_toggle_with_column :
  let w0 := add_favorite_column demo_uploaded in
  let w1 := snd (favorite_handler "uuid-1" w0) in
  let w2 := snd (favorite_handler "uuid-1" w1) in
  map (lookup_cell "isFavorite") (rows_of (w_db w1) "swings") = [SNum 1] /\
  rows_of (w_db w2) "swings" = rows_of (w_db w0) "swings".
Proof. vm_compute. split; reflexivity. Qed.

(** C9 (code_bug): on a database with exactly the tables of [initSchema]
    (which creates no [comments] table), deleting an existing swing fails
    at its first statement, [DELETE FROM comments ..], with "no such
    table: comments": the route answers 500 and removes nothing; a
    following fetch of the swing also answers 500, not "Not found". *)
Theorem delete_fails_without_comments_table (w : world) (swingId : string) :
  map fst (db_tables (w_db w)) = schema_tables ->
  existsb (fun r => sql_eqb (lookup_cell "id" r) (SText swingId)) (rows_of (w_db w) "swings") = true ->
  delete_handler swingId w =
    (inr (error_response (SQLiteError "no such table: comments")), w) /\
  get_swing_handler swingId w =
    (inr (mkResponse 500 [("error", JStr "no such table: comments")]), w).
Proof.
  destruct w as [d fs n uu]; simpl. intros Hts Hex.
  destruct (find_table_schema "swings" _ swings_table Hts eq_refl) as [rs Hs].
  destruct (find_table_schema "swing_metrics" _ swing_metrics_table Hts eq_refl) as [rm Hm].
  destruct (find_table_schema "lessons" _ lessons_table Hts eq_refl) as [rl Hl].
  destruct (find_table_schema "launch_monitor_data" _ launch_monitor_data_table Hts eq_refl) as [rd Hd].
  pose proof (find_table_schema_none "comments" _ Hts eq_refl) as Hc.
  unfold rows_of in Hex. rewrite Hs in Hex.
  apply existsb_filter_nonempty in Hex.
  destruct (filter (fun r => sql_eqb (lookup_cell "id" r) (SText swingId)) rs) as [|r rest] eqn:F;
    [congruence|].
  split.
  - unfold delete_handler, try_catch, mbind, db_prepare, db_run.
    repeat (db_step || rewrite F). reflexivity.
  - unfold get_swing_handler, try_catch, mbind, db_prepare, db_run.
    repeat (db_step || rewrite F). reflexivity.
Qed.

Lemma delete_fails_without_comments_table_witness :
  delete_handler "uuid-1" demo_uploaded =
    (inr (error_response (SQLiteError "no such table: comments")), demo_uploaded) /\
  get_swing_handler "uuid-1" demo_uploaded =
    (inr (mkResponse 500 [("error", JStr "no such table: comments")]), demo_uploaded).
Proof.
  apply delete_fails_without_comments_table; vm_compute; reflexivity.
Defined.

(** ** Launch-monitor readings (C10) *)

(** C10 (counterexample): on the fresh database, which has no swing at
    all, a first reading attached to the id "uuid-1" is stored, but a
    second successful extraction for the same id inserts nothing: the
    UNIQUE constraint on [launch_monitor_data.swingId] fails and the
    route answers 500. *)
Lemma launch_monitor_second_attach_fails :
  let w1 := snd (launch_monitor_handler (inr demo_reading) "uuid-1" (Some demo_image) demo_world) in
  rows_of (w_db demo_world) "swings" = [] /\
  List.length (rows_of (w_db w1) "launch_monitor_data") = 1%nat /\
  let r2 := launch_monitor_handler (inr demo_reading) "uuid-1" (Some demo_image) w1 in
  fst r2 = inr (error_response (SQLiteError "UNIQUE constraint failed: launch_monitor_data.swingId")) /\
  rows_of (w_db (snd r2)) "launch_monitor_data" = rows_of (w_db w1) "launch_monitor_data".
Proof. vm_compute. repeat split; reflexivity. Qed.

(** C10 (amended): the route never looks at [swings]. For an id that has
    no reading yet, a successful extraction (an object whose six fields
    are bindable) inserts one [launch_monitor_data] row with that
    [swingId] and answers 200, whatever the [swings] table holds; no
    other table changes and foreign keys stay off ([setupDB] never turns
    them on, see [setupDB_foreign_keys]), so orphaned readings are
    created. For an id that already has a reading, the same extraction
    fails on the UNIQUE constraint on [swingId]: the route answers 500
    with SQLite's message and the database is unchanged. *)
Theorem launch_monitor_attaches_to_any_id (w : world) (swingId : string) (file : uploaded_file)
        (fs : list (string * jsval)) (rs : list row) :
  find_table "launch_monitor_data" (db_tables (w_db w)) = Some (launch_monitor_data_table, rs) ->
  existsb (fun r => sql_eqb (lookup_cell "id" r) (SText (w_uuids w (w_next_uuid w)))) rs = false ->
  forallb (fun k => scalar (field fs k))
    ["ballSpeed"; "clubSpeed"; "smashFactor"; "carry"; "spinRate"; "extractedRawText"] = true ->
  (db_foreign_keys (w_db w) = false ->
   existsb (fun r => sql_eqb (lookup_cell "swingId" r) (SText swingId)) rs = false ->
   exists w' r,
    launch_monitor_handler (inr (JObj fs)) swingId (Some file) w =
      (inr (mkResponse 200 [("message", JStr "Launch monitor data attached.")]), w') /\
    rows_of (w_db w') "launch_monitor_data" = app rs [r] /\
    lookup_cell "swingId" r = SText swingId /\
    db_foreign_keys (w_db w') = false /\
    (forall t, t <> "launch_monitor_data" -> rows_of (w_db w') t = rows_of (w_db w) t)) /\
  (existsb (fun r => sql_eqb (lookup_cell "swingId" r) (SText swingId)) rs = true ->
   exists w',
    launch_monitor_handler (inr (JObj fs)) swingId (Some file) w =
      (inr (error_response (SQLiteError "UNIQUE constraint failed: launch_monitor_data.swingId")), w') /\
    w_db w' = w_db w).
Proof.
  destruct w as [d fls n uu]; cbn [w_db w_uuids w_next_uuid].
  intros Ht Hid Hsc.
  unfold launch_monitor_handler, try_catch.
  change (lift (inr (JObj fs))) with (@ret jsval (JObj fs)). rewrite (@mbind_ret jsval response (JObj fs)). cbv beta.
  change (truthy (JObj fs)) with true. cbv iota.
  rewrite !prop_obj. unfold mbind, db_prepare, uuidv4, ret. cbv beta iota zeta.
  cbn [w_db w_files w_next_uuid w_uuids].
  rewrite (prepare_ok d insertLM _ _ Ht) by reflexivity. cbv beta iota zeta.
  cbn [w_db w_files w_next_uuid w_uuids].
  simpl in Hsc.
  rewrite (db_run_args_scalars insertLM _ [JStr (uu n); JStr swingId; JStr ("/uploads/" ++ file_filename file);
     field fs "ballSpeed"; field fs "clubSpeed"; field fs "smashFactor"; field fs "carry"; field fs "spinRate";
     field fs "extractedRawText"]) by (reflexivity || (simpl; rewrite ?Bool.andb_true_r in Hsc |- *; exact Hsc)).
  unfold db_run. cbv beta iota zeta. cbn [w_db w_files w_next_uuid w_uuids].
  unfold insertLM. split.
  - intros Hfk Hsw.
    rewrite (run_insert _ _ _ _ _ _ Ht); [|reflexivity|reflexivity|].
    2: { unfold constraint_error. rewrite Hfk. simpl.
          change (bind_scalar (JStr (uu n))) with (SText (uu n)).
          change (bind_scalar (JStr swingId)) with (SText swingId).
          rewrite Hid, Hsw. reflexivity. }
    cbv beta iota zeta. do 2 eexists. split; [reflexivity|].
    cbn [w_db]. split; [apply (rows_of_with_rows_same _ _ _ _ _ Ht)|].
    split; [reflexivity|]. split; [exact Hfk|].
    intros t Hne. apply rows_of_with_rows_other. congruence.
  - intros Hsw.
    rewrite (run_insert_fails _ _ _ _ _ _ (SQLiteError "UNIQUE constraint failed: launch_monitor_data.swingId") Ht);
      [|reflexivity|reflexivity|].
    2: { unfold constraint_error. simpl.
          change (bind_scalar (JStr (uu n))) with (SText (uu n)).
          change (bind_scalar (JStr swingId)) with (SText swingId).
          rewrite Hid, Hsw. reflexivity. }
    eexists. split; reflexivity.
Qed.

Lemma launch_monitor_attaches_to_any_id_witness :
  (exists w' r,
    launch_monitor_handler (inr demo_reading) "no-such-swing" (Some demo_image) demo_world =
      (inr (mkResponse 200 [("message", JStr "Launch monitor data attached.")]), w') /\
    rows_of (w_db w') "launch_monitor_data" = app [] [r] /\
    lookup_cell "swingId" r = SText "no-such-swing" /\
    db_foreign_keys (w_db w') = false /\
    (forall t, t <> "launch_monitor_data" -> rows_of (w_db w') t = rows_of (w_db demo_world) t)) /\
  (let w1 := snd (launch_monitor_handler (inr demo_reading) "no-such-swing" (Some demo_image) demo_world) in
   exists w',
    launch_monitor_handler (inr demo_reading) "no-such-swing" (Some demo_image) w1 =
      (inr (error_response (SQLiteError "UNIQUE constraint failed: launch_monitor_data.swingId")), w') /\
    w_db w' = w_db w1).
Proof.
  split.
  - apply (proj1 (launch_monitor_attaches_to_any_id demo_world "no-such-swing" demo_image
           [("ballSpeed", JNum (inject_Z 150)); ("clubSpeed", JNum (inject_Z 102)); ("smashFactor", JNum (147 # 100));
            ("carry", JNum (inject_Z 245)); ("spinRate", JNum (inject_Z 2600)); ("extractedRawText", JStr "150 mph")] []
           ltac:(vm_compute; reflexivity) ltac:(vm_compute; reflexivity) ltac:(vm_compute; reflexivity)));
      vm_compute; reflexivity.
  - cbv zeta.
    apply (proj2 (launch_monitor_attaches_to_any_id
             (snd (launch_monitor_handler (inr demo_reading) "no-such-swing" (Some demo_image) demo_world))
             "no-such-swing" demo_image
             [("ballSpeed", JNum (inject_Z 150)); ("clubSpeed", JNum (inject_Z 102)); ("smashFactor", JNum (147 # 100));
              ("carry", JNum (inject_Z 245)); ("spinRate", JNum (inject_Z 2600)); ("extractedRawText", JStr "150 mph")]
             (rows_of (w_db (snd (launch_monitor_handler (inr demo_reading) "no-such-swing" (Some demo_image)
                                    demo_world))) "launch_monitor_data")
             ltac:(vm_compute; reflexivity) ltac:(vm_compute; reflexivity) ltac:(vm_compute; reflexivity)));
      vm_compute; reflexivity.
Defined.

(** ** The pose extractor (C7) *)

(** C7 (counterexample): a run that exits with code 0 and prints a JSON
    object without an [error] field still fails when the object has no
    [timestampsMs]: reading [result.timestampsMs.address] for the log line
    throws, and the [catch] turns it into the parse-failure error. The
    same happens when [timestampsMs.address] is an object with its own
    [toString] property, whose string conversion for the log line throws. *)
Lemma pose_empty_object_fails :
  JSON_parse "{}" = Some (JObj []) /\
  analyzePose JSON_parse "python3" (Closed (Some 0%Z) "{}" "") = inl (PoseParseFailed "{}") /\
  analyzePose JSON_parse "python3" (Closed (Some 0%Z) pose_tostring_stdout "") =
    inl (PoseParseFailed pose_tostring_stdout).
Proof. repeat split; vm_compute; reflexivity. Qed.

(** C7 (amended): how [analyzePose] settles, for any [JSON.parse].
    A spawn failure gives the distinct spawn error (which carries the
    setup hint). A close with a code other than 0 (or [null]) gives the
    exit-failure error with at most 500 characters of stderr. A close with
    code 0 succeeds exactly when trimmed stdout parses, its [error] field
    is falsy, its [timestampsMs] is neither [undefined] nor [null] and the
    string conversions of [timestampsMs.address], [.top] and [.impact] for
    the log line do not throw. A truthy [error] whose string conversion
    does not throw gives the embedded-error error with the whole field.
    Every other exit-0 case gives the parse-failure error with at most
    200 characters of stdout. *)
Theorem analyzePose_outcomes (parse : string -> option jsval) (PYTHON_BIN : string) (o : proc_outcome) :
  match o with
  | SpawnError m => analyzePose parse PYTHON_BIN o = inl (PoseSpawnFailed PYTHON_BIN m)
  | Closed (Some Z0) out err =>
      (exists res ev ts,
          parse (js_trim out) = Some res /\ get_prop res "error" = inr ev /\ truthy ev = false /\
          get_prop res "timestampsMs" = inr ts /\ nullish ts = false /\
          existsb (fun k => tostring_throws (prop_value ts k)) ["address"; "top"; "impact"] = false /\
          analyzePose parse PYTHON_BIN o = inr res) \/
      (exists res ev,
          parse (js_trim out) = Some res /\ get_prop res "error" = inr ev /\ truthy ev = true /\
          tostring_throws ev = false /\
          analyzePose parse PYTHON_BIN o = inl (PoseEmbeddedError ev)) \/
      (analyzePose parse PYTHON_BIN o = inl (PoseParseFailed (slice0 200 out)) /\
       (String.length (slice0 200 out) <= 200)%nat /\
       (parse (js_trim out) = None \/
        exists res, parse (js_trim out) = Some res /\
          (nullish res = true \/
           exists ev, get_prop res "error" = inr ev /\
             ((truthy ev = true /\ tostring_throws ev = true) \/
              (truthy ev = false /\
               exists ts, get_prop res "timestampsMs" = inr ts /\
                 (nullish ts = true \/
                  (nullish ts = false /\
                   existsb (fun k => tostring_throws (prop_value ts k)) ["address"; "top"; "impact"]
                     = true)))))))
  | Closed code out err =>
      analyzePose parse PYTHON_BIN o = inl (PoseExitFailed code (slice0 500 err)) /\
      (String.length (slice0 500 err) <= 500)%nat
  end.
Proof.
  destruct o as [m|code out err]; [reflexivity|].
  destruct code as [[|c|c]|];
    try (split; [reflexivity|apply slice0_length]).
  unfold analyzePose, pose_close_ok.
  destruct (parse (js_trim out)) as [res|] eqn:Hp.
  2: { right; right. split; [reflexivity|]. split; [apply slice0_length|]. left; reflexivity. }
  destruct (nullish res) eqn:Hn.
  { destruct (get_prop_nullish res "error" Hn) as [e He]. rewrite He.
    right; right. split; [reflexivity|]. split; [apply slice0_length|]. right. exists res. split; [reflexivity|left; exact Hn]. }
  destruct (get_prop_not_nullish res "error" Hn) as [ev He]. rewrite He.
  destruct (truthy ev) eqn:Ht.
  { destruct (tostring_throws ev) eqn:Hs.
    - right; right. split; [reflexivity|]. split; [apply slice0_length|]. right.
      exists res. split; [reflexivity|]. right. exists ev. split; [exact He|]. left. split; assumption.
    - right; left. exists res, ev. repeat split; assumption. }
  destruct (get_prop_not_nullish res "timestampsMs" Hn) as [ts Hts]. rewrite Hts.
  destruct (nullish ts) eqn:Htn.
  - destruct (get_prop_nullish ts "address" Htn) as [e1 E1]. rewrite E1.
    right; right. split; [reflexivity|]. split; [apply slice0_length|]. right.
    exists res. split; [reflexivity|]. right. exists ev. split; [exact He|]. right. split; [exact Ht|].
    exists ts. split; [exact Hts|]. left. exact Htn.
  - destruct (get_prop_not_nullish ts "address" Htn) as [x1 E1].
    destruct (get_prop_not_nullish ts "top" Htn) as [x2 E2].
    destruct (get_prop_not_nullish ts "impact" Htn) as [x3 E3].
    assert (Hx : existsb (fun k => tostring_throws (prop_value ts k)) ["address"; "top"; "impact"] =
                 tostring_throws x1 || tostring_throws x2 || tostring_throws x3).
    { simpl. unfold prop_value. rewrite E1, E2, E3. rewrite Bool.orb_false_r, Bool.orb_assoc. reflexivity. }
    rewrite E1, E2, E3. destruct (tostring_throws x1 || tostring_throws x2 || tostring_throws x3) eqn:Hb.
    + right; right. split; [reflexivity|]. split; [apply slice0_length|]. right.
      exists res. split; [reflexivity|]. right. exists ev. split; [exact He|]. right. split; [exact Ht|].
      exists ts. split; [exact Hts|]. right. split; [exact Htn|]. exact Hx.
    + left. exists res, ev, ts. repeat split; try assumption.
Qed.

(** ** Persisting an analysis (C1) *)

(** C1 (counterexample): an analysis with two of the four checkpoint
    timestamps and none of the four angle sets is stored as it is: the
    upload answers 200 and its swing_metrics row holds NULL for the
    missing checkpoints and angle sets. *)
Lemma upload_stores_partial_metrics :
  let res := upload_handler demo_media (gemini_ok demo_partial_analysis) JNull demo_request demo_world in
  fst res = inr (mkResponse 200 [("message", JStr "Upload queued and analyzed"); ("swingId", JStr "uuid-1")]) /\
  map (fun r => map (fun c => lookup_cell c r) (app metrics_timestamp_cols angle_keys))
      (rows_of (w_db (snd res)) "swing_metrics") =
    [[SNum 0; SNull; SNum (inject_Z 1100); SNull; SNull; SNull; SNull; SNull]].
Proof. vm_compute. split; reflexivity. Qed.

(** C1 (amended): the route stores what the analysis holds, with no
    completeness check, whatever value [aiData] is. When
    [aiData.timestampsMs] is [undefined] or [null], reading a checkpoint
    throws a TypeError before the insert and the database is unchanged.
    Otherwise, when the read values bind, a swing_metrics row for the
    swing is inserted whose checkpoint cells are the values read from
    [aiData.timestampsMs] ([undefined] or [null] as NULL, so a number, a
    string or an array there gives NULL cells) and whose angle-set cells
    are [JSON.stringify] of the values read from [aiData] ([undefined] as
    NULL); the row stays whatever the later steps (lessons,
    [analyzed = 1]) do. *)
Theorem store_analysis_stores_fields_as_given (w : world) (swingId : string)
        (aiData roadmaps : jsval) (rs : list row) :
  db_foreign_keys (w_db w) = false ->
  find_table "swing_metrics" (db_tables (w_db w)) = Some (swing_metrics_table, rs) ->
  (nullish (prop_value aiData "timestampsMs") = true ->
   exists msg, fst (store_analysis swingId aiData roadmaps w) = inl (TypeError msg) /\
     w_db (snd (store_analysis swingId aiData roadmaps w)) = w_db w) /\
  (nullish (prop_value aiData "timestampsMs") = false ->
   existsb (fun r => sql_eqb (lookup_cell "id" r) (SText (w_uuids w (w_next_uuid w)))) rs = false ->
   existsb (fun r => sql_eqb (lookup_cell "swingId" r) (SText swingId)) rs = false ->
   forallb (fun k => scalar (prop_value (prop_value aiData "timestampsMs") k)) checkpoint_keys = true ->
   forallb (fun k => scalar (prop_value aiData k))
     ["estimatedClubSpeed"; "estimatedClubPath"; "estimatedDistance"] = true ->
   exists r,
     In r (rows_of (w_db (snd (store_analysis swingId aiData roadmaps w))) "swing_metrics") /\
     lookup_cell "swingId" r = SText swingId /\
     map (fun c => lookup_cell c r) metrics_timestamp_cols =
       map (fun k => bind_scalar (prop_value (prop_value aiData "timestampsMs") k)) checkpoint_keys /\
     map (fun c => lookup_cell c r) angle_keys = map (fun k => json_cell (prop_value aiData k)) angle_keys).
Proof.
  intros Hfk Ht. split.
  - intros Hn. destruct w as [d fl n uu]; cbn [w_db] in *.
    unfold store_analysis, prop2.
    destruct (nullish aiData) eqn:Ha.
    + destruct aiData; try discriminate;
        cbv beta iota zeta delta [mbind ret db_prepare uuidv4 lift throw prop get_prop];
        cbn [w_db]; rewrite (prepare_ok d insertMetrics _ _ Ht) by reflexivity;
        eexists; split; reflexivity.
    + rewrite !(prop_not_nullish aiData) by exact Ha. rewrite mbind_ret.
      set (tv := prop_value aiData "timestampsMs") in *.
      destruct tv; try discriminate;
        cbv beta iota zeta delta [mbind ret db_prepare uuidv4 lift throw prop get_prop];
        cbn [w_db]; rewrite (prepare_ok d insertMetrics _ _ Ht) by reflexivity;
        eexists; split; reflexivity.
  - intros Hn Hid Hsw Hck Hest.
    assert (Ha : nullish aiData = false)
      by (destruct aiData; try reflexivity; discriminate).
    destruct w as [d fl n uu]; cbn [w_db w_uuids w_next_uuid] in *.
    unfold store_analysis, prop2. rewrite !(prop_not_nullish aiData) by exact Ha.
    rewrite !mbind_ret.
    rewrite !(prop_not_nullish (prop_value aiData "timestampsMs")) by exact Hn.
    cbv beta iota zeta delta [mbind ret db_prepare uuidv4].
    cbn [w_db w_files w_next_uuid w_uuids].
    rewrite (prepare_ok d insertMetrics _ _ Ht) by reflexivity. cbv beta iota zeta.
    rewrite db_run_args_ok.
    2: { cbn [forallb]. rewrite !arg_ok_AVal, !arg_ok_json. simpl in Hck, Hest |- *.
         repeat match goal with H : _ && _ = true |- _ => apply andb_prop in H as [? ?] end.
         repeat match goal with H : scalar _ = true |- _ => rewrite H; clear H end. reflexivity. }
    cbn [w_db w_files w_next_uuid w_uuids]. unfold db_run. cbv beta iota zeta.
    cbn [w_db w_files w_next_uuid w_uuids]. unfold insertMetrics.
    rewrite (run_insert _ _ _ _ _ _ Ht); [|reflexivity|reflexivity|].
    2: { unfold constraint_error. rewrite Hfk. simpl.
         change (arg_cell (AVal (JStr (uu n)))) with (SText (uu n)).
         change (arg_cell (AVal (JStr swingId))) with (SText swingId).
         rewrite Hid, Hsw. reflexivity. }
    cbv beta iota zeta. rewrite keeps_finish_analysis. cbn [w_db].
    rewrite (rows_of_with_rows_same _ _ _ _ _ Ht).
    eexists. split; [apply in_or_app; right; left; reflexivity|].
    split; [reflexivity|]. split; [reflexivity|].
    cbn. rewrite !arg_cell_json. reflexivity.
Qed.

Lemma store_analysis_stores_fields_as_given_witness :
  (exists msg,
     fst (store_analysis "uuid-1" (JObj [("timestampsMs", JNull)]) JNull demo_world)
       = inl (TypeError msg) /\
     w_db (snd (store_analysis "uuid-1" (JObj [("timestampsMs", JNull)]) JNull demo_world))
       = w_db demo_world) /\
  (exists r,
     In r (rows_of (w_db (snd (store_analysis "uuid-1" (JObj [("timestampsMs", JNum 5)]) JNull demo_world)))
             "swing_metrics") /\
     lookup_cell "swingId" r = SText "uuid-1" /\
     map (fun c => lookup_cell c r) metrics_timestamp_cols =
       map (fun k => bind_scalar (prop_value (prop_value (JObj [("timestampsMs", JNum 5)]) "timestampsMs") k))
           checkpoint_keys /\
     map (fun c => lookup_cell c r) angle_keys =
       map (fun k => json_cell (prop_value (JObj [("timestampsMs", JNum 5)]) k)) angle_keys).
Proof.
  split.
  - apply (proj1 (store_analysis_stores_fields_as_given demo_world "uuid-1"
                    (JObj [("timestampsMs", JNull)]) JNull []
                    ltac:(vm_compute; reflexivity) ltac:(vm_compute; reflexivity))).
    vm_compute. reflexivity.
  - apply (proj2 (store_analysis_stores_fields_as_given demo_world "uuid-1"
                    (JObj [("timestampsMs", JNum 5)]) JNull []
                    ltac:(vm_compute; reflexivity) ltac:(vm_compute; reflexivity)));
      vm_compute; reflexivity.
Defined.

(** ** Analysis failure during an upload (C2) *)

(** C2 (counterexample): when the remote analysis of the demo upload
    fails, the route answers 500 with the error and no swing id; the swing
    row inserted before the analysis stays, with [analyzed = 0]. *)
Lemma upload_answers_500_when_analysis_fails :
  let res := upload_handler demo_media (gemini_failing (Error "quota exceeded")) JNull demo_request demo_world in
  fst res = inr (mkResponse 500 [("error", JStr "quota exceeded")]) /\
  map (fun r => (lookup_cell "id" r, lookup_cell "analyzed" r)) (rows_of (w_db (snd res)) "swings") =
    [(SText "uuid-1", SNum 0)].
Proof. vm_compute. split; reflexivity. Qed.

(** C2 (amended): for an upload with a video and a non-empty club, if the
    analysis stage fails with [e], the error reaches the route's [catch]:
    the response is 500 with [e]'s message and no swing id, and the swing
    row inserted before the analysis stays, with [analyzed = 0]. *)
Theorem upload_analysis_failure_answers_500 me ge roadmaps req file club w rs e :
  up_file req = Some file -> up_club req = Some club -> club <> "" ->
  db_foreign_keys (w_db w) = false ->
  find_table "swings" (db_tables (w_db w)) = Some (swings_table, rs) ->
  (forall n, existsb (fun r => sql_eqb (lookup_cell "id" r) (SText (w_uuids w n))) rs = false) ->
  (forall p w', analyzeSwingVideo ge p w' = (inl e, w')) ->
  exists w1 r sid,
    upload_handler me ge roadmaps req w = (inr (mkResponse 500 [("error", JStr (exn_message e))]), w1) /\
    rows_of (w_db w1) "swings" = app rs [r] /\
    lookup_cell "id" r = SText sid /\ lookup_cell "analyzed" r = SNum 0.
Proof.
  intros Hf Hc Hne Hfk Hs Hid Ha.
  exact (upload_analysis_fails me ge roadmaps req file club w rs e Hf Hc Hne Hfk Hs Hid Ha).
Qed.

Lemma upload_analysis_failure_answers_500_witness :
  exists w1 r sid,
    upload_handler demo_media (gemini_failing (Error "quota exceeded")) JNull demo_request demo_world =
      (inr (mkResponse 500 [("error", JStr (exn_message (Error "quota exceeded")))]), w1) /\
    rows_of (w_db w1) "swings" = app [] [r] /\
    lookup_cell "id" r = SText sid /\ lookup_cell "analyzed" r = SNum 0.
Proof.
  apply (upload_analysis_failure_answers_500 demo_media (gemini_failing (Error "quota exceeded")) JNull
           demo_request demo_file "Driver" demo_world [] (Error "quota exceeded")).
  - reflexivity.
  - reflexivity.
  - discriminate.
  - vm_compute. reflexivity.
  - vm_compute. reflexivity.
  - intros n. reflexivity.
  - intros p w'. reflexivity.
Defined.

(** ** Waiting for the remote file (C3) *)

(** C3 (counterexample): nothing bounds a single [ai.files.get]. A get
    issued at 0 that takes 200 s to report [PROCESSING] makes the loop
    throw its timeout error only at 203 s, and a get that never settles
    keeps [waitForFileActive] pending forever. *)
Lemma wait_outlasts_deadline :
  waitForFileActive "files/clip" polls_slow 0 =
    Some (Settles (inl (wait_timeout "files/clip")) 203000, [0%N]) /\
  waitForFileActive "files/clip" polls_hanging 0 = Some (Blocks, [0%N]).
Proof. split; vm_compute; reflexivity. Qed.

(** C3 (amended): [waitForFileActive] issues at most 40 [ai.files.get]
    calls, at [poll_time]: each one the previous get's latency plus the
    3000 ms timer (plus its lateness) after the previous one, all before
    the 120 s deadline. Its promise ends with the reply to the last get,
    when that get settles: it resolves on [ACTIVE], rejects with the
    processing-failed error on [FAILED], rejects with the get's own error
    when the get rejects, and stays pending forever when the get never
    settles. Otherwise it rejects with the timeout error at the first
    loop test that finds 120 s passed. In the upload route, when the
    awaited wait settles with a failure [e], the request is answered 500
    with [e]'s message (the server does not crash) and the swing row
    stays with [analyzed = 0]. *)
Theorem waitForFileActive_contract (fileName : string) (polls : nat -> poll) (start : N) :
  (exists n e,
    waitForFileActive fileName polls start = Some (e, map (poll_time polls start) (seq 0 n)) /\
    (n <= 40)%nat /\
    (forall i, (i < n)%nat -> (poll_time polls start i - start < MAX_WAIT_MS)%N) /\
    (forall i, (S i < n)%nat -> continues (get_result (polls i)) = true) /\
    wait_outcome fileName polls start 0 n e) /\
  (forall me ge roadmaps req file club w rs e,
    Some (g_wait ge) = wait_settled (waitForFileActive fileName polls start) ->
    wait_settled (waitForFileActive fileName polls start) = Some (inl e) ->
    g_dummy_key ge = false -> (forall p, g_upload ge p = inr tt) ->
    up_file req = Some file -> up_club req = Some club -> club <> "" ->
    db_foreign_keys (w_db w) = false ->
    find_table "swings" (db_tables (w_db w)) = Some (swings_table, rs) ->
    (forall n, existsb (fun r => sql_eqb (lookup_cell "id" r) (SText (w_uuids w n))) rs = false) ->
    exists w1 r sid,
      upload_handler me ge roadmaps req w = (inr (error_response e), w1) /\
      rows_of (w_db w1) "swings" = app rs [r] /\
      lookup_cell "id" r = SText sid /\ lookup_cell "analyzed" r = SNum 0).
Proof.
  split; [apply waitForFileActive_spec|].
  intros me ge roadmaps req file club w rs e Hg He Hk Hu Hf Hc Hne Hfk Hs Hid.
  assert (Hw : g_wait ge = inl e) by congruence.
  apply (upload_analysis_fails me ge roadmaps req file club w rs _ Hf Hc Hne Hfk Hs Hid).
  intros p w'. apply analyzeSwingVideo_wait_fails; [exact Hk|apply Hu|exact Hw].
Qed.

Lemma waitForFileActive_contract_witness :
  exists w1 r sid,
    upload_handler demo_media (gemini_with_wait (inl (wait_timeout "files/clip"))) JNull demo_request demo_world =
      (inr (error_response (wait_timeout "files/clip")), w1) /\
    rows_of (w_db w1) "swings" = app [] [r] /\
    lookup_cell "id" r = SText sid /\ lookup_cell "analyzed" r = SNum 0.
Proof.
  apply (proj2 (waitForFileActive_contract "files/clip" polls_processing 0)
           demo_media (gemini_with_wait (inl (wait_timeout "files/clip"))) JNull demo_request demo_file
           "Driver" demo_world [] (wait_timeout "files/clip")).
  - vm_compute. reflexivity.
  - vm_compute. reflexivity.
  - reflexivity.
  - intros p. reflexivity.
  - reflexivity.
  - reflexivity.
  - discriminate.
  - vm_compute. reflexivity.
  - vm_compute. reflexivity.
  - intros n. reflexivity.
Defined.

(** ** Transcoding failure (C4) *)

(** C4: the transcoding stage never fails. If [compressVideo] throws, the
    route keeps multer's file as the working file and its URL, and the
    upload directory is unchanged (the original stays). If it succeeds,
    the working file is the fresh [compressed-<uuid><ext>] path next to
    the original, with its URL; the original, which existed, is deleted,
    and the new file exists (when its path differs from the original's).
    The database is untouched either way. *)
Theorem transcode_stage_falls_back_or_replaces (me : media_env) (file : uploaded_file) (w : world) :
  let fp := file_path file in
  ((exists e, compressVideo me fp w = (inl e, mkWorld (w_db w) (w_files w) (S (w_next_uuid w)) (w_uuids w))) /\
   transcode_stage me file w =
     (inr (fp, "/uploads/" ++ file_filename file), mkWorld (w_db w) (w_files w) (S (w_next_uuid w)) (w_uuids w))) \/
  (exists w1,
     compressVideo me fp w = (inr (compressed_path w fp), w1) /\
     transcode_stage me file w = (inr (compressed_path w fp, "/uploads/" ++ path_basename (compressed_path w fp)), w1) /\
     w_db w1 = w_db w /\
     file_lookup fp (w_files w) <> None /\
     file_lookup fp (w_files w1) = None /\
     (compressed_path w fp <> fp -> file_lookup (compressed_path w fp) (w_files w1) <> None)).
Proof.
  intros fp. unfold transcode_stage, try_catch.
  destruct (compressVideo_cases me fp w) as [[e He]|[n [Hex He]]].
  - left. split; [exists e; exact He|]. rewrite (mbind_fail _ _ _ _ _ He). reflexivity.
  - right. eexists. split; [exact He|]. rewrite (mbind_run _ _ _ _ _ He).
    split; [reflexivity|]. split; [reflexivity|]. split; [exact Hex|].
    cbn [w_files]. split; [apply file_lookup_remove_same|].
    intros Hne. rewrite file_lookup_remove_other by congruence. simpl.
    rewrite String.eqb_refl. discriminate.
Qed.

(** * Further properties of the code *)

(** X1: setupDB is idempotent: running it on a database it already set up changes nothing. *)
Lemma setupDB_idem d : setupDB (setupDB d) = setupDB d.
Proof.
  unfold setupDB at 2 3.
  set (d1 := initSchema d).
  assert (Hc : forall tb, In tb schema_tables -> find_table (tbl_name tb) (db_tables d1) <> None)
    by (intros; apply initSchema_complete; assumption).
  destruct (rows_of d1 "players") as [|p ps] eqn:Hp.
  - destruct (run_stmt d1 _ _) as [e|[rs d2]] eqn:Hr.
    + unfold setupDB. fold d1. rewrite (initSchema_noop d1 Hc), Hp, Hr. reflexivity.
    + destruct (run_insert_shape _ _ _ _ _ _ Hr) as [r [-> Hf]].
      unfold setupDB. rewrite initSchema_noop.
      2: { intros tb Hin. unfold with_rows. simpl. apply set_rows_found, Hc, Hin. }
      destruct (find_table "players" (db_tables d1)) as [[tb old]|] eqn:Ef; [|congruence].
      rewrite (rows_of_with_rows_same _ _ _ _ _ Ef), Hp. reflexivity.
  - unfold setupDB. fold d1. rewrite (initSchema_noop d1 Hc), Hp. reflexivity.
Qed.

(** X2: When the players table is missing or empty, setupDB leaves exactly one player, the guest row usr_12345 / Guest Golfer / handicap 15. *)
Lemma setupDB_seeds_guest d :
  find_table "players" (db_tables d) = None \/ find_table "players" (db_tables d) = Some (players_table, []) ->
  rows_of (setupDB d) "players" = [guest_row].
Proof.
  intros H.
  assert (Hf : find_table "players" (db_tables (initSchema d)) = Some (players_table, [])).
  { destruct H as [H|H]; [|exact (fold_create_keeps_found _ _ _ _ H)].
    change (initSchema d) with (fold_left create_if_not_exists (tl schema_tables) (create_if_not_exists d players_table)).
    apply fold_create_keeps_found. unfold create_if_not_exists. simpl. rewrite H. simpl.
    rewrite find_table_app_last, H. reflexivity. }
  unfold setupDB. unfold rows_of at 2. rewrite Hf.
  rewrite (run_insert _ _ _ _ _ _ Hf);
    [| reflexivity | reflexivity | unfold constraint_error; simpl; destruct (db_foreign_keys _); reflexivity].
  apply (rows_of_with_rows_same _ _ _ _ _ Hf).
Qed.

Lemma setupDB_seeds_guest_witness : rows_of (setupDB fresh_db) "players" = [guest_row].
Proof. apply (setupDB_seeds_guest fresh_db). left. reflexivity. Defined.

(** X3: setupDB never touches the rows of a table other than players, and leaves a non-empty players table as it is. *)
Theorem setupDB_keeps_rows (d : db) :
  (forall t, t <> "players" -> rows_of (setupDB d) t = rows_of d t) /\
  (rows_of d "players" <> [] -> rows_of (setupDB d) "players" = rows_of d "players").
Proof.
  split.
  - intros t Ht. unfold setupDB. rewrite <- (initSchema_rows d t).
    destruct (rows_of (initSchema d) "players"); [|reflexivity].
    destruct (run_stmt _ _ _) as [e|[rs d2]] eqn:Hr; [reflexivity|].
    eapply run_stmt_rows_other; [exact Hr|]. simpl. intros E; apply Ht; symmetry; exact E.
  - intros Hne. unfold setupDB. rewrite initSchema_rows.
    destruct (rows_of d "players") eqn:E; [contradiction|]. rewrite initSchema_rows. exact E.
Qed.

(** X4: initSchema keeps every row of every table, and afterwards every table of the schema exists. *)
Theorem initSchema_keeps_and_completes (d : db) :
  (forall t, rows_of (initSchema d) t = rows_of d t) /\
  (forall tb, In tb schema_tables -> find_table (tbl_name tb) (db_tables (initSchema d)) <> None).
Proof. split; [apply initSchema_rows | apply initSchema_complete]. Qed.

(** X5: The upload route answers 400 and changes nothing when the file or the club is missing or the club is empty. *)
Lemma upload_rejects_missing_fields me ge roadmaps req w :
  up_file req = None \/ up_club req = None \/ up_club req = Some "" ->
  upload_handler me ge roadmaps req w = (inr missing_fields, w).
Proof.
  intros H. unfold upload_handler, try_catch.
  destruct H as [H|[H|H]]; rewrite H; [|destruct (up_file req)..]; reflexivity.
Qed.

Lemma upload_rejects_missing_fields_witness :
  upload_handler demo_media (gemini_ok demo_analysis) demo_roadmaps
    (mkUploadRequest (Some demo_file) (Some "") None) demo_world =
  (inr missing_fields, demo_world).
Proof. apply upload_rejects_missing_fields. right. right. reflexivity. Defined.

(** X6: Without an API key an upload answers 200 with the new swing id, appends one swings row with analyzed = 0, and changes no other table. *)
Lemma upload_without_api_key me ge roadmaps req file club w rs :
  g_dummy_key ge = true ->
  up_file req = Some file -> up_club req = Some club -> club <> "" ->
  db_foreign_keys (w_db w) = false ->
  find_table "swings" (db_tables (w_db w)) = Some (swings_table, rs) ->
  (forall n, existsb (fun r => sql_eqb (lookup_cell "id" r) (SText (w_uuids w n))) rs = false) ->
  exists w1 r sid,
    upload_handler me ge roadmaps req w =
      (inr (mkResponse 200 [("message", JStr "Upload queued and analyzed"); ("swingId", JStr sid)]), w1) /\
    rows_of (w_db w1) "swings" = app rs [r] /\
    lookup_cell "id" r = SText sid /\ lookup_cell "analyzed" r = SNum 0 /\
    (forall t, t <> "swings" -> rows_of (w_db w1) t = rows_of (w_db w) t).
Proof.
  intros Hk Hf Hc Hne Hfk Hs Hid.
  unfold upload_handler, try_catch. rewrite Hf, Hc.
  rewrite (proj2 (String.eqb_neq club "") Hne).
  set (pid := match up_playerId req with Some p => p | None => "usr_12345" end).
  destruct (accept_upload_inserts me file club pid w rs Hfk Hs Hid)
    as [abs [sid [w1 [r [Hacc [Hrows [Hi Han]]]]]]].
  rewrite (mbind_run _ _ _ _ _ Hacc). cbn [fst snd].
  unfold analyze_stage, analyzeSwingVideo. rewrite Hk.
  exists w1, r, sid. split; [reflexivity|]. split; [exact Hrows|]. split; [exact Hi|].
  split; [exact Han|]. intros t Ht.
  pose proof (keeps_accept_upload t me file club pid Ht w) as K. rewrite Hacc in K. exact K.
Qed.

Lemma upload_without_api_key_witness :
  exists w1 r sid,
    upload_handler demo_media (mkGeminiEnv true (fun _ => inr tt) (inr tt) (inr tt) (inr JNull))
      JNull demo_request demo_world =
      (inr (mkResponse 200 [("message", JStr "Upload queued and analyzed"); ("swingId", JStr sid)]), w1) /\
    rows_of (w_db w1) "swings" = app [] [r] /\
    lookup_cell "id" r = SText sid /\ lookup_cell "analyzed" r = SNum 0 /\
    (forall t, t <> "swings" -> rows_of (w_db w1) t = rows_of (w_db demo_world) t).
Proof.
  apply (upload_without_api_key demo_media (mkGeminiEnv true (fun _ => inr tt) (inr tt) (inr tt) (inr JNull))
           JNull demo_request demo_file "Driver" demo_world []);
    try reflexivity; try discriminate; intros; reflexivity.
Defined.

(** X7: A successful analysis with a falsy roadmap answers 200, appends one swings row marked analyzed = 1 and one swing_metrics row pointing to it. *)
Lemma upload_analyzed me ge roadmaps req file club w rs ms fs ts :
  g_dummy_key ge = false -> (forall p, g_upload ge p = inr tt) ->
  g_wait ge = inr tt -> g_generate ge = inr tt -> g_parsed ge = inr (JObj fs) ->
  truthy roadmaps = false ->
  up_file req = Some file -> up_club req = Some club -> club <> "" ->
  db_foreign_keys (w_db w) = false ->
  find_table "swings" (db_tables (w_db w)) = Some (swings_table, rs) ->
  find_table "swing_metrics" (db_tables (w_db w)) = Some (swing_metrics_table, ms) ->
  (forall n, existsb (fun r => sql_eqb (lookup_cell "id" r) (SText (w_uuids w n))) rs = false) ->
  (forall n, existsb (fun r => sql_eqb (lookup_cell "id" r) (SText (w_uuids w n))) ms = false) ->
  (forall n, existsb (fun r => sql_eqb (lookup_cell "swingId" r) (SText (w_uuids w n))) ms = false) ->
  field fs "timestampsMs" = JObj ts ->
  forallb (fun k => scalar (field ts k)) checkpoint_keys = true ->
  forallb (fun k => scalar (field fs k)) ["estimatedClubSpeed"; "estimatedClubPath"; "estimatedDistance"] = true ->
  exists w1 sid r m,
    upload_handler me ge roadmaps req w =
      (inr (mkResponse 200 [("message", JStr "Upload queued and analyzed"); ("swingId", JStr sid)]), w1) /\
    rows_of (w_db w1) "swings" = app rs [r] /\
    lookup_cell "id" r = SText sid /\ lookup_cell "analyzed" r = SNum 1 /\
    rows_of (w_db w1) "swing_metrics" = app ms [m] /\ lookup_cell "swingId" m = SText sid.
Proof.
  intros Hk Hu Hw Hg Hp Hr Hf Hc Hne Hfk Hs Hm Hid Hmid Hmsw Hts Hck Hest.
  unfold upload_handler, try_catch. rewrite Hf, Hc.
  rewrite (proj2 (String.eqb_neq club "") Hne).
  set (pid := match up_playerId req with Some p => p | None => "usr_12345" end).
  destruct (accept_upload_db me file club pid w rs Hfk Hs Hid)
    as [abs [k [url [w1 [Hacc [Hd1 Hu1]]]]]].
  rewrite (mbind_run _ _ _ _ _ Hacc). cbn [fst snd].
  unfold analyze_stage.
  assert (Ha : analyzeSwingVideo ge abs w1 = (inr (JObj fs), w1)).
  { unfold analyzeSwingVideo. rewrite Hk. unfold try_catch, mbind, lift. rewrite Hu, Hw, Hg, Hp. reflexivity. }
  rewrite (mbind_run _ _ _ _ _ Ha). change (truthy (JObj fs)) with true. cbv iota.
  destruct w1 as [d1 f1 n1 u1]; cbn [w_db w_uuids] in Hd1, Hu1. subst d1 u1.
  assert (Hm1 : find_table "swing_metrics" (db_tables (with_rows (w_db w) "swings"
                  (app rs [swing_row (w_uuids w k) pid club url]))) = Some (swing_metrics_table, ms)).
  { unfold with_rows. simpl. rewrite find_table_set_rows_other by discriminate. exact Hm. }
  destruct (store_analysis_inserts (mkWorld (with_rows (w_db w) "swings" (app rs [swing_row (w_uuids w k) pid club url])) f1 n1 (w_uuids w))
              (w_uuids w k) fs ts roadmaps ms Hfk Hm1 (Hmid n1) (Hmsw k) Hts Hck Hest) as [m [Hmsid Hst]].
  erewrite (finish_analysis_no_lessons _ _ _ (app rs [swing_row (w_uuids w k) pid club url]) Hr) in Hst.
  2: { cbn [w_db]. unfold with_rows. simpl db_tables.
       rewrite find_table_set_rows_other by discriminate. rewrite find_table_set_rows_same, Hs. reflexivity. }
  rewrite (mbind_run _ _ _ tt _ Hst).
  eexists. exists (w_uuids w k), (update_cell "analyzed" (SNum 1) (swing_row (w_uuids w k) pid club url)), m.
  split; [reflexivity|].
  cbn [w_db].
  split.
  { unfold with_rows at 1. unfold rows_of. simpl db_tables.
    rewrite find_table_set_rows_same.
    unfold rows_of, with_rows. simpl db_tables.
    rewrite find_table_set_rows_other by discriminate.
    rewrite find_table_set_rows_same, Hs.
    rewrite map_app, map_update_fresh by apply Hid. simpl.
    destruct (String.eqb_spec (w_uuids w k) (w_uuids w k)) as [_|C]; [reflexivity|contradiction]. }
  split; [simpl; reflexivity|]. split; [simpl; reflexivity|].
  split; [|exact Hmsid].
  rewrite rows_of_with_rows_other by discriminate.
  apply (rows_of_with_rows_same _ _ _ _ _ Hm1).
Qed.

Lemma upload_analyzed_witness :
  exists w1 sid r m,
    upload_handler demo_media (gemini_ok demo_analysis) JNull demo_request demo_world =
      (inr (mkResponse 200 [("message", JStr "Upload queued and analyzed"); ("swingId", JStr sid)]), w1) /\
    rows_of (w_db w1) "swings" = app [] [r] /\
    lookup_cell "id" r = SText sid /\ lookup_cell "analyzed" r = SNum 1 /\
    rows_of (w_db w1) "swing_metrics" = app [] [m] /\ lookup_cell "swingId" m = SText sid.
Proof.
  eapply (upload_analyzed demo_media (gemini_ok demo_analysis) JNull demo_request demo_file "Driver"
            demo_world [] []);
    try reflexivity; try discriminate; intros; reflexivity.
Defined.

(** X8: A successful analysis with a non-empty array of valid roadmaps appends one lessons row per roadmap, each pointing to the new swing, besides the swing (analyzed = 1) and metrics rows, and answers 200. *)
Lemma upload_with_lessons me ge req file club w rs ms ls fs ts rms :
  g_dummy_key ge = false -> (forall p, g_upload ge p = inr tt) ->
  g_wait ge = inr tt -> g_generate ge = inr tt -> g_parsed ge = inr (JObj fs) ->
  rms <> [] -> forallb lesson_ok rms = true ->
  up_file req = Some file -> up_club req = Some club -> club <> "" ->
  db_foreign_keys (w_db w) = false ->
  find_table "swings" (db_tables (w_db w)) = Some (swings_table, rs) ->
  find_table "swing_metrics" (db_tables (w_db w)) = Some (swing_metrics_table, ms) ->
  find_table "lessons" (db_tables (w_db w)) = Some (lessons_table, ls) ->
  (forall i j, w_uuids w i = w_uuids w j -> i = j) ->
  (forall n, existsb (fun r => sql_eqb (lookup_cell "id" r) (SText (w_uuids w n))) rs = false) ->
  (forall n, existsb (fun r => sql_eqb (lookup_cell "id" r) (SText (w_uuids w n))) ms = false) ->
  (forall n, existsb (fun r => sql_eqb (lookup_cell "swingId" r) (SText (w_uuids w n))) ms = false) ->
  (forall n, existsb (fun r => sql_eqb (lookup_cell "id" r) (SText (w_uuids w n))) ls = false) ->
  field fs "timestampsMs" = JObj ts ->
  forallb (fun k => scalar (field ts k)) checkpoint_keys = true ->
  forallb (fun k => scalar (field fs k)) ["estimatedClubSpeed"; "estimatedClubPath"; "estimatedDistance"] = true ->
  exists w1 sid r m new,
    upload_handler me ge (JArr rms) req w =
      (inr (mkResponse 200 [("message", JStr "Upload queued and analyzed"); ("swingId", JStr sid)]), w1) /\
    rows_of (w_db w1) "swings" = app rs [r] /\
    lookup_cell "id" r = SText sid /\ lookup_cell "analyzed" r = SNum 1 /\
    rows_of (w_db w1) "swing_metrics" = app ms [m] /\ lookup_cell "swingId" m = SText sid /\
    rows_of (w_db w1) "lessons" = app ls new /\ length new = length rms /\
    Forall (fun l => lookup_cell "swingId" l = SText sid) new.
Proof.
  intros Hk Hu Hw Hg Hp Hne Hok Hf Hc Hcl Hfk Hs Hm Hl Hinj Hid Hmid Hmsw Hlid Hts Hck Hest.
  unfold upload_handler, try_catch. rewrite Hf, Hc.
  rewrite (proj2 (String.eqb_neq club "") Hcl).
  set (pid := match up_playerId req with Some p => p | None => "usr_12345" end).
  destruct (accept_upload_db me file club pid w rs Hfk Hs Hid)
    as [abs [k [url [w1 [Hacc [Hd1 Hu1]]]]]].
  rewrite (mbind_run _ _ _ _ _ Hacc). cbn [fst snd].
  unfold analyze_stage.
  assert (Ha : analyzeSwingVideo ge abs w1 = (inr (JObj fs), w1)).
  { unfold analyzeSwingVideo. rewrite Hk. unfold try_catch, mbind, lift. rewrite Hu, Hw, Hg, Hp. reflexivity. }
  rewrite (mbind_run _ _ _ _ _ Ha). change (truthy (JObj fs)) with true. cbv iota.
  destruct w1 as [d1 f1 n1 u1]; cbn [w_db w_uuids] in Hd1, Hu1. subst d1 u1.
  set (srow := swing_row (w_uuids w k) pid club url).
  assert (Hm1 : find_table "swing_metrics" (db_tables (with_rows (w_db w) "swings" (app rs [srow])))
                = Some (swing_metrics_table, ms)).
  { unfold with_rows. simpl. rewrite find_table_set_rows_other by discriminate. exact Hm. }
  destruct (store_analysis_inserts (mkWorld (with_rows (w_db w) "swings" (app rs [srow])) f1 n1 (w_uuids w))
              (w_uuids w k) fs ts (JArr rms) ms Hfk Hm1 (Hmid n1) (Hmsw k) Hts Hck Hest) as [m [Hmsid Hst]].
  cbn [w_db w_files w_next_uuid w_uuids] in Hst.
  set (d2 := with_rows (with_rows (w_db w) "swings" (app rs [srow])) "swing_metrics" (app ms [m])) in Hst.
  assert (Hl2 : find_table "lessons" (db_tables d2) = Some (lessons_table, ls)).
  { unfold d2, with_rows. simpl db_tables. rewrite !find_table_set_rows_other by discriminate. exact Hl. }
  destruct (store_lessons_rows (w_uuids w k) rms (mkWorld d2 f1 (S n1) (w_uuids w)) ls Hne Hfk Hl2 Hok
              (fun i _ => Hlid _) (uuid_range_nodup _ _ _ Hinj)) as [new [Hsl [Hlen Hall]]].
  rewrite (finish_analysis_after_lessons _ _ _ _ Hsl) in Hst.
  cbn [w_db w_files w_next_uuid w_uuids] in Hst.
  assert (Hs3 : find_table "swings" (db_tables (with_rows d2 "lessons" (app ls new))) = Some (swings_table, app rs [srow])).
  { unfold d2, with_rows. simpl db_tables.
    rewrite !find_table_set_rows_other by discriminate. rewrite find_table_set_rows_same, Hs. reflexivity. }
  rewrite (finish_analysis_no_lessons (w_uuids w k) JNull (mkWorld (with_rows d2 "lessons" (app ls new)) f1 (S n1 + length rms) (w_uuids w))
              (app rs [srow]) eq_refl Hs3) in Hst.
  rewrite (mbind_run _ _ _ tt _ Hst).
  eexists. exists (w_uuids w k), (update_cell "analyzed" (SNum 1) srow), m, new.
  split; [reflexivity|].
  cbn [w_db].
  split.
  { rewrite (rows_of_with_rows_same _ _ _ _ _ Hs3).
    rewrite map_app, map_update_fresh by apply Hid. simpl.
    destruct (String.eqb_spec (w_uuids w k) (w_uuids w k)) as [_|C]; [reflexivity|contradiction]. }
  split; [simpl; reflexivity|]. split; [simpl; reflexivity|].
  split.
  { rewrite !rows_of_with_rows_other by discriminate. unfold d2.
    apply (rows_of_with_rows_same _ _ _ _ _ Hm1). }
  split; [exact Hmsid|].
  split.
  { rewrite rows_of_with_rows_other by discriminate. apply (rows_of_with_rows_same _ _ _ _ _ Hl2). }
  split; [exact Hlen|exact Hall].
Qed.

Lemma upload_with_lessons_witness :
  exists w1 sid r m new,
    upload_handler demo_media (gemini_ok demo_analysis) demo_roadmaps demo_request demo_world_tally =
      (inr (mkResponse 200 [("message", JStr "Upload queued and analyzed"); ("swingId", JStr sid)]), w1) /\
    rows_of (w_db w1) "swings" = app [] [r] /\
    lookup_cell "id" r = SText sid /\ lookup_cell "analyzed" r = SNum 1 /\
    rows_of (w_db w1) "swing_metrics" = app [] [m] /\ lookup_cell "swingId" m = SText sid /\
    rows_of (w_db w1) "lessons" = app [] new /\ length new = length
      (match demo_roadmaps with JArr l => l | _ => [] end) /\
    Forall (fun l => lookup_cell "swingId" l = SText sid) new.
Proof.
  eapply (upload_with_lessons demo_media (gemini_ok demo_analysis) demo_request demo_file "Driver"
            demo_world_tally [] [] []);
    try reflexivity; try discriminate; try (intros; reflexivity).
  exact tally_uuids_inj.
Defined.

(** X9: A first roadmap whose goalType fails the CHECK makes the upload answer 500 with the SQLite message CHECK constraint failed: goalType IN ('Ideal', 'Playable'), while the swing row (analyzed = 0) and its metrics row stay and no lesson is written. *)
Lemma upload_roadmap_check_fails me ge req file club w rs ms ls fs ts rf rest :
  g_dummy_key ge = false -> (forall p, g_upload ge p = inr tt) ->
  g_wait ge = inr tt -> g_generate ge = inr tt -> g_parsed ge = inr (JObj fs) ->
  up_file req = Some file -> up_club req = Some club -> club <> "" ->
  db_foreign_keys (w_db w) = false ->
  find_table "swings" (db_tables (w_db w)) = Some (swings_table, rs) ->
  find_table "swing_metrics" (db_tables (w_db w)) = Some (swing_metrics_table, ms) ->
  find_table "lessons" (db_tables (w_db w)) = Some (lessons_table, ls) ->
  (forall n, existsb (fun r => sql_eqb (lookup_cell "id" r) (SText (w_uuids w n))) rs = false) ->
  (forall n, existsb (fun r => sql_eqb (lookup_cell "id" r) (SText (w_uuids w n))) ms = false) ->
  (forall n, existsb (fun r => sql_eqb (lookup_cell "swingId" r) (SText (w_uuids w n))) ms = false) ->
  field fs "timestampsMs" = JObj ts ->
  forallb (fun k => scalar (field ts k)) checkpoint_keys = true ->
  forallb (fun k => scalar (field fs k)) ["estimatedClubSpeed"; "estimatedClubPath"; "estimatedDistance"] = true ->
  scalar (field rf "goalType") = true ->
  goalType_check (bind_scalar (field rf "goalType")) = false ->
  scalar (field rf "aiReview") = true ->
  exists w1 sid r m,
    upload_handler me ge (JArr (JObj rf :: rest)) req w =
      (inr (error_response (SQLiteError "CHECK constraint failed: goalType IN ('Ideal', 'Playable')")), w1) /\
    rows_of (w_db w1) "swings" = app rs [r] /\
    lookup_cell "id" r = SText sid /\ lookup_cell "analyzed" r = SNum 0 /\
    rows_of (w_db w1) "swing_metrics" = app ms [m] /\ lookup_cell "swingId" m = SText sid /\
    rows_of (w_db w1) "lessons" = ls.
Proof.
  intros Hk Hu Hw Hg Hp Hf Hc Hne Hfk Hs Hm Hl Hid Hmid Hmsw Hts Hck Hest Hg1 Hg2 Hg3.
  unfold upload_handler, try_catch. rewrite Hf, Hc.
  rewrite (proj2 (String.eqb_neq club "") Hne).
  set (pid := match up_playerId req with Some p => p | None => "usr_12345" end).
  destruct (accept_upload_db me file club pid w rs Hfk Hs Hid)
    as [abs [k [url [w1 [Hacc [Hd1 Hu1]]]]]].
  rewrite (mbind_run _ _ _ _ _ Hacc). cbn [fst snd].
  unfold analyze_stage.
  assert (Ha : analyzeSwingVideo ge abs w1 = (inr (JObj fs), w1)).
  { unfold analyzeSwingVideo. rewrite Hk. unfold try_catch, mbind, lift. rewrite Hu, Hw, Hg, Hp. reflexivity. }
  rewrite (mbind_run _ _ _ _ _ Ha). change (truthy (JObj fs)) with true. cbv iota.
  destruct w1 as [d1 f1 n1 u1]; cbn [w_db w_uuids] in Hd1, Hu1. subst d1 u1.
  assert (Hm1 : find_table "swing_metrics" (db_tables (with_rows (w_db w) "swings"
                  (app rs [swing_row (w_uuids w k) pid club url]))) = Some (swing_metrics_table, ms)).
  { unfold with_rows. simpl. rewrite find_table_set_rows_other by discriminate. exact Hm. }
  destruct (store_analysis_inserts (mkWorld (with_rows (w_db w) "swings" (app rs [swing_row (w_uuids w k) pid club url])) f1 n1 (w_uuids w))
              (w_uuids w k) fs ts (JArr (JObj rf :: rest)) ms Hfk Hm1 (Hmid n1) (Hmsw k) Hts Hck Hest) as [m [Hmsid Hst]].
  cbn [w_db w_files w_next_uuid w_uuids] in Hst.
  set (w2 := mkWorld (with_rows (with_rows (w_db w) "swings" (app rs [swing_row (w_uuids w k) pid club url]))
                                "swing_metrics" (app ms [m])) f1 (S n1) (w_uuids w)) in Hst.
  assert (Hl2 : find_table "lessons" (db_tables (w_db w2)) = Some (lessons_table, ls)).
  { cbn [w2 w_db]. unfold with_rows. simpl db_tables.
    rewrite !find_table_set_rows_other by discriminate. exact Hl. }
  destruct (finish_analysis_check_fails (w_uuids w k) rf rest w2 ls Hl2 Hg1 Hg2 Hg3) as [w3 [Hfa Hd3]].
  rewrite Hfa in Hst.
  rewrite (mbind_fail _ _ _ _ _ Hst). cbv beta iota.
  exists w3, (w_uuids w k), (swing_row (w_uuids w k) pid club url), m.
  split; [reflexivity|]. rewrite Hd3. cbn [w2 w_db].
  split; [rewrite rows_of_with_rows_other by discriminate;
          apply (rows_of_with_rows_same _ _ _ swings_table rs); exact Hs|].
  split; [reflexivity|]. split; [reflexivity|].
  split; [apply (rows_of_with_rows_same _ _ _ _ _ Hm1)|]. split; [exact Hmsid|].
  rewrite !rows_of_with_rows_other by discriminate. unfold rows_of. rewrite Hl. reflexivity.
Qed.

Lemma upload_roadmap_check_fails_witness :
  exists w1 sid r m,
    upload_handler demo_media (gemini_ok demo_analysis)
      (JArr [JObj [("goalType", JStr "Ultimate"); ("aiReview", JStr "r")]]) demo_request demo_world =
      (inr (error_response (SQLiteError "CHECK constraint failed: goalType IN ('Ideal', 'Playable')")), w1) /\
    rows_of (w_db w1) "swings" = app [] [r] /\
    lookup_cell "id" r = SText sid /\ lookup_cell "analyzed" r = SNum 0 /\
    rows_of (w_db w1) "swing_metrics" = app [] [m] /\ lookup_cell "swingId" m = SText sid /\
    rows_of (w_db w1) "lessons" = [].
Proof.
  eapply (upload_roadmap_check_fails demo_media (gemini_ok demo_analysis) demo_request demo_file "Driver"
            demo_world [] [] []);
    try reflexivity; try discriminate; intros; reflexivity.
Defined.

(** X10: The upload route writes to the swings, swing_metrics and lessons tables only. *)
Lemma upload_handler_frame me ge roadmaps req t :
  t <> "swings" -> t <> "swing_metrics" -> t <> "lessons" ->
  keeps_rows t (upload_handler me ge roadmaps req).
Proof.
  intros H1 H2 H3. unfold upload_handler. apply keeps_try_catch; [|keeps_auto].
  destruct (up_file req) as [file|]; [|keeps_auto].
  destruct (up_club req) as [club|]; [|keeps_auto].
  destruct (String.eqb club ""); [keeps_auto|].
  apply keeps_mbind; [apply keeps_accept_upload, H1|]. intros acc.
  unfold analyze_stage. apply keeps_mbind; [apply keeps_analyzeSwingVideo|]. intros ai.
  apply keeps_mbind; [|keeps_auto].
  destruct (truthy ai); [|keeps_auto].
  unfold store_analysis. keeps_auto.
  unfold finish_analysis, store_lessons. keeps_auto.
  destruct (truthy roadmaps); [|keeps_auto]. keeps_auto.
  destruct (gt_zero _); [|keeps_auto]. keeps_auto.
  apply keeps_insert_lessons_t, H3.
Qed.

Lemma upload_handler_frame_witness :
  keeps_rows "players" (upload_handler demo_media (gemini_ok demo_analysis) demo_roadmaps demo_request).
Proof. apply upload_handler_frame; discriminate. Defined.

(** X11: The launch-monitor route writes to the launch_monitor_data table only. *)
Lemma launch_monitor_handler_frame t ext sid img :
  t <> "launch_monitor_data" -> keeps_rows t (launch_monitor_handler ext sid img).
Proof.
  intros H. unfold launch_monitor_handler. apply keeps_try_catch; [|keeps_auto].
  destruct img; [|keeps_auto]. apply keeps_mbind; [keeps_auto|]. intros data.
  destruct (truthy data); keeps_auto.
Qed.

Lemma launch_monitor_handler_frame_witness :
  keeps_rows "swings" (launch_monitor_handler (inr demo_reading) "uuid-1" (Some demo_image)).
Proof. apply launch_monitor_handler_frame. discriminate. Defined.

(** X12: The favorite route writes to the swings table only. *)
Lemma favorite_handler_frame t sid : t <> "swings" -> keeps_rows t (favorite_handler sid).
Proof.
  intros H. unfold favorite_handler. apply keeps_try_catch; [|keeps_auto].
  keeps_auto. destruct a0; keeps_auto.
Qed.

Lemma favorite_handler_frame_witness : keeps_rows "players" (favorite_handler "uuid-0").
Proof. apply favorite_handler_frame. discriminate. Defined.

(** X13: For an id with no swing, the delete and get routes both answer 404 Not found and change nothing. *)
Lemma missing_swing_not_found swingId w rs :
  find_table "swings" (db_tables (w_db w)) = Some (swings_table, rs) ->
  existsb (fun r => sql_eqb (lookup_cell "id" r) (SText swingId)) rs = false ->
  delete_handler swingId w = (inr (mkResponse 404 [("error", JStr "Not found")]), w) /\
  get_swing_handler swingId w = (inr (mkResponse 404 [("error", JStr "Not found")]), w).
Proof.
  destruct w as [d fs n uu]; simpl. intros Hs Hex.
  pose proof (existsb_false_filter _ _ Hex) as F.
  split.
  - unfold delete_handler, try_catch, mbind, db_prepare, db_run.
    repeat (db_step || rewrite F). reflexivity.
  - unfold get_swing_handler, try_catch, mbind, db_prepare, db_run.
    repeat (db_step || rewrite F). reflexivity.
Qed.

Lemma missing_swing_not_found_witness :
  delete_handler "nope" demo_uploaded = (inr (mkResponse 404 [("error", JStr "Not found")]), demo_uploaded) /\
  get_swing_handler "nope" demo_uploaded = (inr (mkResponse 404 [("error", JStr "Not found")]), demo_uploaded).
Proof.
  apply (missing_swing_not_found "nope" demo_uploaded (rows_of (w_db demo_uploaded) "swings"));
    vm_compute; reflexivity.
Defined.

(** X14: A comment whose text is falsy or trims to the empty string (trim removes tab, LF, VT, FF, CR, space and U+00A0 on Latin-1 text) is answered 400 Comment text is required, with the state unchanged. *)
Theorem comment_blank_rejected (swingId : string) (text : jsval) (w : world) :
  truthy text = false \/ (exists s, text = JStr s /\ js_trim s = "") ->
  comment_handler swingId text w = (inr comment_required, w).
Proof.
  intros [H|[s [-> H]]]; unfold comment_handler, try_catch.
  - rewrite H. reflexivity.
  - destruct (truthy (JStr s)); simpl; [rewrite H|]; reflexivity.
Qed.

Lemma comment_blank_rejected_witness :
  comment_handler "uuid-0" (JStr "   ") demo_world = (inr comment_required, demo_world).
Proof. apply comment_blank_rejected. right. exists "   ". split; reflexivity. Defined.

(** X15: Without a comments table the comment route never answers 201: it answers 400 or 500 and leaves the database and the files as they were. *)
Theorem comment_never_created (swingId : string) (text : jsval) (w : world) :
  find_table "comments" (db_tables (w_db w)) = None ->
  exists r w', comment_handler swingId text w = (inr r, w') /\
    (res_status r = 400 \/ res_status r = 500)%Z /\ w_db w' = w_db w /\ w_files w' = w_files w.
Proof.
  intros Hc. unfold comment_handler.
  destruct (truthy text) eqn:Ht.
  - destruct text; try discriminate; try (eexists _, _; split; [reflexivity|]; simpl; auto; fail).
    destruct (String.eqb (js_trim s) "").
    + eexists _, _; split; [reflexivity|]; simpl; auto.
    + eexists _, _. split.
      { cbv beta iota zeta delta [try_catch mbind uuidv4 db_prepare negb].
        cbn [w_db w_files w_next_uuid w_uuids].
        rewrite (prepare_no_table _ insertComment Hc). reflexivity. }
      simpl. auto.
  - eexists _, _; split; [reflexivity|]; simpl; auto.
Qed.

Lemma comment_never_created_witness :
  exists r w', comment_handler "uuid-0" (JStr "Nice tempo") demo_world = (inr r, w') /\
    (res_status r = 400 \/ res_status r = 500)%Z /\ w_db w' = w_db demo_world /\
    w_files w' = w_files demo_world.
Proof. apply comment_never_created. reflexivity. Defined.

(** X16: For reply text without backticks, stripping the json code fence gives the trimmed text, and so does the unfenced text itself. *)
Theorem json_text_unfences (s : string) :
  ~ In backtick (list_ascii_of_string s) ->
  json_text (Some ("```json" ++ s ++ "```")) = js_trim s /\
  json_text (Some s) = js_trim s.
Proof.
  intros Hn. unfold json_text, remove_all. split.
  - rewrite string_length_append.
    set (n := String.length (s ++ "```")).
    change (String.length "```json" + n)%nat with (S (6 + n)).
    rewrite remove_all_fuel_prefix by discriminate.
    rewrite remove_json_tag_tail by (auto; unfold n; rewrite string_length_append; simpl; lia).
    rewrite remove_fence_tail by (auto; rewrite string_length_append; simpl; lia).
    reflexivity.
  - rewrite (remove_all_fuel_no_backtick "``json" s) by (auto; lia).
    rewrite (remove_all_fuel_no_backtick "``" s) by (auto; lia). reflexivity.
Qed.

Lemma json_text_unfences_witness :
  json_text (Some ("```json" ++ " {}" ++ "```")) = js_trim " {}" /\ json_text (Some " {}") = js_trim " {}".
Proof.
  apply json_text_unfences. simpl. intros H.
  repeat destruct H as [H|H]; try discriminate; try contradiction.
Defined.

(** X17: compressVideo re-encodes at CRF 23 exactly when the input is at most 25 MB. *)
Theorem compress_plan_crf_iff (durationSec : Q) (inputSizeBytes : Z) :
  compress_plan durationSec inputSizeBytes = EncodeCrf 23 <-> (inputSizeBytes <= 25 * 1024 * 1024)%Z.
Proof.
  unfold compress_plan. split.
  - destruct (Qle_bool _ _) eqn:E; [|discriminate]. intros _.
    apply Qle_bool_iff in E. unfold Qle, Qdiv, Qmult, Qinv, inject_Z, TARGET_SIZE_MB in E.
    simpl in E. lia.
  - intros H. rewrite (proj2 (Qle_bool_iff _ _)); [reflexivity|].
    unfold Qle, Qdiv, Qmult, Qinv, inject_Z, TARGET_SIZE_MB. simpl. lia.
Qed.

(** X19: The computed video bitrate never grows with the duration. *)
Theorem bitrate_antitone (d1 d2 : Q) :
  0 < d1 -> d1 <= d2 -> (videoBitrateKbps d2 <= videoBitrateKbps d1)%Z.
Proof.
  intros H1 H12. unfold videoBitrateKbps.
  set (T := inject_Z (TARGET_SIZE_MB * 8 * 1024 * 1024)).
  assert (HT : 0 < T) by (unfold T; reflexivity).
  assert (H2 : 0 < d2) by lra.
  assert (Hq : T / d2 <= T / d1).
  { apply Qle_shift_div_l; [exact H1|].
    assert (E : T / d2 * d2 == T) by (field; intros E; rewrite E in H2; discriminate).
    assert (Hn : 0 < T / d2) by (apply Qlt_shift_div_l; [exact H2|]; lra).
    apply Qle_trans with (T / d2 * d2); [|rewrite E; apply Qle_refl].
    rewrite (Qmult_comm _ d1), (Qmult_comm _ d2).
    apply Qmult_le_compat_r; [exact H12|lra]. }
  assert (Hf : (Qfloor ((T / d2 - inject_Z (128 * 1024)) / inject_Z 1024) <=
                Qfloor ((T / d1 - inject_Z (128 * 1024)) / inject_Z 1024))%Z).
  { apply Qfloor_resp_le. unfold Qdiv at 1 3. apply Qmult_le_compat_r; [lra|discriminate]. }
  lia.
Qed.

Lemma bitrate_antitone_witness : (videoBitrateKbps (inject_Z 120) <= videoBitrateKbps (inject_Z 60))%Z.
Proof. apply bitrate_antitone; vm_compute; [reflexivity | discriminate]. Defined.

